(** * train_pt.py: the PyTorch training driver of imgclsmob

    A shallow embedding of [src/train_pt.py] and the properties of its
    bookkeeping: the running-average meter, the top-k metric, the
    validation and training passes, the epoch loop, model lookup,
    checkpoint handling, command-line parsing and [main].

    Conventions of the embedding.
    - Python [int] is [Z]; Python [float] and tensor entries are exact
      rationals [Q] (rounding is not modelled), compared with [==].
    - A character of a string is a code point; the strings of the
      development range over the code points U+0000 to U+00FF.
    - A function that can raise returns [result A = exn + A]; a function
      that also logs or touches files runs in the monad [M] over [World].
    - Objects mutated in place ([AverageMeter], the network, the
      optimizer) are passed in and handed back explicitly.
    - Calls into the frameworks (torch, torchvision, numpy, argparse's
      scanner, the model zoo, [TrainLogParamSaver], [get_env_stats]) and
      into the operating system ([os.path.exists], [os.makedirs],
      [os.path.getsize], the opening of the log file) are the fields of
      the class [framework]; wall-clock time ([time.time()]) and device
      moves ([.cuda()]) are left out. *)

From Stdlib Require Import ZArith QArith Qfield Lia List Sorted Ascii String.
From stdpp Require Import base option list strings gmap.

Open Scope Z_scope.
Set Warnings "-register-all".

(** ** Exceptions and results *)

Inductive exn : Type :=
| AttributeError (name : string)
| UnboundLocalError (name : string)
| KeyError (key : string)
| TypeError (what : string)
| ValueError (msg : string)
| AssertionError (line : Z)
| ZeroDivisionError
| RuntimeError (what : string)
| FileNotFoundError (path : string)
| IsADirectoryError (path : string)
| OSError (what : string)
| SystemExit (code : Z)
| Exception_.

Definition result (A : Type) : Type := exn + A.

(** [ok a] is a normal return, [raise e] an exception. *)
Abbreviation ok := inr (only parsing).
Abbreviation raise := inl (only parsing).

Definition rbind {A B} (r : result A) (k : A -> result B) : result B :=
  match r with
  | inl e => inl e
  | inr a => k a
  end.

Declare Scope result_scope.
Delimit Scope result_scope with res.
Notation "'let?' x ':=' r 'in' k" := (rbind r (fun x => k))
  (at level 10, x pattern, r at level 100, k at level 200) : result_scope.
Open Scope result_scope.

Definition is_ok {A} (r : result A) : bool :=
  match r with inr _ => true | inl _ => false end.

(** ** [prepare_pt_context] (lines 210-214) *)

Definition prepare_pt_context (num_gpus batch_size : Z) : bool * Z :=
  let use_cuda := bool_decide (num_gpus > 0) in
  let batch_size := batch_size * Z.max 1 num_gpus in
  (use_cuda, batch_size).

(** ** [AverageMeter] (lines 388-403) *)

Module AverageMeter.

Record t : Type := Meter { val : Q; avg : Q; sum : Q; count : Z }.

Definition reset (_ : t) : t :=
  {| val := 0; avg := 0; sum := 0; count := 0 |}.

(** [__init__] only calls [reset]. *)
Definition init : t := reset {| val := 0; avg := 0; sum := 0; count := 0 |}.

(** [update(val, n)], on Python numbers: [self.sum / self.count] is a
    true division and raises when the new count is zero. *)
Definition update (self : t) (v : Q) (n : Z) : result t :=
  let sum' := (sum self + v * inject_Z n)%Q in
  let count' := count self + n in
  if bool_decide (count' = 0) then raise ZeroDivisionError
  else ok {| val := v; avg := (sum' / inject_Z count')%Q;
             sum := sum'; count := count' |}.

(** A sequence of [update] calls, first to last. *)
Fixpoint updates (self : t) (calls : list (Q * Z)) : result t :=
  match calls with
  | [] => ok self
  | (v, n) :: rest => let? m := update self v n in updates m rest
  end.

(** Totals a history of calls stands for. *)
Definition total_n (calls : list (Q * Z)) : Z :=
  foldr (fun c acc => c.2 + acc) 0 calls.
Definition total_vn (calls : list (Q * Z)) : Q :=
  foldr (fun c acc => (c.1 * inject_Z c.2 + acc)%Q) 0%Q calls.
Definition last_val (calls : list (Q * Z)) : Q :=
  default 0%Q (fst <$> last calls).

End AverageMeter.

(** ** [accuracy] (lines 406-420)

    [output] is the score matrix, one row of class scores per sample;
    [target] holds the true class index of each sample. *)

(** [Tensor.topk(k, 1, largest=True, sorted=True)] on one row: the indices
    of the [k] largest scores, best first.  torch leaves the order among
    equal scores open; here the lower index is taken first:
    [insert_desc] puts an entry before the first one whose score is not
    strictly larger, and [sort_desc] inserts from the right, so an entry
    always meets entries of higher index only. *)
Fixpoint insert_desc (x : nat * Q) (l : list (nat * Q)) : list (nat * Q) :=
  match l with
  | [] => [x]
  | y :: l' =>
      if negb (Qle_bool y.2 x.2) then y :: insert_desc x l' else x :: l
  end.

Definition sort_desc (l : list (nat * Q)) : list (nat * Q) :=
  foldr insert_desc [] l.

Definition ranking (row : list Q) : list nat :=
  fst <$> sort_desc (imap (fun i s => (i, s)) row).

Definition topk_row (k : nat) (row : list Q) : result (list nat) :=
  if bool_decide (k <= length row)%nat then ok (take k (ranking row))
  else raise (RuntimeError "selected index k out of range").

Fixpoint topk_rows (k : nat) (output : list (list Q)) : result (list (list nat)) :=
  match output with
  | [] => ok []
  | row :: rows =>
      let? p := topk_row k row in
      let? ps := topk_rows k rows in
      ok (p :: ps)
  end.

(** [target.view(1, -1).expand_as(pred)]: the targets are laid against the
    batch dimension of [pred]; a single target is broadcast, any other
    length mismatch is a shape error. *)
Definition expand_target (target : list nat) (batch : nat) : result (list nat) :=
  if bool_decide (length target = batch) then ok target
  else if bool_decide (length target = 1%nat) then
    ok (replicate batch (default 0%nat (head target)))
  else raise (RuntimeError "expanded size must match the existing size").

(** [correct[:k].view(-1).float().sum(0)]: the number of positions among
    the first [k] predictions of each sample that equal its target. *)
Definition hits (k : nat) (pred : list nat) (t : nat) : nat :=
  length (filter (fun p => p = t) (take k pred)).

Definition correct_k (k : nat) (preds : list (list nat)) (targets : list nat) : nat :=
  sum_list (zip_with (hits k) preds targets).

(** [max(topk)]; an empty tuple is a [ValueError]. *)
Definition py_max (l : list nat) : result nat :=
  match l with
  | [] => raise (ValueError "max() arg is an empty sequence")
  | x :: l' => ok (foldr Nat.max x l')
  end.

Fixpoint accuracy_res (topk : list nat) (preds : list (list nat))
    (targets : list nat) (batch_size : nat) : result (list Q) :=
  match topk with
  | [] => ok []
  | k :: ks =>
      if bool_decide (batch_size = 0%nat) then raise ZeroDivisionError
      else
        let r := (inject_Z (Z.of_nat (correct_k k preds targets))
                  * (100 / inject_Z (Z.of_nat batch_size)))%Q in
        let? rs := accuracy_res ks preds targets batch_size in
        ok (r :: rs)
  end.

Definition accuracy (output : list (list Q)) (target : list nat)
    (topk : list nat) : result (list Q) :=
  let? maxk := py_max topk in
  let batch_size := length target in
  let? preds := topk_rows maxk output in
  let? targets := expand_target target (length preds) in
  accuracy_res topk preds targets batch_size.

(** ** Python values, files, the log *)

(** Values that travel through the argument namespace and through
    pickled checkpoint files. *)
Inductive pyobj : Type :=
| PNone
| PBool (b : bool)
| PInt (z : Z)
| PFloat (q : Q)
| PStr (s : string)
| PList (l : list pyobj)
| PDict (d : list (string * pyobj)).

(** Truth value of an object in a condition. *)
Definition truthy (v : pyobj) : bool :=
  match v with
  | PNone => false
  | PBool b => b
  | PInt z => negb (Z.eqb z 0)
  | PFloat q => negb (Qeq_bool q 0)
  | PStr s => negb (String.eqb s "")
  | PList l => negb (bool_decide (length l = 0%nat))
  | PDict d => negb (bool_decide (length d = 0%nat))
  end.

(** [obj[key]] on a loaded checkpoint. *)
Fixpoint assoc (key : string) (d : list (string * pyobj)) : option pyobj :=
  match d with
  | [] => None
  | (k, v) :: d' => if String.eqb k key then Some v else assoc key d'
  end.

Definition getitem (obj : pyobj) (key : string) : result pyobj :=
  match obj with
  | PDict d =>
      match assoc key d with
      | Some v => ok v
      | None => raise (KeyError key)
      end
  | _ => raise (TypeError "object is not subscriptable by a string key")
  end.

(** Lines written through [logging.info], plus the observable calls the
    driver makes on its collaborators and on the operating system. *)
Inductive event : Type :=
| MakeDirs (log_dir_path : string)                 (* line 183 *)
| AddFileHandler (log_file_path : string)          (* lines 187-188 *)
| LogSeparator                                     (* line 190 *)
| LogCommandLine (argv : list string)              (* line 590 *)
| LogArguments (args : gmap string pyobj)          (* line 591 *)
| LogEnvStats (stats : string)                     (* line 592 *)
| LogLoadingModel (path : string)                  (* line 322 *)
| LogTest (err_top1 err_top5 : Q)                  (* line 457 *)
| LogTimeCost                                      (* line 459 *)
| LogModelParams (weight_count : Z)                (* line 492 *)
| LogBatch (epoch1 : Z) (i : nat) (err_top1 lr : Q) (* line 501 *)
| LogTraining (epoch1 : Z) (err_top1 loss : Q)     (* line 510 *)
| LogSpeed (epoch1 : Z)                            (* line 512 *)
| LogStartFrom (start_epoch1 : Z)                  (* line 537 *)
| LogValidation (epoch1 : Z) (err_top1 err_top5 : Q) (* lines 544, 568 *)
| LogTotalTime                                     (* line 578 *)
| LogBest (value : Q) (epoch : Z)                  (* line 580 *)
| SaverCallback (epoch1 : Z) (params : list Q)     (* line 573 *)
| SaveParams (file_path : string).                 (* line 385 *)

(** The part of the outside world the driver reads and writes: the
    pickled files (a path names the object [torch.load] finds in it) and
    the log; of the log directory and the log file, the log holds the
    calls that make them. *)
Record World : Type := mkWorld {
  w_fs : gmap string pyobj;
  w_log : list event
}.

Definition M (A : Type) : Type := World -> World * result A.

Definition m_ret {A} (a : A) : M A := fun w => (w, ok a).
Definition m_raise {A} (e : exn) : M A := fun w => (w, raise e).
Definition m_bind {A B} (m : M A) (k : A -> M B) : M B :=
  fun w =>
    match m w with
    | (w', inl e) => (w', inl e)
    | (w', inr a) => k a w'
    end.
Definition lift {A} (r : result A) : M A := fun w => (w, r).
Definition log (e : event) : M unit :=
  fun w => (mkWorld (w_fs w) (w_log w ++ [e]), ok tt).

Declare Scope m_scope.
Delimit Scope m_scope with M.
Notation "'let!' x ':=' m 'in' k" := (m_bind m (fun x => k))
  (at level 10, x pattern, m at level 100, k at level 200) : m_scope.
Notation "m ';;' k" := (m_bind m (fun _ => k))
  (at level 100, k at level 200, right associativity) : m_scope.
Open Scope m_scope.

(** [assert cond] on source line [line]. *)
Definition py_assert (line : Z) (cond : bool) : M unit :=
  if cond then m_ret tt else m_raise (AssertionError line).

(** [range(a, b)]. *)
Definition py_range (a b : Z) : list Z := seqZ a (b - a).

(** [AverageMeter] defines [__init__], [reset] and [update] and its
    instances carry [val], [avg], [sum] and [count]; there is no [get],
    so the lookup at line 498 raises. *)
Definition AverageMeter_get (self : AverageMeter.t) : result (Q * Q) :=
  raise (AttributeError "get").

(** ** What the passes hand back

    Over the types of the network [N], the optimizer [O] and the saver
    [S]. *)

(** The result of [validate]: the two errors and the objects it mutated. *)
Record validated (N : Type) : Type := mkValidated {
  v_err_top1 : Q;
  v_err_top5 : Q;
  v_acc_top1 : AverageMeter.t;
  v_acc_top5 : AverageMeter.t;
  v_net : N
}.
Arguments mkValidated {N}.
Arguments v_err_top1 {N}.
Arguments v_err_top5 {N}.
Arguments v_acc_top1 {N}.
Arguments v_acc_top5 {N}.
Arguments v_net {N}.

(** The result of [train_epoch]. *)
Record trained (N O : Type) : Type := mkTrained {
  t_err_top1_train : Q;
  t_train_loss : Q;
  t_acc_top1 : AverageMeter.t;
  t_net : N;
  t_optimizer : O
}.
Arguments mkTrained {N O}.
Arguments t_err_top1_train {N O}.
Arguments t_train_loss {N O}.
Arguments t_acc_top1 {N O}.
Arguments t_net {N O}.
Arguments t_optimizer {N O}.

(** The loop state: the objects the body mutates, the running loss and
    the loop variable [i], which is unbound until the first iteration. *)
Record loop_state (N O : Type) : Type := mkLoop {
  l_i : option nat;
  l_train_loss : Q;
  l_acc_top1 : AverageMeter.t;
  l_net : N;
  l_optimizer : O
}.
Arguments mkLoop {N O}.
Arguments l_i {N O}.
Arguments l_train_loss {N O}.
Arguments l_acc_top1 {N O}.
Arguments l_net {N O}.
Arguments l_optimizer {N O}.

(** The objects the epoch loop mutates. *)
Record objects (N O S : Type) : Type := mkObjects {
  o_acc_top1 : AverageMeter.t;
  o_acc_top5 : AverageMeter.t;
  o_net : N;
  o_optimizer : O;
  o_lp_saver : option S
}.
Arguments mkObjects {N O S}.
Arguments o_acc_top1 {N O S}.
Arguments o_acc_top5 {N O S}.
Arguments o_net {N O S}.
Arguments o_optimizer {N O S}.
Arguments o_lp_saver {N O S}.

(** ** Paths *)

(** [s.endswith('/')]. *)
Fixpoint ends_with_sep (s : string) : bool :=
  match s with
  | EmptyString => false
  | String c EmptyString => Ascii.eqb c "/"
  | String _ s' => ends_with_sep s'
  end.

(** [os.path.join(a, b)] of [posixpath]: an absolute [b] replaces [a];
    otherwise [b] is appended, after a separator unless [a] is empty or
    ends with one. *)
Definition path_join (a b : string) : string :=
  if String.prefix "/" b then b
  else if String.eqb a "" || ends_with_sep a then String.append a b
  else String.append a (String.append "/" b).

(** ** The frameworks the driver calls

    What the script takes from torch, torchvision, argparse, numpy, the
    model zoo of [pytorch.models], [common.train_log_param_saver],
    [common.env_stats] and the operating system: their objects as
    abstract types, their calls as functions; a call that can raise
    returns a [result]. *)
Class framework : Type := {
  Net : Type;        (* a network: torch.nn.Module *)
  Opt : Type;        (* an optimizer: torch.optim.SGD *)
  Sample : Type;     (* one input image *)
  Loss : Type;       (* what the criterion returns *)
  Saver : Type;      (* a TrainLogParamSaver *)

  forward : Net -> list Sample -> list (list Q);     (* net(input) *)
  net_eval : Net -> Net;                             (* net.eval() *)
  net_train : Net -> Net;                            (* net.train() *)
  criterion : list (list Q) -> list nat -> Loss;     (* L(output, target) *)
  (** [[l.mean().asscalar() for l in loss]], whatever the loss object
      does with it, including not being iterable; the length of the list
      is [len(loss)]. *)
  loss_items : Loss -> result (list Q);
  (** [optimizer.zero_grad(); loss.backward(); optimizer.step()]. *)
  optimizer_step : Opt -> Net -> Loss -> Opt * Net;
  (** [optimizer.learning_rate], an attribute the optimizer may lack. *)
  learning_rate : Opt -> result Q;
  (** Shapes of [net.collect_params().values()], [None] for no shape;
      the network may have no such method. *)
  collect_params : Net -> result (list (option (list Z)));
  (** [net.save_parameters(file_path)], whatever the network object does
      with it, including having no such method. *)
  net_save_parameters :
    Net -> string -> gmap string pyobj -> result (gmap string pyobj);

  (** What a [TrainLogParamSaver] decides at the end of an epoch, from
      the epoch and the metrics: its next state and the checkpoint files
      to write ("a rolling retention policy"). *)
  saver_plan : Saver -> Z -> list Q -> Saver * list string;
  best_eval_metric_value : Saver -> Q;
  best_eval_metric_epoch : Saver -> Z;
  (** [TrainLogParamSaver(...)] with the arguments that vary: the file
      name prefix, the directory, the interval, the epochs. *)
  new_saver : string -> string -> Z -> Z -> Saver;

  (** [models.__dict__]: the attributes of the [torchvision.models]
      module, each with what calling it with [pretrained] and [classes]
      does. *)
  torchvision_models : gmap string (bool -> Z -> result Net);
  (** The constructors the star imports from [pytorch.models.*] bind,
      by function name. *)
  local_ctor : string -> bool -> Z -> result Net;
  data_parallel : Net -> Net;             (* torch.nn.DataParallel(net) *)
  data_parallel_features : Net -> Net;    (* on net.features only *)
  net_load_state_dict : Net -> pyobj -> result Net;
  (** [torch.optim.SGD(params=net.parameters(), lr, momentum,
      weight_decay, nesterov)]. *)
  torch_optim_SGD : Net -> Q -> Q -> Q -> bool -> Opt;
  opt_load_state_dict : Opt -> pyobj -> result Opt;

  (** argparse's scanner: given, for each action, its option strings and
      whether it takes a value, it splits the command line into the
      actions met, left to right, each with its raw value; a command line
      it rejects exits the process. *)
  argparse_scan :
    list (list string * bool) -> list string -> result (list (nat * option string));
  py_int : string -> option Z;        (* int(s) *)
  py_float : string -> option Q;      (* float(s) *)

  (** The value [np.random.randint(10000)] returns: an integer from 0
      up to 9999. *)
  np_random_randint : Z;
  np_random_randint_range : 0 <= np_random_randint < 10000;

  (** The file system as [prepare_logger] finds it and acts on it:
      [os.path.exists(path)], [os.makedirs(path)],
      [os.path.getsize(path)], and [logging.FileHandler(path)], which
      opens the file for appending and creates it when it is not there.
      Each of the last three raises what the operating system makes it
      raise. *)
  os_path_exists : string -> bool;
  os_makedirs : string -> result unit;
  os_path_getsize : string -> result Z;
  logging_FileHandler : string -> result unit;
  (** [get_env_stats(packages=..., pip_packages=...)] of
      common/env_stats.py, on the lists split from the two option
      strings: the report, or what the call raises. *)
  get_env_stats : string -> string -> result string;
  (** The two [DataLoader]s over [ImageFolder]s under [data_dir]. *)
  image_folder_loaders :
    string -> Z -> Z
    -> result (list (list Sample * list nat) * list (list Sample * list nat))
}.

(** ** A small framework to run the driver on

    Samples carry their own class scores and the network returns them
    unchanged; the optimizer and the saver hold nothing; the scanner knows
    exact option strings only; the network, like a torch module, has no
    [save_parameters]; no directory or file is there to begin with, and
    the log file cannot be opened at a path that ends with a separator. *)
Module Toy.

Definition find_flag (tok : string) (specs : list (list string * bool))
    : option (nat * bool) :=
  (fix go specs i :=
     match specs with
     | [] => None
     | (flags, takes) :: rest =>
         if bool_decide (tok ∈ flags) then Some (i, takes) else go rest (S i)
     end) specs 0%nat.

Fixpoint scan (specs : list (list string * bool)) (argv : list string)
    : result (list (nat * option string)) :=
  match argv with
  | [] => ok []
  | tok :: rest =>
      match find_flag tok specs with
      | None => raise (SystemExit 2)
      | Some (i, false) =>
          let? occs := scan specs rest in ok ((i, None) :: occs)
      | Some (i, true) =>
          match rest with
          | [] => raise (SystemExit 2)
          | v :: rest' =>
              let? occs := scan specs rest' in ok ((i, Some v) :: occs)
          end
      end
  end.

Fixpoint digits (s : string) (acc : Z) : option Z :=
  match s with
  | EmptyString => Some acc
  | String c s' =>
      let n := nat_of_ascii c in
      if bool_decide (48 <= n <= 57)%nat
      then digits s' (10 * acc + Z.of_nat (n - 48))
      else None
  end.

Definition dec_int (s : string) : option Z :=
  match s with
  | EmptyString => None
  | String "-" EmptyString => None
  | String "-" s' => Z.opp <$> digits s' 0
  | _ => digits s 0
  end.

(** [np.random.randint(10000)] gave 1234. *)
Definition randint_1234 : 0 <= 1234 < 10000 :=
  ltac:(split; [discriminate | reflexivity]).

(** Opening a log file: a path that ends with a separator names a
    directory. *)
Definition open_log_file (path : string) : result unit :=
  if ends_with_sep path then raise (IsADirectoryError path) else ok tt.

(** One training batch and a validation set of two samples over six
    classes: the first has its true class on top, the second has it in
    fourth place. *)
Definition train_data : list (list (list Q) * list nat) :=
  [([[9; 1; 2; 3; 4; 0]%Q], [0%nat])].
Definition val_data : list (list (list Q) * list nat) :=
  [([[9; 1; 2; 3; 4; 0]%Q; [1; 9; 2; 3; 4; 0]%Q], [0%nat; 2%nat])].

(** The small framework over a model zoo. With [gluon] its losses,
    parameters and optimizer answer the Gluon-style calls that
    [train_epoch] makes on them; without, as on torch objects, the calls
    fail. *)
Definition small (gluon : bool) (zoo : gmap string (bool -> Z -> result unit))
    : framework := {|
  Net := unit; Opt := unit; Sample := list Q; Loss := list Q; Saver := unit;
  forward := fun _ input => input;
  net_eval := fun net => net;
  net_train := fun net => net;
  criterion := fun _ _ => [1%Q];
  loss_items := fun loss =>
    if gluon then ok loss else raise (TypeError "iteration over a 0-d tensor");
  optimizer_step := fun optimizer net _ => (optimizer, net);
  learning_rate := fun _ =>
    if gluon then ok (1 # 10)%Q else raise (AttributeError "learning_rate");
  collect_params := fun _ =>
    if gluon then ok [Some [3; 3]; None] else raise (AttributeError "collect_params");
  net_save_parameters := fun _ _ _ => raise (AttributeError "save_parameters");
  saver_plan := fun s _ _ => (s, ["imagenet_toy_last.params"]);
  best_eval_metric_value := fun _ => 0%Q;
  best_eval_metric_epoch := fun _ => 0;
  new_saver := fun _ _ _ _ => tt;
  torchvision_models := zoo;
  local_ctor := fun _ _ _ => ok tt;
  data_parallel := fun net => net;
  data_parallel_features := fun net => net;
  net_load_state_dict := fun net _ => ok net;
  torch_optim_SGD := fun _ _ _ _ _ => tt;
  opt_load_state_dict := fun optimizer _ => ok optimizer;
  argparse_scan := scan;
  py_int := dec_int;
  py_float := fun _ => None;
  np_random_randint := 1234;
  np_random_randint_range := randint_1234;
  os_path_exists := fun _ => false;
  os_makedirs := fun _ => ok tt;
  os_path_getsize := fun _ => ok 0;
  logging_FileHandler := open_log_file;
  get_env_stats := fun packages _ => ok packages;
  image_folder_loaders := fun _ _ _ => ok (train_data, val_data)
|}.

Definition toy : framework := small true {[ "resnet18" := fun _ _ => ok tt ]}.

(** A world with no file and an empty log. *)
Definition w0 : World := mkWorld ∅ [].

(** The same framework with a model zoo whose one constructor rejects
    its arguments with a [ValueError]. *)
Definition rejecting : framework :=
  small true {[ "inception_v3" := fun _ _ => raise (ValueError "unexpected arguments") ]}.

(** The same framework with the calls of [train_epoch] failing. *)
Definition torch_like : framework := small false {[ "resnet18" := fun _ _ => ok tt ]}.

End Toy.

Section Driver.

Context {F : framework}.

(** A batch of the data loader: the inputs and their class indices. *)
Definition batch : Type := list Sample * list nat.

(** *** [calc_net_weight_count] (lines 373-380) *)

Definition calc_net_weight_count (net : Net) : result Z :=
  let? net_params := collect_params net in
  ok (foldl (fun weight_count shape =>
               match shape with
               | None => weight_count
               | Some dims => weight_count + foldr Z.mul 1 dims
               end) 0 net_params).

(** *** [save_params] (lines 383-385) *)

Definition save_params (file_path : string) (net : Net) : M unit :=
  fun w =>
    match net_save_parameters net file_path (w_fs w) with
    | inl e => (w, inl e)
    | inr fs' => (mkWorld fs' (w_log w ++ [SaveParams file_path]), ok tt)
    end.

(** *** [validate] (lines 423-441) *)

(** [for input, target in val_data]. *)
Fixpoint validate_batches (acc_top1 acc_top5 : AverageMeter.t) (net : Net)
    (val_data : list batch) : result (AverageMeter.t * AverageMeter.t) :=
  match val_data with
  | [] => ok (acc_top1, acc_top5)
  | (input, target) :: rest =>
      let output := forward net input in
      let? prec := accuracy output target [1; 5]%nat in
      match prec with
      | [prec1; prec5] =>
          let? acc_top1 := AverageMeter.update acc_top1 prec1 (Z.of_nat (length input)) in
          let? acc_top5 := AverageMeter.update acc_top5 prec5 (Z.of_nat (length input)) in
          validate_batches acc_top1 acc_top5 net rest
      | _ => raise (ValueError "wrong number of values to unpack")
      end
  end.

Definition validate (acc_top1 acc_top5 : AverageMeter.t) (net : Net)
    (val_data : list batch) (use_cuda : bool) : result (validated Net) :=
  let net := net_eval net in
  let acc_top1 := AverageMeter.reset acc_top1 in
  let acc_top5 := AverageMeter.reset acc_top5 in
  let? (acc_top1, acc_top5) := validate_batches acc_top1 acc_top5 net val_data in
  let top1 := AverageMeter.avg acc_top1 in
  let top5 := AverageMeter.avg acc_top5 in
  ok (mkValidated (1 - top1) (1 - top5) acc_top1 acc_top5 net).

(** *** [test] (lines 444-460) *)

Definition test (net : Net) (val_data : list batch) (use_cuda : bool) : M Net :=
  let acc_top1 := AverageMeter.init in
  let acc_top5 := AverageMeter.init in
  let! v := lift (validate acc_top1 acc_top5 net val_data use_cuda) in
  log (LogTest (v_err_top1 v) (v_err_top5 v));;
  log LogTimeCost;;
  m_ret (v_net v).

(** *** [train_epoch] (lines 463-515) *)

(** [sum(...)] of a list of numbers. *)
Definition sumQ (l : list Q) : Q := foldl Qplus 0%Q l.

(** The body of the batch loop at index [i]. *)
Definition train_batch (epoch : Z) (log_interval : Z) (i : nat)
    (b : batch) (st : loop_state Net Opt) : M (loop_state Net Opt) :=
  let '(input, target) := b in
  let output := forward (l_net st) input in
  let loss := criterion output target in
  let '(optimizer, net) := optimizer_step (l_optimizer st) (l_net st) loss in
  (if bool_decide (epoch = 0) && bool_decide (i = 0%nat) then
     let! weight_count := lift (calc_net_weight_count net) in
     log (LogModelParams weight_count)
   else m_ret tt);;
  let! items := lift (loss_items loss) in
  let! _ := (if bool_decide (length items = 0%nat)
             then m_raise ZeroDivisionError else m_ret tt) in
  let train_loss :=
    (l_train_loss st + sumQ items / inject_Z (Z.of_nat (length items)))%Q in
  let! prec1 := lift (accuracy output target [1%nat]) in
  let! prec1_0 := (match prec1 with
                   | p :: _ => m_ret p
                   | [] => m_raise (ValueError "list index out of range")
                   end) in
  let! acc_top1 :=
    lift (AverageMeter.update (l_acc_top1 st) prec1_0 (Z.of_nat (length input))) in
  (if negb (Z.eqb log_interval 0)
      && Z.eqb ((Z.of_nat i + 1) `mod` log_interval) 0 then
     let! (_, top1) := lift (AverageMeter_get acc_top1) in
     let err_top1_train := (1 - top1)%Q in
     let! lr := lift (learning_rate optimizer) in
     log (LogBatch (epoch + 1) i err_top1_train lr)
   else m_ret tt);;
  m_ret (mkLoop (Some i) train_loss acc_top1 net optimizer).

(** [for i, (input, target) in enumerate(train_data)], from index [i]. *)
Fixpoint train_batches (epoch : Z) (log_interval : Z) (i : nat)
    (train_data : list batch) (st : loop_state Net Opt) : M (loop_state Net Opt) :=
  match train_data with
  | [] => m_ret st
  | b :: rest =>
      let! st := train_batch epoch log_interval i b st in
      train_batches epoch log_interval (S i) rest st
  end.

Definition train_epoch (epoch : Z) (acc_top1 : AverageMeter.t) (net : Net)
    (train_data : list batch) (use_cuda : bool) (optimizer : Opt)
    (batch_size : Z) (log_interval : Z) : M (trained Net Opt) :=
  let net := net_train net in
  let acc_top1 := AverageMeter.reset acc_top1 in
  let train_loss := 0%Q in
  let! st := train_batches epoch log_interval 0 train_data
               (mkLoop None train_loss acc_top1 net optimizer) in
  let top1 := AverageMeter.avg (l_acc_top1 st) in
  let err_top1_train := (1 - top1)%Q in
  let! i := (match l_i st with
             | Some i => m_ret i
             | None => m_raise (UnboundLocalError "i")
             end) in
  let train_loss := (l_train_loss st / inject_Z (Z.of_nat i + 1))%Q in
  log (LogTraining (epoch + 1) err_top1_train train_loss);;
  log (LogSpeed (epoch + 1));;
  m_ret (mkTrained err_top1_train train_loss (l_acc_top1 st)
          (l_net st) (l_optimizer st)).

(** *** [train_net] (lines 518-581) *)

(** The saver writes a file through [save_params], the callback [main]
    passes as [checkpoint_file_save_callback] (line 650). *)
Fixpoint save_all (paths : list string) (net : Net) : M unit :=
  match paths with
  | [] => m_ret tt
  | p :: rest => save_params p net;; save_all rest net
  end.

(** Modelled from the spec: [TrainLogParamSaver.epoch_test_end_callback]
    of common/train_log_param_saver.py, which is not among the sources.
    The driver "checkpoints the best/most-recent model state to disk":
    called with [epoch1], [params] and [net=net] (line 573), the saver
    takes from its plan the files to write and writes each through its
    callback. *)
Definition epoch_test_end_callback (lp_saver : Saver) (epoch1 : Z)
    (params : list Q) (net : Net) : M Saver :=
  log (SaverCallback epoch1 params);;
  let '(lp_saver, paths) := saver_plan lp_saver epoch1 params in
  save_all paths net;;
  m_ret lp_saver.

(** The body of [for epoch in range(start_epoch1 - 1, num_epochs)]. *)
Definition train_one (batch_size : Z) (train_data val_data : list batch)
    (log_interval : Z) (use_cuda : bool) (epoch : Z)
    (o : objects Net Opt Saver) : M (objects Net Opt Saver) :=
  let! t := train_epoch epoch (o_acc_top1 o) (o_net o) train_data use_cuda
              (o_optimizer o) batch_size log_interval in
  let! v := lift (validate (t_acc_top1 t) (o_acc_top5 o) (t_net t) val_data use_cuda) in
  log (LogValidation (epoch + 1) (v_err_top1 v) (v_err_top5 v));;
  let! lp_saver :=
    (match o_lp_saver o with
     | Some lp_saver =>
         let! s := epoch_test_end_callback lp_saver (epoch + 1)
                     [v_err_top1 v; t_err_top1_train t; v_err_top5 v; t_train_loss t]
                     (v_net v) in
         m_ret (Some s)
     | None => m_ret None
     end) in
  m_ret (mkObjects (v_acc_top1 v) (v_acc_top5 v) (v_net v) (t_optimizer t) lp_saver).

Fixpoint train_epochs (batch_size : Z) (train_data val_data : list batch)
    (log_interval : Z) (use_cuda : bool) (epochs : list Z)
    (o : objects Net Opt Saver) : M (objects Net Opt Saver) :=
  match epochs with
  | [] => m_ret o
  | epoch :: rest =>
      let! o := train_one batch_size train_data val_data log_interval use_cuda epoch o in
      train_epochs batch_size train_data val_data log_interval use_cuda rest o
  end.

Definition train_net (batch_size num_epochs : Z) (start_epoch1 : pyobj)
    (train_data val_data : list batch) (net : Net) (optimizer : Opt)
    (lp_saver : option Saver) (log_interval : Z) (use_cuda : bool)
    : M (objects Net Opt Saver) :=
  let acc_top1 := AverageMeter.init in
  let acc_top5 := AverageMeter.init in
  let! start_epoch1 :=
    (match start_epoch1 with
     | PInt z => m_ret z
     | _ => m_raise (AssertionError 534)
     end) in
  py_assert 535 (bool_decide (start_epoch1 >= 1));;
  let! o :=
    (if bool_decide (start_epoch1 > 1) then
       log (LogStartFrom start_epoch1);;
       let! v := lift (validate acc_top1 acc_top5 net val_data use_cuda) in
       log (LogValidation (start_epoch1 - 1) (v_err_top1 v) (v_err_top5 v));;
       m_ret (mkObjects (v_acc_top1 v) (v_acc_top5 v) (v_net v) optimizer lp_saver)
     else m_ret (mkObjects acc_top1 acc_top5 net optimizer lp_saver)) in
  let! o := train_epochs batch_size train_data val_data log_interval use_cuda
              (py_range (start_epoch1 - 1) num_epochs) o in
  log LogTotalTime;;
  (match o_lp_saver o with
   | Some s => log (LogBest (best_eval_metric_value s) (best_eval_metric_epoch s))
   | None => m_ret tt
   end);;
  m_ret o.

(** *** [_get_model] (lines 261-299) *)

(** A model constructor called with [pretrained=...] and [classes=...]. *)
Definition ctor : Type := bool -> Z -> result Net.

Definition slk_model_names : list string :=
  [ "squeezenet1_0"; "squeezenet1_1";
    "mobilenet1_0"; "mobilenet0_75"; "mobilenet0_5"; "mobilenet0_25";
    "fd_mobilenet1_0"; "fd_mobilenet0_75"; "fd_mobilenet0_5"; "fd_mobilenet0_25";
    "shufflenet1_0_g1"; "shufflenet1_0_g2"; "shufflenet1_0_g3";
    "shufflenet1_0_g4"; "shufflenet1_0_g8";
    "shufflenet0_5_g1"; "shufflenet0_5_g2"; "shufflenet0_5_g3";
    "shufflenet0_5_g4"; "shufflenet0_5_g8";
    "shufflenet0_25_g1"; "shufflenet0_25_g2"; "shufflenet0_25_g3";
    "shufflenet0_25_g4"; "shufflenet0_25_g8";
    "menet108_8x1_g3" ].

(** Every key of [slk_models] is bound to the function of that name. *)
Definition slk_models : gmap string ctor :=
  list_to_map ((fun n => (n, local_ctor n)) <$> slk_model_names).

(** [d[key]] on a dictionary. *)
Definition dict_get {A} (d : gmap string A) (key : string) : result A :=
  match d !! key with
  | Some v => ok v
  | None => raise (KeyError key)
  end.

(** [models] is a module object: it supports neither [in] nor [keys]. *)
Definition module_contains (name : string) : result bool :=
  raise (TypeError "argument of type 'module' is not iterable").
Definition module_keys : result (list string) :=
  raise (AttributeError "keys").

(** [str.lower()], character by character: the capital letters are A to
    Z and, above U+007F, U+00C0 to U+00DE without the sign U+00D7. *)
Definition ascii_lower (c : ascii) : ascii :=
  let n := nat_of_ascii c in
  if bool_decide (65 <= n <= 90 \/ (192 <= n <= 222 /\ n <> 215))%nat
  then ascii_of_nat (n + 32) else c.
Fixpoint lower (s : string) : string :=
  match s with
  | EmptyString => EmptyString
  | String c s' => String (ascii_lower c) (lower s')
  end.

Definition join_names (names : list string) : string :=
  foldr (fun n acc => String.append (String.append n "; ") acc) "" names.

Definition _get_model (name : string) (pretrained : bool) (classes : Z) : result Net :=
  let attempt :=
    let? f := dict_get torchvision_models name in
    f pretrained classes in
  match attempt with
  | inr net => ok net
  | inl (ValueError upstream_supported) =>
      let name := lower name in
      let? known := module_contains name in
      if negb known then
        let? keys := module_keys in
        raise (ValueError (String.append upstream_supported (join_names keys)))
      else
        let? f := dict_get slk_models name in
        f pretrained classes
  | inl e => raise e
  end.

(** *** [prepare_model] (lines 302-326) *)

Definition isfile (path : string) : M bool :=
  fun w => (w, ok (bool_decide (is_Some (w_fs w !! path)))).

(** [torch.load(path)]. *)
Definition torch_load (path : string) : M pyobj :=
  fun w =>
    match w_fs w !! path with
    | Some obj => (w, ok obj)
    | None => (w, raise (FileNotFoundError path))
    end.

Definition prepare_model (model_name : string) (classes : Z)
    (use_pretrained : bool) (pretrained_model_file_path : string)
    (use_cuda : bool) : M Net :=
  let! net := lift (_get_model model_name use_pretrained classes) in
  let net :=
    if String.prefix "alexnet" model_name || String.prefix "vgg" model_name
    then data_parallel_features net
    else data_parallel net in
  if negb (String.eqb pretrained_model_file_path "") then
    let! is_file := isfile pretrained_model_file_path in
    py_assert 321 is_file;;
    log (LogLoadingModel pretrained_model_file_path);;
    let! checkpoint := torch_load pretrained_model_file_path in
    let! state_dict := lift (getitem checkpoint "state_dict") in
    lift (net_load_state_dict net state_dict)
  else m_ret net.

(** *** [prepare_trainer] (lines 329-370)

    The body uses [net], [optimizer_name], [wd], [momentum], [lr] and
    [pretrained_model_file_path] only; the other eight parameters are
    not read and are left out. *)

(** Reading a local variable that may not have been assigned. *)
Definition read_local {A} (name : string) (v : option A) : M A :=
  match v with
  | Some a => m_ret a
  | None => m_raise (UnboundLocalError name)
  end.

Definition prepare_trainer (net : Net) (optimizer_name : string)
    (wd momentum lr : Q) (pretrained_model_file_path : string)
    : M (Opt * pyobj * pyobj * pyobj) :=
  let! optimizer :=
    (if String.eqb optimizer_name "sgd" then
       m_ret (torch_optim_SGD net lr momentum wd false)
     else if String.eqb optimizer_name "nag" then
       m_ret (torch_optim_SGD net lr momentum wd true)
     else m_raise Exception_) in
  let! (optimizer, start_epoch, best_prec1) :=
    (if negb (String.eqb pretrained_model_file_path "") then
       let! checkpoint := torch_load pretrained_model_file_path in
       let! state := lift (getitem checkpoint "optimizer") in
       let! optimizer := lift (opt_load_state_dict optimizer state) in
       let! start_epoch := lift (getitem checkpoint "epoch") in
       let! best_prec1 := lift (getitem checkpoint "best_prec1") in
       m_ret (optimizer, Some start_epoch, Some best_prec1)
     else m_ret (optimizer, None, None)) in
  let lr_scheduler := PNone in
  let! start_epoch := read_local "start_epoch" start_epoch in
  let! best_prec1 := read_local "best_prec1" best_prec1 in
  m_ret (optimizer, lr_scheduler, start_epoch, best_prec1).

(** *** [parse_args] (lines 25-172) *)

Inductive arg_type : Type := TStr | TInt | TFloat.
Inductive arg_action : Type := Store (ty : arg_type) | StoreTrue.

Record arg_spec : Type := mkArg {
  a_flags : list string;
  a_dest : string;
  a_action : arg_action;
  a_default : pyobj;
  a_required : bool
}.

(** The [add_argument] calls, in source order.  [a_dest] is the [dest]
    given in the call or, without one, the first long option with its
    dashes turned into underscores. *)
Definition arguments : list arg_spec :=
  [ mkArg ["--data-dir"] "data_dir" (Store TStr) (PStr "../imgclsmob_data/imagenet") false;
    mkArg ["--model"] "model" (Store TStr) PNone true;
    mkArg ["--use-pretrained"] "use_pretrained" StoreTrue (PBool false) false;
    mkArg ["--resume"] "resume" (Store TStr) (PStr "") false;
    mkArg ["-e"; "--evaluate"] "evaluate" StoreTrue (PBool false) false;
    mkArg ["--num-gpus"] "num_gpus" (Store TInt) (PInt 0) false;
    mkArg ["-j"; "--num-data-workers"] "num_workers" (Store TInt) (PInt 4) false;
    mkArg ["--batch-size"] "batch_size" (Store TInt) (PInt 32) false;
    mkArg ["--num-epochs"] "num_epochs" (Store TInt) (PInt 3) false;
    mkArg ["--start-epoch"] "start_epoch" (Store TInt) (PInt 1) false;
    mkArg ["--optimizer-name"] "optimizer_name" (Store TStr) (PStr "nag") false;
    mkArg ["--lr"] "lr" (Store TFloat) (PFloat (1 # 10)) false;
    mkArg ["--lr-mode"] "lr_mode" (Store TStr) (PStr "step") false;
    mkArg ["--lr-decay"] "lr_decay" (Store TFloat) (PFloat (1 # 10)) false;
    mkArg ["--lr-decay-period"] "lr_decay_period" (Store TInt) (PInt 0) false;
    mkArg ["--lr-decay-epoch"] "lr_decay_epoch" (Store TStr) (PStr "40,60") false;
    mkArg ["--warmup-lr"] "warmup_lr" (Store TFloat) (PFloat 0) false;
    mkArg ["--warmup-epochs"] "warmup_epochs" (Store TInt) (PInt 0) false;
    mkArg ["--momentum"] "momentum" (Store TFloat) (PFloat (9 # 10)) false;
    mkArg ["--wd"] "wd" (Store TFloat) (PFloat (1 # 10000)) false;
    mkArg ["--log-interval"] "log_interval" (Store TInt) (PInt 50) false;
    mkArg ["--save-interval"] "save_interval" (Store TInt) (PInt 4) false;
    mkArg ["--save-dir"] "save_dir" (Store TStr) (PStr "") false;
    mkArg ["--logging-file-name"] "logging_file_name" (Store TStr) (PStr "train.log") false;
    mkArg ["--seed"] "seed" (Store TInt) (PInt (-1)) false;
    mkArg ["--log-packages"] "log_packages" (Store TStr) (PStr "torch, torchvision") false;
    mkArg ["--log-pip-packages"] "log_pip_packages" (Store TStr) (PStr "") false ].

Definition takes_value (a : arg_action) : bool :=
  match a with Store _ => true | StoreTrue => false end.

Definition convert (ty : arg_type) (s : string) : result pyobj :=
  match ty with
  | TStr => ok (PStr s)
  | TInt => match py_int s with
            | Some z => ok (PInt z)
            | None => raise (SystemExit 2)
            end
  | TFloat => match py_float s with
              | Some q => ok (PFloat q)
              | None => raise (SystemExit 2)
              end
  end.

(** One occurrence of an action: [setattr(namespace, dest, value)]. *)
Definition apply_action (ns : gmap string pyobj) (occ : nat * option string)
    : result (gmap string pyobj) :=
  match arguments !! occ.1 with
  | None => raise (SystemExit 2)
  | Some spec =>
      match a_action spec, occ.2 with
      | Store ty, Some s =>
          let? v := convert ty s in ok (<[a_dest spec := v]> ns)
      | StoreTrue, None => ok (<[a_dest spec := PBool true]> ns)
      | _, _ => raise (SystemExit 2)
      end
  end.

Fixpoint apply_actions (ns : gmap string pyobj) (occs : list (nat * option string))
    : result (gmap string pyobj) :=
  match occs with
  | [] => ok ns
  | occ :: rest => let? ns := apply_action ns occ in apply_actions ns rest
  end.

(** The namespace starts with every action's default. *)
Definition default_namespace : gmap string pyobj :=
  foldl (fun ns spec => <[a_dest spec := a_default spec]> ns) ∅ arguments.

(** Every required action must have been met. *)
Definition required_seen (occs : list (nat * option string)) : bool :=
  forallb (fun '(i, spec) =>
             negb (a_required spec) || bool_decide (i ∈ occs.*1))
          (imap (fun i spec => (i, spec)) arguments).

Definition parse_args (argv : list string) : result (gmap string pyobj) :=
  let? occs := argparse_scan
                 ((fun spec => (a_flags spec, takes_value (a_action spec))) <$> arguments)
                 argv in
  let? args := apply_actions default_namespace occs in
  if required_seen occs then ok args else raise (SystemExit 2).

(** Attribute access on the namespace. *)
Definition getattr (args : gmap string pyobj) (name : string) : result pyobj :=
  match args !! name with
  | Some v => ok v
  | None => raise (AttributeError name)
  end.

Definition as_int (v : pyobj) : result Z :=
  match v with PInt z => ok z | _ => raise (TypeError "an integer is required") end.
Definition as_float (v : pyobj) : result Q :=
  match v with PFloat q => ok q | _ => raise (TypeError "a float is required") end.
Definition as_str (v : pyobj) : result string :=
  match v with PStr s => ok s | _ => raise (TypeError "a string is required") end.

Definition attr_int args name := let? v := getattr args name in as_int v.
Definition attr_float args name := let? v := getattr args name in as_float v.
Definition attr_str args name := let? v := getattr args name in as_str v.
Definition attr_bool args name := let? v := getattr args name in ok (truthy v).

(** *** [prepare_logger] (lines 175-191)

    [log_dir_path] is a string here, so [log_dir_path is not None and
    log_dir_path] asks whether it is empty. *)

Definition prepare_logger (log_dir_path logging_file_name : string) : M unit :=
  if negb (String.eqb log_dir_path "") then
    let log_file_path := path_join log_dir_path logging_file_name in
    let! log_file_exist :=
      (if negb (os_path_exists log_dir_path) then
         lift (os_makedirs log_dir_path);;
         log (MakeDirs log_dir_path);;
         m_ret false
       else if os_path_exists log_file_path then
         let! size := lift (os_path_getsize log_file_path) in
         m_ret (bool_decide (size > 0))
       else m_ret false) in
    lift (logging_FileHandler log_file_path);;
    log (AddFileHandler log_file_path);;
    if log_file_exist then log LogSeparator else m_ret tt
  else m_ret tt.

(** *** [init_rand] (lines 194-207)

    [random.seed] takes any integer; [np.random.seed] raises for a seed
    outside [0, 2**32 - 1]; [torch.manual_seed] takes every seed that got
    this far. *)

Definition init_rand (seed : Z) : result Z :=
  let seed := if bool_decide (seed <= 0) then np_random_randint else seed in
  if bool_decide (0 <= seed <= 4294967295) then ok seed
  else raise (ValueError "Seed must be between 0 and 2**32 - 1").

(** *** [get_data_loader] (lines 217-258): the two framework loaders. *)

Definition get_data_loader (data_dir : string) (batch_size num_workers : Z)
    : M (list batch * list batch) :=
  lift (image_folder_loaders data_dir batch_size num_workers).

(** [s.strip()]: white space is what [str.isspace] accepts; up to U+00FF
    that is U+0009 to U+000D, U+001C to U+0020, U+0085 and U+00A0. *)
Definition is_space (c : ascii) : bool :=
  let n := nat_of_ascii c in
  bool_decide (n = 32 \/ 9 <= n <= 13 \/ 28 <= n <= 31 \/ n = 133 \/ n = 160)%nat.
Fixpoint lstrip (l : list ascii) : list ascii :=
  match l with
  | [] => []
  | c :: l' => if is_space c then lstrip l' else l
  end.
Definition strip (s : string) : string :=
  string_of_list_ascii
    (rev (lstrip (rev (lstrip (list_ascii_of_string s))))).

(** *** [main] (lines 584-674) *)

(** Lines 603-674: everything after the batch size is settled.  The
    attributes are read where the source reads them; those passed to
    parameters [prepare_trainer] never reads are left out with them. *)
Definition main_from_model (args : gmap string pyobj) (use_cuda : bool)
    (batch_size : Z) : M unit :=
  let classes := 1000 in
  let! model := lift (attr_str args "model") in
  let! use_pretrained := lift (attr_bool args "use_pretrained") in
  let! resume := lift (attr_str args "resume") in
  let! net := prepare_model model classes use_pretrained (strip resume) use_cuda in
  let! data_dir := lift (attr_str args "data_dir") in
  let! num_workers := lift (attr_int args "num_workers") in
  let! (train_data, val_data) := get_data_loader data_dir batch_size num_workers in
  let! evaluate := lift (attr_bool args "evaluate") in
  if evaluate then
    py_assert 617 (use_pretrained || negb (String.eqb (strip resume) ""));;
    test net val_data use_cuda;;
    m_ret tt
  else
    let! optimizer_name := lift (attr_str args "optimizer_name") in
    let! wd := lift (attr_float args "wd") in
    let! momentum := lift (attr_float args "momentum") in
    let! lr := lift (attr_float args "lr") in
    let! num_epochs := lift (attr_int args "num_epochs") in
    let! (optimizer, lr_scheduler, start_epoch, best_prec1) :=
      prepare_trainer net optimizer_name wd momentum lr (strip resume) in
    let args := <["start_epoch" := start_epoch]> args in
    let! save_dir := lift (attr_str args "save_dir") in
    let! save_interval := lift (attr_int args "save_interval") in
    let lp_saver :=
      if negb (String.eqb save_dir "") && negb (Z.eqb save_interval 0) then
        Some (new_saver (String.append "imagenet_" model) save_dir
                save_interval num_epochs)
      else None in
    let! start_epoch1 := lift (getattr args "start_epoch") in
    let! log_interval := lift (attr_int args "log_interval") in
    train_net batch_size num_epochs start_epoch1 train_data val_data net
      optimizer lp_saver log_interval use_cuda;;
    m_ret tt.

Definition main (argv : list string) : M unit :=
  let! args := lift (parse_args argv) in
  let! seed := lift (attr_int args "seed") in
  let! seed := lift (init_rand seed) in
  let args := <["seed" := PInt seed]> args in
  let! save_dir := lift (attr_str args "save_dir") in
  let! logging_file_name := lift (attr_str args "logging_file_name") in
  prepare_logger save_dir logging_file_name;;
  log (LogCommandLine argv);;
  log (LogArguments args);;
  let! log_packages := lift (attr_str args "log_packages") in
  let! log_pip_packages := lift (attr_str args "log_pip_packages") in
  let! stats := lift (get_env_stats log_packages log_pip_packages) in
  log (LogEnvStats stats);;
  let! num_gpus := lift (attr_int args "num_gpus") in
  let! batch_size := lift (attr_int args "batch_size") in
  let '(use_cuda, batch_size) := prepare_pt_context num_gpus batch_size in
  let! convert_to_mxnet := lift (getattr args "convert_to_mxnet") in
  let batch_size := if truthy convert_to_mxnet then 1 else batch_size in
  main_from_model args use_cuda batch_size.

(** ** Vocabulary of the properties *)

(** *** Reading the log *)

(** [w'] has the log of [w] followed by events that all satisfy [P]. *)
Definition extends (P : event -> Prop) (w w' : World) : Prop :=
  exists new, w_log w' = w_log w ++ new /\ Forall P new.

(** A computation that only appends events satisfying [P]. *)
Definition appends {A} (P : event -> Prop) (m : M A) : Prop :=
  forall w, extends P w (m w).1.

(** The log lines and calls that mark a finished training epoch or a
    checkpoint. *)
Definition epoch_done (e : event) : bool :=
  match e with
  | LogTraining _ _ _ | SaverCallback _ _ | SaveParams _ => true
  | _ => false
  end.

(** The phases of a run, as the log shows them: a finished training
    epoch (line 510), a finished validation pass (lines 544 and 568), a
    call of the saver (line 573); epochs are counted from 1. *)
Inductive phase : Type :=
| Trained (epoch1 : Z)
| Validated (epoch1 : Z)
| SaverCalled (epoch1 : Z).

Definition phase_of (e : event) : list phase :=
  match e with
  | LogTraining n _ _ => [Trained n]
  | LogValidation n _ _ => [Validated n]
  | SaverCallback n _ => [SaverCalled n]
  | _ => []
  end.

Definition phases (l : list event) : list phase := flat_map phase_of l.

(** Validation batches on which the calls of a pass go through: a
    non-empty input and scores the metric accepts. *)
Definition val_batch_ok_at (net : Net) (b : batch) : Prop :=
  b.1 <> [] /\ is_ok (accuracy (forward net b.1) b.2 [1; 5]%nat) = true.
Definition val_batch_ok (b : batch) : Prop := forall net, val_batch_ok_at net b.

(** *** What the metric should count *)

(** The true class [t] is among the [k] best-scored classes of [row]. *)
Definition top_k_correct (k : nat) (row : list Q) (t : nat) : bool :=
  bool_decide (t ∈ take k (ranking row)).

(** Correctly classified samples of a batch, of a data set. *)
Fixpoint n_correct (k : nat) (output : list (list Q)) (target : list nat) : nat :=
  match output, target with
  | row :: output', t :: target' =>
      (if top_k_correct k row t then 1 else 0) + n_correct k output' target'
  | _, _ => 0
  end%nat.

Fixpoint total_correct (k : nat) (net : Net) (data : list batch) : nat :=
  match data with
  | [] => 0
  | (input, target) :: rest =>
      n_correct k (forward net input) target + total_correct k net rest
  end%nat.

Fixpoint total_samples (data : list batch) : nat :=
  match data with
  | [] => 0
  | (input, _) :: rest => length input + total_samples rest
  end%nat.

(** Classes of [row] scored strictly higher than [s]. *)
Definition scored_higher (s : Q) (row : list Q) : nat :=
  length (List.filter (fun s' => negb (Qle_bool s' s)) row).

(** The class [t] has fewer than [k] classes of [row] scored strictly
    higher: it is among the [k] highest-scored. *)
Definition among_k_highest (k : nat) (row : list Q) (t : nat) : bool :=
  match row !! t with
  | Some s => bool_decide (scored_higher s row < k)%nat
  | None => false
  end.

(** No two classes of [row] have the same score. *)
Definition tie_free (row : list Q) : Prop :=
  forall i j si sj,
    row !! i = Some si -> row !! j = Some sj -> (si == sj)%Q -> i = j.

Fixpoint n_among_k_highest (k : nat) (output : list (list Q)) (target : list nat)
    : nat :=
  match output, target with
  | row :: output', t :: target' =>
      (if among_k_highest k row t then 1 else 0) + n_among_k_highest k output' target'
  | _, _ => 0
  end%nat.

(** Entries in descending order of score. *)
Definition descending (l : list (nat * Q)) : Prop :=
  StronglySorted (fun x y => (y.2 <= x.2)%Q) l.

(** One score row and one target per input sample, and some sample. *)
Definition well_shaped (net : Net) (b : batch) : Prop :=
  b.1 <> [] /\ length (forward net b.1) = length b.1 /\ length b.2 = length b.1.

(** A validation batch the metric accepts: well shaped, with at least
    five classes scored for every sample. *)
Definition val_batch_good (net : Net) (b : batch) : Prop :=
  well_shaped net b /\ Forall (fun row => (5 <= length row)%nat) (forward net b.1).

(** *** What a parsed namespace looks like *)

Definition has_type (a : arg_action) (v : pyobj) : Prop :=
  match a with
  | Store TStr => exists s, v = PStr s
  | Store TInt => exists z, v = PInt z
  | Store TFloat => exists q, v = PFloat q
  | StoreTrue => exists b, v = PBool b
  end.

(** The attribute of an action holds its default or a value of the
    action's type. *)
Definition attr_ok (ns : gmap string pyobj) (spec : arg_spec) : Prop :=
  exists v, ns !! a_dest spec = Some v
            /\ (v = a_default spec \/ has_type (a_action spec) v).

(** The namespace has the attributes of the declared actions, and no
    other. *)
Definition namespace_ok (ns : gmap string pyobj) : Prop :=
  Forall (attr_ok ns) arguments
  /\ forall name, name ∉ a_dest <$> arguments -> ns !! name = None.

(** The events of [main] up to and including the environment report. *)
Definition logging_stage (e : event) : Prop :=
  match e with
  | MakeDirs _ | AddFileHandler _ | LogSeparator | LogCommandLine _
  | LogArguments _ | LogEnvStats _ => True
  | _ => False
  end.

Definition is_assertion (e : exn) : bool :=
  match e with AssertionError _ => true | _ => false end.

(** *** Further vocabulary *)

(** The per-batch progress line of line 501. *)
Definition is_batch_line (e : event) : bool :=
  match e with LogBatch _ _ _ _ => true | _ => false end.

(** A computation that leaves every file as it was. *)
Definition keeps_files {A} (m : M A) : Prop :=
  forall w, w_fs (m w).1 = w_fs w.


(** The loss of a batch cannot be taken apart at line 493, as the loss
    tensor of torch cannot: it is not iterated over, and a scalar of it
    has no [asscalar]. *)
Definition loss_not_iterable : Prop :=
  forall loss : Loss, is_ok (loss_items loss) = false.

(** What [parse_args] hands the scanner: the option strings of every
    action and whether it takes a value. *)
Definition scanner_specs : list (list string * bool) :=
  (fun spec => (a_flags spec, takes_value (a_action spec))) <$> arguments.

(** What makes a raw value unacceptable to an [int] or [float] action. *)
Definition bad_value (occ : nat * option string) : Prop :=
  exists spec s,
    arguments !! occ.1 = Some spec /\ occ.2 = Some s
    /\ ((a_action spec = Store TInt /\ py_int s = None)
        \/ (a_action spec = Store TFloat /\ py_float s = None)).

(** ** Properties *)

(** *** The device context *)

(** C10: [prepare_pt_context] reports CUDA exactly when [num_gpus > 0],
    and the effective batch size is the per-device batch size times
    [max(1, num_gpus)]. *)
Theorem prepare_pt_context_spec (num_gpus batch_size : Z) :
  ((prepare_pt_context num_gpus batch_size).1 = true <-> num_gpus > 0)
  /\ (prepare_pt_context num_gpus batch_size).2 = batch_size * Z.max 1 num_gpus.
Proof.
  unfold prepare_pt_context; simpl. split; [|reflexivity].
  rewrite bool_decide_eq_true. reflexivity.
Qed.

(** *** The running-average meter *)

Lemma update_ok (m : AverageMeter.t) (v : Q) (n : Z) :
  AverageMeter.count m + n <> 0 ->
  AverageMeter.update m v n =
    ok (AverageMeter.Meter v
          ((AverageMeter.sum m + v * inject_Z n)
           / inject_Z (AverageMeter.count m + n))%Q
          (AverageMeter.sum m + v * inject_Z n)%Q
          (AverageMeter.count m + n)).
Proof.
  intros Hne. unfold AverageMeter.update.
  rewrite bool_decide_eq_false_2 by assumption. reflexivity.
Qed.

(** From a meter whose [avg] is [sum / count], a run of [update] calls
    with positive weights goes through and adds up. *)
Lemma updates_from (calls : list (Q * Z)) :
  forall m : AverageMeter.t,
    0 <= AverageMeter.count m ->
    (AverageMeter.avg m == AverageMeter.sum m / inject_Z (AverageMeter.count m))%Q ->
    Forall (fun c => 0 < c.2) calls ->
    exists m',
      AverageMeter.updates m calls = ok m'
      /\ AverageMeter.count m' = AverageMeter.count m + AverageMeter.total_n calls
      /\ (AverageMeter.sum m' == AverageMeter.sum m + AverageMeter.total_vn calls)%Q
      /\ AverageMeter.val m' = default (AverageMeter.val m) (fst <$> last calls)
      /\ (AverageMeter.avg m' == AverageMeter.sum m' / inject_Z (AverageMeter.count m'))%Q.
Proof.
  induction calls as [|[v n] calls IH]; intros m Hc Havg Hpos.
  - exists m. simpl. repeat split; [lia | ring | assumption].
  - apply Forall_cons in Hpos as [Hn Hpos]. simpl in Hn.
    simpl AverageMeter.updates. rewrite update_ok by lia. simpl rbind.
    match goal with
    | |- context [AverageMeter.updates ?m1 calls] =>
        destruct (IH m1) as (m' & Hrun & Hcount & Hsum & Hval & Havg');
        [| |exact Hpos|]
    end.
    + simpl. lia.
    + simpl. reflexivity.
    + exists m'. simpl in *. split; [exact Hrun|]. repeat split.
      * rewrite Hcount. lia.
      * rewrite Hsum. ring.
      * rewrite Hval. clear. destruct calls as [|c calls]; [reflexivity|].
        rewrite last_cons_cons.
        destruct (last (c :: calls)) eqn:E; [reflexivity|].
        apply last_None in E. discriminate.
      * exact Havg'.
Qed.

(** C9: [reset] zeroes the four fields; after [reset], any run of
    [update(val, n)] calls with every [n > 0] completes and leaves
    [count] the total of the [n]s, [sum] the [n]-weighted total of the
    values, [val] the most recent value ([0] when there was no call)
    and [avg] equal to [sum / count]. *)
Theorem AverageMeter_invariant (m0 : AverageMeter.t) (calls : list (Q * Z)) :
  Forall (fun c => 0 < c.2) calls ->
  AverageMeter.reset m0 = AverageMeter.Meter 0 0 0 0
  /\ exists m,
       AverageMeter.updates (AverageMeter.reset m0) calls = ok m
       /\ AverageMeter.count m = AverageMeter.total_n calls
       /\ (AverageMeter.sum m == AverageMeter.total_vn calls)%Q
       /\ AverageMeter.val m = AverageMeter.last_val calls
       /\ (AverageMeter.avg m == AverageMeter.sum m / inject_Z (AverageMeter.count m))%Q.
Proof.
  intros Hpos. split; [reflexivity|].
  destruct (updates_from calls (AverageMeter.reset m0)) as
    (m & Hrun & Hcount & Hsum & Hval & Havg); simpl; [lia|reflexivity|exact Hpos|].
  exists m. simpl in *. repeat split; try assumption.
  - rewrite Hsum. ring.
Qed.

(** *** The metric and the validation pass *)

Lemma accuracy_res_length (topk : list nat) (preds : list (list nat))
    (targets : list nat) (batch_size : nat) (res : list Q) :
  accuracy_res topk preds targets batch_size = ok res -> length res = length topk.
Proof.
  revert res. induction topk as [|k ks IH]; intros res; simpl.
  - intros [= <-]. reflexivity.
  - case_bool_decide; [discriminate|].
    destruct (accuracy_res ks preds targets batch_size) as [e|rs]; simpl; [discriminate|].
    intros [= <-]. simpl. f_equal. apply IH. reflexivity.
Qed.

Lemma accuracy_length (output : list (list Q)) (target topk : list nat) (res : list Q) :
  accuracy output target topk = ok res -> length res = length topk.
Proof.
  unfold accuracy.
  destruct (py_max topk) as [e|maxk]; simpl; [discriminate|].
  destruct (topk_rows maxk output) as [e|preds]; simpl; [discriminate|].
  destruct (expand_target target (length preds)) as [e|targets]; simpl; [discriminate|].
  apply accuracy_res_length.
Qed.

Lemma update_nonneg (m : AverageMeter.t) (v : Q) (n : Z) :
  0 <= AverageMeter.count m -> 0 < n ->
  exists m', AverageMeter.update m v n = ok m' /\ 0 <= AverageMeter.count m'.
Proof.
  intros Hc Hn. rewrite update_ok by lia. eexists. split; [reflexivity|]. simpl. lia.
Qed.

Lemma validate_batches_ok (net : Net) (val_data : list batch) :
  Forall (val_batch_ok_at net) val_data ->
  forall a1 a5 : AverageMeter.t,
    0 <= AverageMeter.count a1 -> 0 <= AverageMeter.count a5 ->
    exists r, validate_batches a1 a5 net val_data = ok r.
Proof.
  induction 1 as [|[input target] rest [Hin Hacc] _ IH]; intros a1 a5 H1 H5; simpl.
  - eauto.
  - simpl in Hin, Hacc.
    destruct (accuracy (forward net input) target [1; 5]%nat) as [e|prec] eqn:E;
      [discriminate|]. simpl.
    apply accuracy_length in E.
    destruct prec as [|p1 [|p5 [|? ?]]]; try discriminate.
    assert (0 < Z.of_nat (length input)) by (destruct input; simpl; [done|lia]).
    destruct (update_nonneg a1 p1 _ H1 H) as (m1 & -> & Hm1). simpl.
    destruct (update_nonneg a5 p5 _ H5 H) as (m5 & -> & Hm5). simpl.
    apply IH; assumption.
Qed.

Lemma validate_ok (a1 a5 : AverageMeter.t) (net : Net) (val_data : list batch)
    (use_cuda : bool) :
  Forall val_batch_ok val_data ->
  exists v, validate a1 a5 net val_data use_cuda = ok v.
Proof.
  intros Hval. unfold validate.
  assert (Hval' : Forall (val_batch_ok_at (net_eval net)) val_data)
    by (eapply Forall_impl; [exact Hval | intros b Hb; apply Hb]).
  destruct (validate_batches_ok (net_eval net) val_data Hval'
              (AverageMeter.reset a1) (AverageMeter.reset a5)) as ([m1 m5] & ->);
    simpl; [lia | lia | eauto].
Qed.

Lemma insert_desc_perm (x : nat * Q) (l : list (nat * Q)) :
  insert_desc x l ≡ₚ x :: l.
Proof.
  induction l as [|y l IH]; simpl; [reflexivity|].
  destruct (negb _); [|reflexivity].
  rewrite IH. apply Permutation_swap.
Qed.

Lemma sort_desc_perm (l : list (nat * Q)) : sort_desc l ≡ₚ l.
Proof.
  induction l as [|x l IH]; simpl; [reflexivity|].
  rewrite insert_desc_perm, IH. reflexivity.
Qed.

Lemma imap_indices (row : list Q) :
  forall f : nat -> nat,
    (imap (fun i s => (f i, s)) row).*1 = f <$> seq 0 (length row).
Proof.
  induction row as [|s row IH]; intros f; [reflexivity|].
  rewrite imap_cons. simpl. f_equal.
  rewrite <- fmap_S_seq, <- list_fmap_compose. apply (IH (f ∘ S)).
Qed.

Lemma ranking_perm (row : list Q) : ranking row ≡ₚ seq 0 (length row).
Proof.
  unfold ranking. rewrite sort_desc_perm.
  pose proof (imap_indices row id) as Hidx. rewrite list_fmap_id in Hidx.
  change ((imap (fun i s => (i, s)) row).*1 = seq 0 (length row)) in Hidx.
  rewrite Hidx. reflexivity.
Qed.

Lemma ranking_NoDup (row : list Q) : NoDup (ranking row).
Proof. rewrite ranking_perm. apply NoDup_seq. Qed.

Lemma hits_indicator (k : nat) (row : list Q) (t : nat) :
  hits k (ranking row) t = if top_k_correct k row t then 1%nat else 0%nat.
Proof.
  unfold hits, top_k_correct.
  assert (Hnd : NoDup (take k (ranking row))).
  { eapply sublist_NoDup; [apply ranking_NoDup | apply sublist_take]. }
  induction (take k (ranking row)) as [|p l IH]; [reflexivity|].
  apply NoDup_cons in Hnd as [Hp Hnd]. specialize (IH Hnd).
  rewrite filter_cons. destruct (decide (p = t)) as [Hpt|Hpt].
  - subst p. simpl. rewrite IH.
    rewrite bool_decide_eq_false_2 by assumption.
    rewrite bool_decide_eq_true_2 by constructor. reflexivity.
  - rewrite IH. case_bool_decide as Hin.
    + rewrite bool_decide_eq_true_2 by (constructor; assumption). reflexivity.
    + rewrite bool_decide_eq_false_2; [reflexivity|].
      intros [?|?]%elem_of_cons; [congruence | contradiction].
Qed.

Lemma topk_rows_spec (k : nat) (output : list (list Q)) (preds : list (list nat)) :
  topk_rows k output = ok preds -> preds = (fun row => take k (ranking row)) <$> output.
Proof.
  revert preds. induction output as [|row rows IH]; intros preds; simpl.
  - intros [= <-]. reflexivity.
  - unfold topk_row. case_bool_decide; simpl; [|discriminate].
    destruct (topk_rows k rows) as [e|ps]; simpl; [discriminate|].
    intros [= <-]. rewrite (IH ps eq_refl). reflexivity.
Qed.

Lemma correct_k_count (k maxk : nat) (output : list (list Q)) :
  (k <= maxk)%nat ->
  forall target : list nat,
    correct_k k ((fun row => take maxk (ranking row)) <$> output) target
    = n_correct k output target.
Proof.
  intros Hk. unfold correct_k.
  induction output as [|row rows IH]; intros [|t target]; simpl; try reflexivity.
  rewrite IH. f_equal.
  rewrite <- hits_indicator. unfold hits.
  rewrite take_take, Nat.min_l by assumption. reflexivity.
Qed.

Lemma py_max_bound (topk : list nat) (maxk : nat) :
  py_max topk = ok maxk -> Forall (fun k => (k <= maxk)%nat) topk.
Proof.
  destruct topk as [|x l]; simpl; [discriminate|]. intros [= <-].
  induction l as [|y l IH]; simpl.
  - repeat constructor.
  - apply Forall_cons in IH as [Hx Hl]. constructor; [lia|]. constructor; [lia|].
    eapply Forall_impl; [exact Hl|]. simpl. intros; lia.
Qed.

(** The value [accuracy] computes for each [k]: the count of correct
    samples, scaled by [100 / batch_size]. *)
Lemma accuracy_res_value (topk : list nat) (maxk : nat) (output : list (list Q))
    (target : list nat) (res : list Q) :
  Forall (fun k => (k <= maxk)%nat) topk ->
  accuracy_res topk ((fun row => take maxk (ranking row)) <$> output) target
    (length target) = ok res ->
  res = (fun k => (inject_Z (Z.of_nat (n_correct k output target))
                   * (100 / inject_Z (Z.of_nat (length target))))%Q) <$> topk.
Proof.
  intros Hk. revert res. induction Hk as [|k ks Hk _ IH]; intros res; simpl.
  - intros [= <-]. reflexivity.
  - case_bool_decide; [discriminate|].
    destruct (accuracy_res ks _ target (length target)) as [e|rs]; simpl; [discriminate|].
    intros [= <-]. rewrite (correct_k_count k maxk output Hk target).
    rewrite (IH rs eq_refl). reflexivity.
Qed.

Lemma accuracy_value (output : list (list Q)) (target topk : list nat) (res : list Q) :
  length output = length target ->
  accuracy output target topk = ok res ->
  res = (fun k => (inject_Z (Z.of_nat (n_correct k output target))
                   * (100 / inject_Z (Z.of_nat (length target))))%Q) <$> topk.
Proof.
  intros Hlen. unfold accuracy.
  destruct (py_max topk) as [e|maxk] eqn:Emax; simpl; [discriminate|].
  destruct (topk_rows maxk output) as [e|preds] eqn:Erows; simpl; [discriminate|].
  apply topk_rows_spec in Erows. subst preds.
  unfold expand_target. rewrite length_fmap.
  rewrite bool_decide_eq_true_2 by (symmetry; exact Hlen). simpl.
  apply accuracy_res_value. apply py_max_bound. exact Emax.
Qed.

Lemma inject_pos_nonzero (n : Z) : 0 < n -> ~ (inject_Z n == 0)%Q.
Proof. intros Hn. unfold Qeq. simpl. lia. Qed.

Lemma scaled_count (c n : nat) :
  (0 < n)%nat ->
  (inject_Z (Z.of_nat c) * (100 / inject_Z (Z.of_nat n)) * inject_Z (Z.of_nat n)
   == 100 * inject_Z (Z.of_nat c))%Q.
Proof. intros Hn. field. apply inject_pos_nonzero. lia. Qed.

(** Over well-shaped batches the two meters accumulate one hundred
    times the number of correct samples, and the number of samples. *)
Lemma validate_batches_totals (net : Net) (val_data : list batch) :
  Forall (well_shaped net) val_data ->
  forall a1 a5 m1 m5 : AverageMeter.t,
    0 <= AverageMeter.count a1 -> 0 <= AverageMeter.count a5 ->
    validate_batches a1 a5 net val_data = ok (m1, m5) ->
    AverageMeter.count m1 = AverageMeter.count a1 + Z.of_nat (total_samples val_data)
    /\ AverageMeter.count m5 = AverageMeter.count a5 + Z.of_nat (total_samples val_data)
    /\ (AverageMeter.sum m1
        == AverageMeter.sum a1 + 100 * inject_Z (Z.of_nat (total_correct 1 net val_data)))%Q
    /\ (AverageMeter.sum m5
        == AverageMeter.sum a5 + 100 * inject_Z (Z.of_nat (total_correct 5 net val_data)))%Q
    /\ (val_data <> [] ->
        (AverageMeter.avg m1 == AverageMeter.sum m1 / inject_Z (AverageMeter.count m1))%Q
        /\ (AverageMeter.avg m5 == AverageMeter.sum m5 / inject_Z (AverageMeter.count m5))%Q).
Proof.
  induction 1 as [|[input target] rest (Hin & Hout & Htgt) Hrest IH];
    intros a1 a5 m1 m5 H1 H5; simpl.
  - intros [= <- <-]. repeat split; try lia; try ring; congruence.
  - simpl in Hin, Hout, Htgt.
    destruct (accuracy (forward net input) target [1; 5]%nat) as [e|prec] eqn:E;
      simpl; [discriminate|].
    apply accuracy_value in E; [|congruence]. subst prec. simpl.
    assert (Hn : (0 < length input)%nat) by (destruct input; simpl; [done|lia]).
    rewrite !update_ok by lia. simpl. intros Hrun.
    pose proof Hrun as Hlast.
    apply IH in Hrun; simpl; [|lia|lia].
    destruct Hrun as (Hc1 & Hc5 & Hs1 & Hs5 & Havg).
    simpl in Hc1, Hc5, Hs1, Hs5. split_and!.
    + rewrite Hc1. lia.
    + rewrite Hc5. lia.
    + rewrite Hs1, Htgt, scaled_count by assumption.
      rewrite Nat2Z.inj_add, inject_Z_plus. ring.
    + rewrite Hs5, Htgt, scaled_count by assumption.
      rewrite Nat2Z.inj_add, inject_Z_plus. ring.
    + intros _. destruct rest as [|b rest']; [|apply Havg; discriminate].
      simpl in Hlast. injection Hlast as <- <-. simpl. split; reflexivity.
Qed.

Lemma topk_rows_ok (k : nat) (output : list (list Q)) :
  Forall (fun row => (k <= length row)%nat) output ->
  exists preds, topk_rows k output = ok preds.
Proof.
  induction 1 as [|row rows Hrow _ [preds IH]]; simpl; [eauto|].
  unfold topk_row. rewrite bool_decide_eq_true_2 by assumption. simpl.
  rewrite IH. simpl. eauto.
Qed.

Lemma val_batch_good_ok (net : Net) (b : batch) :
  val_batch_good net b -> val_batch_ok_at net b.
Proof.
  intros [(Hin & Hout & Htgt) Hrows]. split; [assumption|].
  unfold accuracy. simpl.
  destruct (topk_rows_ok 5 _ Hrows) as [preds Hp]. rewrite Hp. simpl.
  apply topk_rows_spec in Hp. subst preds.
  unfold expand_target. rewrite length_fmap.
  rewrite bool_decide_eq_true_2 by congruence. cbn [rbind].
  rewrite !bool_decide_eq_false_2; [reflexivity|].
  rewrite Htgt. destruct b.1; [done | discriminate].
Qed.

(** *** The training pass *)

Ltac run_M :=
  unfold m_bind, lift, log, m_ret, m_raise, py_assert, read_local; simpl.

(** The batch whose index makes [(i + 1) % log_interval] zero never
    gets past its logging branch. *)
Lemma train_batch_raises_at (epoch log_interval : Z) (i : nat) (b : batch)
    (st : loop_state Net Opt) (w : World) :
  log_interval <> 0 ->
  (Z.of_nat i + 1) `mod` log_interval = 0 ->
  exists w' e, train_batch epoch log_interval i b st w = (w', inl e).
Proof.
  intros HL Hmod. unfold train_batch. destruct b as [input target].
  destruct (optimizer_step _ _ _) as [optimizer net].
  assert (Hcond : negb (log_interval =? 0)
                  && ((Z.of_nat i + 1) `mod` log_interval =? 0) = true).
  { rewrite Hmod. apply Z.eqb_neq in HL. rewrite HL. reflexivity. }
  rewrite Hcond. run_M.
  repeat (case_match; simpl; eauto).
Qed.

Lemma train_batches_raises (epoch log_interval : Z) (train_data : list batch) :
  forall (i j : nat) (st : loop_state Net Opt) (w : World),
    log_interval <> 0 ->
    (i <= j < i + length train_data)%nat ->
    (Z.of_nat j + 1) `mod` log_interval = 0 ->
    exists w' e, train_batches epoch log_interval i train_data st w = (w', inl e).
Proof.
  induction train_data as [|b rest IH]; intros i j st w HL Hj Hmod.
  - simpl in Hj. lia.
  - simpl. unfold m_bind at 1.
    destruct (decide (j = i)) as [->|Hne].
    + destruct (train_batch_raises_at epoch log_interval i b st w HL Hmod)
        as (w' & e & ->). eauto.
    + destruct (train_batch epoch log_interval i b st w) as [w1 [e|st1]]; [eauto|].
      apply (IH (S i) j); [assumption| simpl in Hj; lia | assumption].
Qed.

(** An epoch over no batch at all stops at [train_loss /= (i + 1)]. *)
Lemma train_epoch_empty (epoch : Z) (acc_top1 : AverageMeter.t) (net : Net)
    (use_cuda : bool) (optimizer : Opt) (batch_size log_interval : Z) (w : World) :
  train_epoch epoch acc_top1 net [] use_cuda optimizer batch_size log_interval w
  = (w, raise (UnboundLocalError "i")).
Proof. reflexivity. Qed.

(** The meter handed in is reset first: what it held does not matter. *)
Lemma train_epoch_resets (epoch : Z) (m1 m2 : AverageMeter.t) (net : Net)
    (train_data : list batch) (use_cuda : bool) (optimizer : Opt)
    (batch_size log_interval : Z) :
  train_epoch epoch m1 net train_data use_cuda optimizer batch_size log_interval
  = train_epoch epoch m2 net train_data use_cuda optimizer batch_size log_interval.
Proof. reflexivity. Qed.

(** *** The log of a pass that stops *)

Lemma py_range_cons (a b : Z) :
  a < b -> py_range a b = a :: py_range (a + 1) b.
Proof.
  intros Hab. unfold py_range. rewrite seqZ_cons by lia.
  f_equal. f_equal; lia.
Qed.

Lemma extends_refl (P : event -> Prop) (w : World) : extends P w w.
Proof. exists []. rewrite app_nil_r. split; [reflexivity | constructor]. Qed.

Lemma extends_trans (P : event -> Prop) (w1 w2 w3 : World) :
  extends P w1 w2 -> extends P w2 w3 -> extends P w1 w3.
Proof.
  intros (n1 & E1 & F1) (n2 & E2 & F2). exists (n1 ++ n2). split.
  - rewrite E2, E1, app_assoc. reflexivity.
  - apply Forall_app. split; assumption.
Qed.

Lemma appends_ret {A} (P : event -> Prop) (a : A) : appends P (m_ret a).
Proof. intros w. apply extends_refl. Qed.

Lemma appends_raise {A} (P : event -> Prop) (e : exn) : appends P (@m_raise A e).
Proof. intros w. apply extends_refl. Qed.

Lemma appends_lift {A} (P : event -> Prop) (r : result A) : appends P (lift r).
Proof. intros w. apply extends_refl. Qed.

Lemma appends_log (P : event -> Prop) (e : event) : P e -> appends P (log e).
Proof.
  intros HP w. exists [e]. split; [reflexivity | repeat constructor; assumption].
Qed.

Lemma appends_bind {A B} (P : event -> Prop) (m : M A) (k : A -> M B) :
  appends P m -> (forall a, appends P (k a)) -> appends P (m_bind m k).
Proof.
  intros Hm Hk w. unfold m_bind. specialize (Hm w).
  destruct (m w) as [w1 [e|a]]; simpl in *; [assumption|].
  eapply extends_trans; [exact Hm | apply Hk].
Qed.

Ltac appends_step :=
  first
    [ apply appends_ret | apply appends_raise | apply appends_lift
    | apply appends_log; reflexivity
    | apply appends_bind; [|intros]
    | progress case_match ].

Lemma train_batch_quiet (epoch log_interval : Z) (i : nat) (b : batch)
    (st : loop_state Net Opt) :
  appends (fun e => epoch_done e = false) (train_batch epoch log_interval i b st).
Proof. unfold train_batch. repeat appends_step. Qed.

Lemma train_batches_quiet (epoch log_interval : Z) (train_data : list batch) :
  forall (i : nat) (st : loop_state Net Opt),
    appends (fun e => epoch_done e = false)
      (train_batches epoch log_interval i train_data st).
Proof.
  induction train_data as [|b rest IH]; intros i st; simpl.
  - apply appends_ret.
  - apply appends_bind; [apply train_batch_quiet | intros; apply IH].
Qed.

(** When the epoch stops at its logging branch, no line of a finished
    epoch has been written. *)
Lemma train_epoch_stops_quietly (epoch : Z) (acc_top1 : AverageMeter.t)
    (net : Net) (train_data : list batch) (use_cuda : bool) (optimizer : Opt)
    (batch_size log_interval : Z) (w : World) :
  log_interval <> 0 ->
  Z.abs log_interval <= Z.of_nat (length train_data) ->
  exists w' e,
    train_epoch epoch acc_top1 net train_data use_cuda optimizer
      batch_size log_interval w = (w', inl e)
    /\ extends (fun e => epoch_done e = false) w w'.
Proof.
  intros HL Hlen. unfold train_epoch. unfold m_bind at 1.
  pose proof (train_batches_quiet epoch log_interval train_data 0
                (mkLoop None 0%Q (AverageMeter.reset acc_top1) (net_train net) optimizer)
                w) as Hq.
  destruct (train_batches_raises epoch log_interval train_data 0
              (Z.to_nat (Z.abs log_interval - 1))
              (mkLoop None 0%Q (AverageMeter.reset acc_top1) (net_train net) optimizer)
              w HL) as (w' & e & Heq).
  - lia.
  - rewrite Z2Nat.id by lia.
    replace (Z.abs log_interval - 1 + 1) with (Z.abs log_interval) by lia.
    destruct (Z.abs_eq_or_opp log_interval) as [->| ->].
    + apply Z_mod_same_full.
    + rewrite Z.mod_opp_l_z; [reflexivity | assumption | apply Z_mod_same_full].
  - rewrite Heq in Hq |- *. eauto.
Qed.

(** C8: [train_epoch] does reset the meter it is handed, so nothing of
    an earlier epoch reaches its result; but with a non-zero
    [log_interval] and at least [|log_interval|] batches in the epoch it
    does not return: it raises, at the latest at the first batch that
    logs, where line 498 calls the [get] that [AverageMeter] lacks. *)
Theorem train_epoch_raises_when_logging (epoch : Z) (acc_top1 : AverageMeter.t)
    (net : Net) (train_data : list batch) (use_cuda : bool) (optimizer : Opt)
    (batch_size log_interval : Z) (w : World) :
  log_interval <> 0 ->
  Z.abs log_interval <= Z.of_nat (length train_data) ->
  (forall stale : AverageMeter.t,
      train_epoch epoch stale net train_data use_cuda optimizer
        batch_size log_interval w
      = train_epoch epoch acc_top1 net train_data use_cuda optimizer
          batch_size log_interval w)
  /\ exists w' e,
       train_epoch epoch acc_top1 net train_data use_cuda optimizer
         batch_size log_interval w = (w', inl e).
Proof.
  intros HL Hlen. split.
  - intros stale. reflexivity.
  - destruct (train_epoch_stops_quietly epoch acc_top1 net train_data use_cuda
                optimizer batch_size log_interval w HL Hlen) as (w' & e & Hrun & _).
    eauto.
Qed.

Lemma train_one_stops_quietly (batch_size : Z)
    (train_data val_data : list batch) (log_interval : Z) (use_cuda : bool)
    (epoch : Z) (o : objects Net Opt Saver) (w : World) :
  log_interval <> 0 ->
  Z.abs log_interval <= Z.of_nat (length train_data) ->
  exists w' e,
    train_one batch_size train_data val_data log_interval use_cuda epoch o w
    = (w', inl e)
    /\ extends (fun e => epoch_done e = false) w w'.
Proof.
  intros HL Hlen. unfold train_one. unfold m_bind at 1.
  destruct (train_epoch_stops_quietly epoch (o_acc_top1 o) (o_net o)
              train_data use_cuda (o_optimizer o) batch_size log_interval w HL Hlen)
    as (w' & e & -> & Hq).
  eauto.
Qed.

(** A computation that only appends [P]-events, followed by one that
    always stops on [P]-events, stops on [P]-events. *)
Lemma bind_stops {A B} (P : event -> Prop) (m : M A) (k : A -> M B) (w : World) :
  appends P m ->
  (forall a w1, exists w' e, k a w1 = (w', inl e) /\ extends P w1 w') ->
  exists w' e, m_bind m k w = (w', inl e) /\ extends P w w'.
Proof.
  intros Hm Hk. unfold m_bind. specialize (Hm w).
  destruct (m w) as [w1 [e|a]]; simpl in Hm.
  - eauto.
  - destruct (Hk a w1) as (w' & e & -> & Hq).
    exists w', e. split; [reflexivity | eapply extends_trans; eassumption].
Qed.

(** C7: given [1 <= start_epoch1 <= num_epochs], a non-zero
    [log_interval] and at least [|log_interval|] training batches,
    [train_net] does not run its epochs: it raises inside the first
    [train_epoch], having written no "training" line, called the saver
    for no epoch and saved no checkpoint. *)
Theorem train_net_stops_in_first_epoch (batch_size num_epochs start : Z)
    (train_data val_data : list batch) (net : Net) (optimizer : Opt)
    (lp_saver : option Saver) (log_interval : Z) (use_cuda : bool) (w : World) :
  1 <= start <= num_epochs ->
  log_interval <> 0 ->
  Z.abs log_interval <= Z.of_nat (length train_data) ->
  exists w' e,
    train_net batch_size num_epochs (PInt start) train_data val_data net
      optimizer lp_saver log_interval use_cuda w = (w', inl e)
    /\ extends (fun ev => epoch_done ev = false) w w'.
Proof.
  intros Hstart HL Hlen. unfold train_net.
  unfold m_bind at 1. simpl. unfold m_bind at 1. unfold py_assert.
  rewrite bool_decide_eq_true_2 by lia. simpl.
  rewrite py_range_cons by lia. simpl train_epochs.
  apply bind_stops.
  - repeat appends_step.
  - intros o w1. unfold m_bind at 2. unfold m_bind at 1.
    destruct (train_one_stops_quietly batch_size train_data val_data
                log_interval use_cuda (start - 1) o w1 HL Hlen)
      as (w' & e & -> & Hq).
    eauto.
Qed.

Lemma phases_app (l1 l2 : list event) : phases (l1 ++ l2) = phases l1 ++ phases l2.
Proof. apply flat_map_app. Qed.

(** *** Model lookup *)

(** C6: for a name the torchvision module does not define, in
    particular one only the local registry knows, [_get_model] neither
    returns the registry's network nor raises the [ValueError] with the
    supported names: the dictionary lookup at line 291 raises a
    [KeyError], which the [except ValueError] clause lets through. *)
Theorem get_model_unknown_upstream_raises_KeyError (name : string)
    (pretrained : bool) (classes : Z) :
  torchvision_models !! name = None ->
  _get_model name pretrained classes = raise (KeyError name).
Proof.
  intros Hnone. unfold _get_model, dict_get. rewrite Hnone. reflexivity.
Qed.

(** Whatever torchvision holds, the local registry is never consulted:
    [_get_model] returns only what a torchvision entry returned. *)
Lemma get_model_returns_upstream_only (name : string) (pretrained : bool)
    (classes : Z) (net : Net) :
  _get_model name pretrained classes = ok net ->
  exists f, torchvision_models !! name = Some f /\ f pretrained classes = ok net.
Proof.
  unfold _get_model, dict_get.
  destruct (torchvision_models !! name) as [f|]; simpl; [|discriminate].
  destruct (f pretrained classes) as [e|net'] eqn:E.
  - destruct e; discriminate.
  - intros [= <-]. eauto.
Qed.

(** *** The trainer *)

(** C3: on the fresh-training path (no resume path) [prepare_trainer]
    builds the optimizer for ['sgd'] and for ['nag'] and then fails at
    its [return]: [start_epoch] and [best_prec1] are assigned on the
    resume path only. *)
Theorem prepare_trainer_fresh_raises (net : Net) (wd momentum lr : Q) (w : World) :
  prepare_trainer net "sgd" wd momentum lr "" w
    = (w, raise (UnboundLocalError "start_epoch"))
  /\ prepare_trainer net "nag" wd momentum lr "" w
    = (w, raise (UnboundLocalError "start_epoch")).
Proof. split; reflexivity. Qed.

(** With a resume path, the four values come from the checkpoint. *)
Lemma prepare_trainer_resume (net : Net) (optimizer_name : string)
    (wd momentum lr : Q) (path : string) (w : World)
    (d : list (string * pyobj)) (state epoch best : pyobj) (opt : Opt) :
  path <> "" ->
  optimizer_name = "sgd" \/ optimizer_name = "nag" ->
  w_fs w !! path = Some (PDict d) ->
  assoc "optimizer" d = Some state ->
  assoc "epoch" d = Some epoch ->
  assoc "best_prec1" d = Some best ->
  opt_load_state_dict
    (torch_optim_SGD net lr momentum wd (String.eqb optimizer_name "nag")) state
    = ok opt ->
  prepare_trainer net optimizer_name wd momentum lr path w
    = (w, ok (opt, PNone, epoch, best)).
Proof.
  intros Hpath Hname Hfile Hstate Hepoch Hbest Hload.
  unfold prepare_trainer.
  apply String.eqb_neq in Hpath. 
  destruct Hname as [-> | ->]; simpl in Hload |- *;
    unfold m_bind, m_ret, torch_load, lift, read_local; simpl;
    rewrite Hpath; simpl; rewrite Hfile; simpl;
    rewrite Hstate, Hload, Hepoch, Hbest; reflexivity.
Qed.

(** *** The parsed namespace *)

Lemma dests_NoDup : NoDup (a_dest <$> arguments).
Proof. apply (bool_decide_unpack _). vm_compute. reflexivity. Qed.

Lemma dest_determines_spec (s1 s2 : arg_spec) :
  s1 ∈ arguments -> s2 ∈ arguments -> a_dest s1 = a_dest s2 -> s1 = s2.
Proof.
  intros [i Hi]%list_elem_of_lookup [j Hj]%list_elem_of_lookup Hd.
  assert (i = j) as ->; [|congruence].
  eapply NoDup_lookup; [apply dests_NoDup | |]; rewrite list_lookup_fmap.
  - rewrite Hi. reflexivity.
  - rewrite Hj. simpl. congruence.
Qed.

Lemma foldl_insert_other (l : list arg_spec) (name : string) :
  forall ns : gmap string pyobj,
    name ∉ a_dest <$> l ->
    foldl (fun ns spec => <[a_dest spec := a_default spec]> ns) ns l !! name
    = ns !! name.
Proof.
  induction l as [|spec l IH]; intros ns Hname; simpl; [reflexivity|].
  rewrite fmap_cons in Hname. apply not_elem_of_cons in Hname as [Hne Hname].
  rewrite IH by assumption. apply lookup_insert_ne. congruence.
Qed.

Lemma default_namespace_lookup (spec : arg_spec) :
  spec ∈ arguments -> default_namespace !! a_dest spec = Some (a_default spec).
Proof.
  intros [i Hi]%list_elem_of_lookup.
  do 27 (destruct i as [|i]; [injection Hi as <-; vm_compute; reflexivity|]).
  discriminate Hi.
Qed.

Lemma default_namespace_ok : namespace_ok default_namespace.
Proof.
  split.
  - apply Forall_forall. intros spec Hin. exists (a_default spec).
    split; [apply default_namespace_lookup; assumption | left; reflexivity].
  - intros name Hname. unfold default_namespace.
    rewrite foldl_insert_other by assumption. apply lookup_empty.
Qed.

Lemma convert_has_type (ty : arg_type) (s : string) (v : pyobj) :
  convert ty s = ok v -> has_type (Store ty) v.
Proof.
  destruct ty; simpl.
  - intros [= <-]. eauto.
  - destruct (py_int s); [intros [= <-]; eauto | discriminate].
  - destruct (py_float s); [intros [= <-]; eauto | discriminate].
Qed.

(** Setting the attribute of a declared action to a value of its type
    keeps the namespace in shape. *)
Lemma insert_namespace_ok (ns : gmap string pyobj) (spec : arg_spec) (v : pyobj) :
  namespace_ok ns -> spec ∈ arguments -> has_type (a_action spec) v ->
  namespace_ok (<[a_dest spec := v]> ns).
Proof.
  intros [Hattrs Hother] Hin Hty. split.
  - apply Forall_forall. intros spec' Hin'.
    destruct (decide (a_dest spec' = a_dest spec)) as [Heq|Hne].
    + assert (spec' = spec) as -> by (apply dest_determines_spec; assumption).
      exists v. rewrite lookup_insert_eq. split; [reflexivity | right; assumption].
    + rewrite Forall_forall in Hattrs. destruct (Hattrs spec' Hin') as (v' & Hv' & Hok).
      exists v'. rewrite lookup_insert_ne by congruence. split; assumption.
  - intros name Hname. rewrite lookup_insert_ne; [apply Hother; assumption|].
    intros <-. apply Hname. apply list_elem_of_fmap. eauto.
Qed.

Lemma apply_action_ok (ns ns' : gmap string pyobj) (occ : nat * option string) :
  namespace_ok ns -> apply_action ns occ = ok ns' -> namespace_ok ns'.
Proof.
  intros Hns. unfold apply_action.
  destruct (arguments !! occ.1) as [spec|] eqn:Hspec; [|discriminate].
  assert (Hin : spec ∈ arguments) by (apply list_elem_of_lookup; eauto).
  destruct (a_action spec) as [ty|] eqn:Hact, (occ.2) as [s|]; try discriminate.
  - destruct (convert ty s) as [e|v] eqn:Hconv; simpl; [discriminate|].
    intros [= <-]. apply insert_namespace_ok; [assumption..|].
    rewrite Hact. eapply convert_has_type. exact Hconv.
  - intros [= <-]. apply insert_namespace_ok; [assumption..|].
    rewrite Hact. simpl. eauto.
Qed.

Lemma apply_actions_ok (occs : list (nat * option string)) :
  forall ns ns' : gmap string pyobj,
    namespace_ok ns -> apply_actions ns occs = ok ns' -> namespace_ok ns'.
Proof.
  induction occs as [|occ occs IH]; intros ns ns' Hns; simpl.
  - intros [= <-]. assumption.
  - destruct (apply_action ns occ) as [e|ns1] eqn:Happ; simpl; [discriminate|].
    apply IH. eapply apply_action_ok; eassumption.
Qed.

Lemma parse_args_ok (argv : list string) (args : gmap string pyobj) :
  parse_args argv = ok args -> namespace_ok args.
Proof.
  unfold parse_args.
  destruct (argparse_scan _ argv) as [e|occs]; simpl; [discriminate|].
  destruct (apply_actions default_namespace occs) as [e|ns] eqn:Happ; simpl;
    [discriminate|].
  destruct (required_seen occs); [|discriminate].
  intros [= <-]. eapply apply_actions_ok; [apply default_namespace_ok | exact Happ].
Qed.

(** An attribute whose default already has the action's type can be
    read at that type. *)
Lemma namespace_attr (ns : gmap string pyobj) (i : nat) (spec : arg_spec) :
  namespace_ok ns -> arguments !! i = Some spec ->
  has_type (a_action spec) (a_default spec) ->
  exists v, ns !! a_dest spec = Some v /\ has_type (a_action spec) v.
Proof.
  intros [Hattrs _] Hi Hdef. rewrite Forall_forall in Hattrs.
  destruct (Hattrs spec) as (v & Hv & [-> | Hty]);
    [apply list_elem_of_lookup; eauto | eauto..].
Qed.

Lemma namespace_no_convert_to_mxnet (ns : gmap string pyobj) :
  namespace_ok ns -> ns !! "convert_to_mxnet" = None.
Proof.
  intros [_ Hother]. apply Hother.
  apply (bool_decide_unpack _). vm_compute. reflexivity.
Qed.

(** *** [main] *)

(** [init_rand] raises exactly for a seed above [2**32 - 1]; a seed that
    is zero or negative is replaced by the random one. *)
Lemma init_rand_in_range (seed : Z) :
  seed <= 4294967295 ->
  init_rand seed = ok (if bool_decide (seed <= 0) then np_random_randint else seed).
Proof.
  intros Hs. unfold init_rand. pose proof np_random_randint_range as Hr.
  cbv zeta. destruct (bool_decide (seed <= 0)) eqn:E.
  - rewrite bool_decide_eq_true_2 by lia. reflexivity.
  - apply bool_decide_eq_false in E.
    rewrite bool_decide_eq_true_2 by lia. reflexivity.
Qed.

Lemma init_rand_too_large (seed : Z) :
  4294967295 < seed ->
  init_rand seed = raise (ValueError "Seed must be between 0 and 2**32 - 1").
Proof.
  intros Hs. unfold init_rand. cbv zeta.
  rewrite (bool_decide_eq_false_2 (seed <= 0)) by lia.
  rewrite bool_decide_eq_false_2 by lia. reflexivity.
Qed.

Lemma prepare_logger_logging_stage (log_dir_path logging_file_name : string) :
  appends logging_stage (prepare_logger log_dir_path logging_file_name).
Proof.
  unfold prepare_logger.
  repeat first [ apply appends_log; exact I | appends_step ].
Qed.

(** The run of [main] on an accepted command line, call by call: the
    seed, the logger, the two lines, the environment report, line 600. *)
Lemma main_run (argv : list string) (args : gmap string pyobj) (w : World) :
  parse_args argv = ok args ->
  exists (seed : Z) (save_dir logging_file_name log_packages log_pip_packages : string),
    args !! "seed" = Some (PInt seed)
    /\ args !! "save_dir" = Some (PStr save_dir)
    /\ args !! "logging_file_name" = Some (PStr logging_file_name)
    /\ args !! "log_packages" = Some (PStr log_packages)
    /\ args !! "log_pip_packages" = Some (PStr log_pip_packages)
    /\ main argv w
       = match init_rand seed with
         | inl e => (w, inl e)
         | inr seed' =>
             match prepare_logger save_dir logging_file_name w with
             | (w1, inl e) => (w1, inl e)
             | (w1, inr _) =>
                 let lines := [LogCommandLine argv;
                               LogArguments (<["seed" := PInt seed']> args)] in
                 match get_env_stats log_packages log_pip_packages with
                 | inl e => (mkWorld (w_fs w1) (w_log w1 ++ lines), inl e)
                 | inr stats =>
                     (mkWorld (w_fs w1) (w_log w1 ++ lines ++ [LogEnvStats stats]),
                      inl (AttributeError "convert_to_mxnet"))
                 end
             end
         end.
Proof.
  intros Hparse. pose proof (parse_args_ok _ _ Hparse) as Hns.
  pose proof (namespace_no_convert_to_mxnet _ Hns) as Hnone.
  destruct (namespace_attr args 24 _ Hns eq_refl) as (? & Hseed & [seed ->]);
    [simpl; eauto|].
  destruct (namespace_attr args 22 _ Hns eq_refl) as (? & Hdir & [save_dir ->]);
    [simpl; eauto|].
  destruct (namespace_attr args 23 _ Hns eq_refl) as (? & Hfile & [file_name ->]);
    [simpl; eauto|].
  destruct (namespace_attr args 25 _ Hns eq_refl) as (? & Hpkg & [packages ->]);
    [simpl; eauto|].
  destruct (namespace_attr args 26 _ Hns eq_refl) as (? & Hpip & [pip_packages ->]);
    [simpl; eauto|].
  destruct (namespace_attr args 5 _ Hns eq_refl) as (? & Hgpus & [num_gpus ->]);
    [simpl; eauto|].
  destruct (namespace_attr args 7 _ Hns eq_refl) as (? & Hbatch & [batch_size ->]);
    [simpl; eauto|].
  simpl in Hseed, Hdir, Hfile, Hpkg, Hpip, Hgpus, Hbatch.
  exists seed, save_dir, file_name, packages, pip_packages.
  split_and!; try assumption.
  unfold main, attr_int, attr_str, getattr.
  unfold m_bind at 1, lift at 1. rewrite Hparse. cbv beta iota.
  unfold m_bind at 1, lift at 1. rewrite Hseed. cbn [rbind as_int].
  unfold m_bind at 1, lift at 1.
  destruct (init_rand seed) as [e|seed']; [reflexivity|]. cbv beta iota.
  rewrite !lookup_insert_ne by discriminate.
  unfold m_bind at 1, lift at 1. rewrite Hdir. cbn [rbind as_str].
  unfold m_bind at 1, lift at 1. rewrite Hfile. cbn [rbind as_str].
  unfold m_bind at 1.
  destruct (prepare_logger save_dir file_name w) as [w1 [e|[]]]; [reflexivity|].
  unfold m_bind, lift, log, m_ret. simpl.
  rewrite Hpkg, Hpip. simpl.
  destruct (get_env_stats packages pip_packages) as [e|stats]; simpl.
  - rewrite <- !app_assoc. reflexivity.
  - rewrite Hgpus, Hbatch. simpl. rewrite Hnone. simpl.
    rewrite <- !app_assoc. reflexivity.
Qed.

(** C2 (as the code has it): the namespace [parse_args] returns never
    has an attribute [convert_to_mxnet], so for every command line it
    accepts [main] ends in an exception no later than line 600, having
    written nothing past the logging stage: no model is built, no
    evaluation or training starts.  The exception is the
    [AttributeError] of line 600 when the calls before it go through;
    it is the [ValueError] of [np.random.seed] (line 205) for a seed
    above [2**32 - 1], and otherwise whatever [prepare_logger] raises
    when the log directory or the log file cannot be set up, or
    [get_env_stats] raises. *)
Theorem main_stops_by_line_600 (argv : list string)
    (args : gmap string pyobj) (w : World) :
  parse_args argv = ok args ->
  args !! "convert_to_mxnet" = None
  /\ (exists w' e, main argv w = (w', raise e) /\ extends logging_stage w w')
  /\ exists (seed : Z) (save_dir logging_file_name log_packages log_pip_packages : string),
       args !! "seed" = Some (PInt seed)
       /\ args !! "save_dir" = Some (PStr save_dir)
       /\ args !! "logging_file_name" = Some (PStr logging_file_name)
       /\ args !! "log_packages" = Some (PStr log_packages)
       /\ args !! "log_pip_packages" = Some (PStr log_pip_packages)
       /\ (4294967295 < seed ->
           exists msg, main argv w = (w, raise (ValueError msg)))
       /\ (forall w1 e,
             seed <= 4294967295 ->
             prepare_logger save_dir logging_file_name w = (w1, raise e) ->
             main argv w = (w1, raise e))
       /\ (forall w1 e,
             seed <= 4294967295 ->
             prepare_logger save_dir logging_file_name w = (w1, ok tt) ->
             get_env_stats log_packages log_pip_packages = raise e ->
             exists w', main argv w = (w', raise e))
       /\ (forall w1 stats,
             seed <= 4294967295 ->
             prepare_logger save_dir logging_file_name w = (w1, ok tt) ->
             get_env_stats log_packages log_pip_packages = ok stats ->
             exists w',
               main argv w = (w', raise (AttributeError "convert_to_mxnet"))).
Proof.
  intros Hparse. pose proof (parse_args_ok _ _ Hparse) as Hns.
  split; [exact (namespace_no_convert_to_mxnet _ Hns)|].
  destruct (main_run argv args w Hparse)
    as (seed & save_dir & file_name & packages & pip_packages
        & Hseed & Hdir & Hfile & Hpkg & Hpip & Hrun).
  split.
  - rewrite Hrun.
    destruct (init_rand seed) as [e|seed'].
    { exists w, e. split; [reflexivity | apply extends_refl]. }
    pose proof (prepare_logger_logging_stage save_dir file_name w) as Hlog.
    destruct (prepare_logger save_dir file_name w) as [w1 [e|[]]]; simpl in Hlog.
    { exists w1, e. split; [reflexivity | exact Hlog]. }
    cbv zeta.
    destruct (get_env_stats packages pip_packages) as [e|stats];
      eexists _, _; (split; [reflexivity|]);
      (eapply extends_trans; [exact Hlog|]);
      (eexists; split; [reflexivity|]); repeat constructor.
  - exists seed, save_dir, file_name, packages, pip_packages.
    split_and!; try assumption.
    + intros Hbig. rewrite Hrun, (init_rand_too_large seed Hbig).
      eexists. reflexivity.
    + intros w1 e Hsmall Hlogger.
      rewrite Hrun, (init_rand_in_range seed Hsmall), Hlogger. reflexivity.
    + intros w1 e Hsmall Hlogger Hstats.
      rewrite Hrun, (init_rand_in_range seed Hsmall), Hlogger, Hstats.
      eexists. reflexivity.
    + intros w1 stats Hsmall Hlogger Hstats.
      rewrite Hrun, (init_rand_in_range seed Hsmall), Hlogger, Hstats.
      eexists. reflexivity.
Qed.

(** *** Custom error control *)

Lemma accuracy_res_no_assert (topk : list nat) (preds : list (list nat))
    (targets : list nat) (batch_size : nat) (e : exn) :
  accuracy_res topk preds targets batch_size = raise e -> is_assertion e = false.
Proof.
  induction topk as [|k ks IH]; simpl; [discriminate|].
  case_bool_decide; [intros [= <-]; reflexivity|].
  destruct (accuracy_res ks preds targets batch_size) as [e'|rs]; simpl;
    [intros [= <-]; apply IH; reflexivity | discriminate].
Qed.

Lemma topk_rows_no_assert (k : nat) (output : list (list Q)) (e : exn) :
  topk_rows k output = raise e -> is_assertion e = false.
Proof.
  induction output as [|row rows IH]; simpl; [discriminate|].
  unfold topk_row. case_bool_decide; simpl; [|intros [= <-]; reflexivity].
  destruct (topk_rows k rows) as [e'|ps]; simpl;
    [intros [= <-]; apply IH; reflexivity | discriminate].
Qed.

Lemma accuracy_no_assert (output : list (list Q)) (target topk : list nat) (e : exn) :
  accuracy output target topk = raise e -> is_assertion e = false.
Proof.
  unfold accuracy.
  destruct (py_max topk) as [e'|maxk] eqn:Emax; cbn [rbind].
  { intros [= <-]. destruct topk; simpl in Emax; [|discriminate].
    injection Emax as <-. reflexivity. }
  destruct (topk_rows maxk output) as [e'|preds] eqn:Erows; cbn [rbind].
  { intros [= <-]. eapply topk_rows_no_assert. exact Erows. }
  destruct (expand_target target (length preds)) as [e'|targets] eqn:Eexp; cbn [rbind].
  { intros [= <-]. unfold expand_target in Eexp.
    repeat case_bool_decide; try discriminate. injection Eexp as <-. reflexivity. }
  apply accuracy_res_no_assert.
Qed.

Lemma update_no_assert (m : AverageMeter.t) (v : Q) (n : Z) (e : exn) :
  AverageMeter.update m v n = raise e -> is_assertion e = false.
Proof.
  unfold AverageMeter.update. case_bool_decide; [|discriminate].
  intros [= <-]. reflexivity.
Qed.

Lemma validate_batches_no_assert (net : Net) (val_data : list batch) :
  forall (a1 a5 : AverageMeter.t) (e : exn),
    validate_batches a1 a5 net val_data = raise e -> is_assertion e = false.
Proof.
  induction val_data as [|[input target] rest IH]; intros a1 a5 e; simpl;
    [discriminate|].
  destruct (accuracy _ target _) as [e'|prec] eqn:Eacc; simpl.
  { intros [= <-]. eapply accuracy_no_assert. exact Eacc. }
  destruct prec as [|p1 [|p5 [|? ?]]]; try (intros [= <-]; reflexivity).
  destruct (AverageMeter.update a1 p1 _) as [e'|m1] eqn:E1; simpl.
  { intros [= <-]. eapply update_no_assert. exact E1. }
  destruct (AverageMeter.update a5 p5 _) as [e'|m5] eqn:E5; simpl.
  { intros [= <-]. eapply update_no_assert. exact E5. }
  apply IH.
Qed.

(** Evaluation itself never fails an assertion. *)
Lemma test_no_assert (net : Net) (val_data : list batch) (use_cuda : bool)
    (w w' : World) (e : exn) :
  test net val_data use_cuda w = (w', raise e) -> is_assertion e = false.
Proof.
  unfold test, validate, m_bind, lift, log, m_ret.
  destruct (validate_batches _ _ _ val_data) as [e'|[m1 m5]] eqn:Ev; simpl.
  - intros [= <- <-]. eapply validate_batches_no_assert. exact Ev.
  - discriminate.
Qed.

(** In evaluate mode, once the model and the loaders are there, the
    assertion of line 617 decides. *)
Lemma evaluate_assertion (args : gmap string pyobj) (use_cuda : bool)
    (batch_size : Z) (w w1 : World) (model resume data_dir : string)
    (use_pretrained : bool) (num_workers : Z) (net : Net)
    (train_data val_data : list batch) :
  args !! "model" = Some (PStr model) ->
  args !! "use_pretrained" = Some (PBool use_pretrained) ->
  args !! "resume" = Some (PStr resume) ->
  args !! "data_dir" = Some (PStr data_dir) ->
  args !! "num_workers" = Some (PInt num_workers) ->
  args !! "evaluate" = Some (PBool true) ->
  prepare_model model 1000 use_pretrained (strip resume) use_cuda w = (w1, ok net) ->
  image_folder_loaders data_dir batch_size num_workers = ok (train_data, val_data) ->
  (exists w', main_from_model args use_cuda batch_size w
              = (w', raise (AssertionError 617)))
  <-> (use_pretrained = false /\ strip resume = "").
Proof.
  intros Hmodel Hup Hres Hdir Hnw Hev Hpm Hdl.
  unfold main_from_model, attr_str, attr_int, attr_bool, getattr, get_data_loader.
  unfold m_bind at 1, lift at 1. rewrite Hmodel. cbn [rbind as_str].
  unfold m_bind at 1, lift at 1. rewrite Hup. cbn [rbind truthy].
  unfold m_bind at 1, lift at 1. rewrite Hres. cbn [rbind as_str].
  unfold m_bind at 1. rewrite Hpm.
  unfold m_bind at 1, lift at 1. rewrite Hdir. cbn [rbind as_str].
  unfold m_bind at 1, lift at 1. rewrite Hnw. cbn [rbind as_int].
  unfold m_bind at 1, lift at 1. rewrite Hdl.
  unfold m_bind at 1, lift at 1. rewrite Hev. cbn [rbind truthy].
  unfold m_bind at 1, py_assert.
  destruct use_pretrained; simpl.
  - split; [|intros [? _]; discriminate].
    intros [w' Hrun]. unfold m_bind in Hrun.
    destruct (test net val_data use_cuda w1) as [w2 [e|n]] eqn:Ht; [|discriminate].
    injection Hrun as <- ->. apply test_no_assert in Ht. discriminate.
  - destruct (strip resume =? "")%string eqn:Hs; simpl.
    + apply String.eqb_eq in Hs. split; eauto.
    + apply String.eqb_neq in Hs. split; [|intros [_ ?]; contradiction].
      intros [w' Hrun]. unfold m_bind in Hrun.
      destruct (test net val_data use_cuda w1) as [w2 [e|n]] eqn:Ht; [|discriminate].
      injection Hrun as <- ->. apply test_no_assert in Ht. discriminate.
Qed.

(** A stripped resume path that is not empty must name a file: the
    assertion of line 321 comes before the load. *)
Lemma prepare_model_asserts_file (model_name : string) (classes : Z)
    (use_pretrained : bool) (path : string) (use_cuda : bool) (w : World) (net : Net) :
  _get_model model_name use_pretrained classes = ok net ->
  let net' := if String.prefix "alexnet" model_name || String.prefix "vgg" model_name
              then data_parallel_features net else data_parallel net in
  (path = "" -> prepare_model model_name classes use_pretrained path use_cuda w
                = (w, ok net'))
  /\ (path <> "" -> w_fs w !! path = None ->
      prepare_model model_name classes use_pretrained path use_cuda w
      = (w, raise (AssertionError 321)))
  /\ (forall checkpoint, path <> "" -> w_fs w !! path = Some checkpoint ->
      prepare_model model_name classes use_pretrained path use_cuda w
      = (mkWorld (w_fs w) (w_log w ++ [LogLoadingModel path]),
         let? state_dict := getitem checkpoint "state_dict" in
         net_load_state_dict net' state_dict)).
Proof.
  intros Hget net'.
  unfold prepare_model, m_bind, lift, isfile, py_assert, torch_load, log, m_ret, m_raise.
  rewrite Hget. cbv beta iota. fold net'.
  split_and!.
  - intros ->. reflexivity.
  - intros Hne Hnone. apply String.eqb_neq in Hne. rewrite Hne. simpl.
    rewrite Hnone. reflexivity.
  - intros checkpoint Hne Hfile. apply String.eqb_neq in Hne. rewrite Hne. simpl.
    rewrite Hfile. simpl. rewrite ?Hfile.
    destruct (getitem checkpoint "state_dict"); reflexivity.
Qed.

(** The other custom controls: an optimizer name that is neither
    ['sgd'] nor ['nag'], and a start epoch that is not an integer, or is
    below one. *)
Lemma prepare_trainer_unknown_optimizer (net : Net) (optimizer_name : string)
    (wd momentum lr : Q) (path : string) (w : World) :
  optimizer_name <> "sgd" -> optimizer_name <> "nag" ->
  prepare_trainer net optimizer_name wd momentum lr path w = (w, raise Exception_).
Proof.
  intros H1%String.eqb_neq H2%String.eqb_neq. unfold prepare_trainer.
  rewrite H1, H2. reflexivity.
Qed.

Lemma train_net_asserts_start (batch_size num_epochs : Z) (start_epoch1 : pyobj)
    (train_data val_data : list batch) (net : Net) (optimizer : Opt)
    (lp_saver : option Saver) (log_interval : Z) (use_cuda : bool) (w : World) :
  ((forall z, start_epoch1 <> PInt z) ->
   train_net batch_size num_epochs start_epoch1 train_data val_data net optimizer
     lp_saver log_interval use_cuda w = (w, raise (AssertionError 534)))
  /\ (forall z, start_epoch1 = PInt z -> z < 1 ->
      train_net batch_size num_epochs start_epoch1 train_data val_data net optimizer
        lp_saver log_interval use_cuda w = (w, raise (AssertionError 535))).
Proof.
  split.
  - intros Hnot. unfold train_net.
    destruct start_epoch1; try reflexivity. destruct (Hnot z eq_refl).
  - intros z -> Hz. unfold train_net, m_bind, m_ret, py_assert. simpl.
    rewrite bool_decide_eq_false_2 by lia. reflexivity.
Qed.

(** C5 (as the code has it): once the model and the data loaders are
    built, evaluate mode fails the assertion of line 617 exactly when the
    use-pretrained flag is unset and the resume path is empty after
    stripping white space; whenever the stripped resume path is not
    empty, [prepare_model] asserts (line 321) that it names an existing
    file before it loads it, and asserts nothing when it is empty.
    These two are not the only custom controls: [prepare_trainer]
    raises a bare [Exception] for an optimizer other than ['sgd'] and
    ['nag'], and [train_net] asserts that the start epoch is an integer
    (line 534) and at least one (line 535). *)
Theorem custom_error_control :
  (forall (args : gmap string pyobj) (use_cuda : bool) (batch_size : Z)
          (w w1 : World) (model resume data_dir : string) (use_pretrained : bool)
          (num_workers : Z) (net : Net) (train_data val_data : list batch),
      args !! "model" = Some (PStr model) ->
      args !! "use_pretrained" = Some (PBool use_pretrained) ->
      args !! "resume" = Some (PStr resume) ->
      args !! "data_dir" = Some (PStr data_dir) ->
      args !! "num_workers" = Some (PInt num_workers) ->
      args !! "evaluate" = Some (PBool true) ->
      prepare_model model 1000 use_pretrained (strip resume) use_cuda w = (w1, ok net) ->
      image_folder_loaders data_dir batch_size num_workers = ok (train_data, val_data) ->
      (exists w', main_from_model args use_cuda batch_size w
                  = (w', raise (AssertionError 617)))
      <-> (use_pretrained = false /\ strip resume = ""))
  /\ (forall (model_name : string) (classes : Z) (use_pretrained : bool)
             (path : string) (use_cuda : bool) (w : World) (net : Net),
         _get_model model_name use_pretrained classes = ok net ->
         let net' :=
           if String.prefix "alexnet" model_name || String.prefix "vgg" model_name
           then data_parallel_features net else data_parallel net in
         (path = "" ->
          prepare_model model_name classes use_pretrained path use_cuda w
          = (w, ok net'))
         /\ (path <> "" -> w_fs w !! path = None ->
             prepare_model model_name classes use_pretrained path use_cuda w
             = (w, raise (AssertionError 321)))
         /\ (forall checkpoint, path <> "" -> w_fs w !! path = Some checkpoint ->
             prepare_model model_name classes use_pretrained path use_cuda w
             = (mkWorld (w_fs w) (w_log w ++ [LogLoadingModel path]),
                let? state_dict := getitem checkpoint "state_dict" in
                net_load_state_dict net' state_dict)))
  /\ (forall (net : Net) (optimizer_name : string) (wd momentum lr : Q)
             (path : string) (w : World),
         optimizer_name <> "sgd" -> optimizer_name <> "nag" ->
         prepare_trainer net optimizer_name wd momentum lr path w
         = (w, raise Exception_))
  /\ (forall (batch_size num_epochs : Z) (start_epoch1 : pyobj)
             (train_data val_data : list batch) (net : Net) (optimizer : Opt)
             (lp_saver : option Saver) (log_interval : Z) (use_cuda : bool) (w : World),
         ((forall z, start_epoch1 <> PInt z) ->
          train_net batch_size num_epochs start_epoch1 train_data val_data net
            optimizer lp_saver log_interval use_cuda w
          = (w, raise (AssertionError 534)))
         /\ (forall z, start_epoch1 = PInt z -> z < 1 ->
             train_net batch_size num_epochs start_epoch1 train_data val_data net
               optimizer lp_saver log_interval use_cuda w
             = (w, raise (AssertionError 535)))).
Proof.
  split_and!.
  - intros. eapply evaluate_assertion; eassumption.
  - apply prepare_model_asserts_file.
  - apply prepare_trainer_unknown_optimizer.
  - apply train_net_asserts_start.
Qed.

(** *** More on the metric *)

Lemma top_k_correct_mono (k1 k2 : nat) (row : list Q) (t : nat) :
  (k1 <= k2)%nat -> top_k_correct k1 row t = true -> top_k_correct k2 row t = true.
Proof.
  unfold top_k_correct. intros Hk H1.
  apply bool_decide_eq_true in H1. apply bool_decide_eq_true.
  apply elem_of_take in H1 as (i & Hi & Hlt). apply elem_of_take.
  exists i. split; [exact Hi | lia].
Qed.

Lemma n_correct_mono (k1 k2 : nat) (output : list (list Q)) :
  (k1 <= k2)%nat ->
  forall target, (n_correct k1 output target <= n_correct k2 output target)%nat.
Proof.
  intros Hk. induction output as [|row rows IH]; intros [|t target]; simpl; try lia.
  specialize (IH target).
  destruct (top_k_correct k1 row t) eqn:E1.
  - rewrite (top_k_correct_mono k1 k2 row t Hk E1). lia.
  - destruct (top_k_correct k2 row t); lia.
Qed.

Lemma insert_desc_descending (x : nat * Q) (l : list (nat * Q)) :
  descending l -> descending (insert_desc x l).
Proof.
  unfold descending. induction 1 as [|y l Hl IH Hy]; simpl.
  - repeat constructor.
  - destruct (Qle_bool y.2 x.2) eqn:E; simpl.
    + apply Qle_bool_iff in E. constructor.
      * constructor; assumption.
      * constructor; [exact E|].
        eapply List.Forall_impl; [|exact Hy]. simpl. intros z Hz.
        eapply Qle_trans; eassumption.
    + constructor; [exact IH|].
      assert (Hxy : (x.2 <= y.2)%Q).
      { apply Qlt_le_weak, Qnot_le_lt. intros H. apply Qle_bool_iff in H. congruence. }
      rewrite (insert_desc_perm x l). constructor; assumption.
Qed.

Lemma sort_desc_descending (l : list (nat * Q)) : descending (sort_desc l).
Proof.
  induction l as [|x l IH]; simpl.
  - constructor.
  - apply insert_desc_descending. exact IH.
Qed.

Lemma filter_length_perm {A} (f : A -> bool) (l l' : list A) :
  l ≡ₚ l' -> length (List.filter f l) = length (List.filter f l').
Proof.
  induction 1 as [|x l l' _ IH|x y l|l1 l2 l3 _ IH1 _ IH2]; simpl.
  - reflexivity.
  - destruct (f x); simpl; congruence.
  - destruct (f x), (f y); reflexivity.
  - congruence.
Qed.

Lemma filter_length_imap (g : Q -> bool) (row : list Q) :
  forall h : nat -> nat,
    length (List.filter (fun x : nat * Q => g x.2) (imap (fun i s => (h i, s)) row))
    = length (List.filter g row).
Proof.
  induction row as [|s row IH]; intros h; [reflexivity|].
  rewrite imap_cons. simpl. specialize (IH (h ∘ S)).
  destruct (g s); simpl; rewrite <- IH; reflexivity.
Qed.

(** In a descending list without repeated entries or equal scores, an
    entry stands at the position that counts the entries scored
    strictly higher. *)
Lemma descending_position (l : list (nat * Q)) :
  descending l ->
  NoDup l ->
  (forall x y, x ∈ l -> y ∈ l -> (x.2 == y.2)%Q -> x = y) ->
  forall p x,
    l !! p = Some x ->
    length (List.filter (fun y : nat * Q => negb (Qle_bool y.2 x.2)) l) = p.
Proof.
  unfold descending. induction 1 as [|y l Hl IH Hy]; intros Hnd Htie p x Hp.
  - discriminate.
  - apply NoDup_cons in Hnd as [Hyl Hnd].
    assert (Htie' : forall a b, a ∈ l -> b ∈ l -> (a.2 == b.2)%Q -> a = b).
    { intros a b Ha Hb. apply Htie; constructor; assumption. }
    destruct p as [|p]; simpl in Hp.
    + injection Hp as <-. simpl.
      assert (E : Qle_bool y.2 y.2 = true) by (apply Qle_bool_iff, Qle_refl).
      rewrite E. simpl.
      assert (Hnone : List.filter (fun z : nat * Q => negb (Qle_bool z.2 y.2)) l = []).
      { clear -Hy. induction Hy as [|z l Hz _ IH]; simpl; [reflexivity|].
        apply Qle_bool_iff in Hz. rewrite Hz. simpl. exact IH. }
      rewrite Hnone. reflexivity.
    + assert (Hx : x ∈ l) by (eapply list_elem_of_lookup_2; exact Hp).
      simpl.
      assert (E : Qle_bool y.2 x.2 = false).
      { destruct (Qle_bool y.2 x.2) eqn:E; [|reflexivity]. exfalso.
        apply Qle_bool_iff in E.
        rewrite List.Forall_forall in Hy.
        assert (Hxy : (x.2 <= y.2)%Q) by (apply Hy, list_elem_of_In; exact Hx).
        assert (Heq : y = x).
        { apply Htie; [constructor | constructor; exact Hx |].
          apply Qle_antisym; assumption. }
        subst y. contradiction. }
      rewrite E. simpl. f_equal. apply IH; assumption.
Qed.

Lemma indexed_lookup (row : list Q) (x : nat * Q) :
  x ∈ imap (fun i s => (i, s)) row <-> row !! x.1 = Some x.2.
Proof.
  rewrite elem_of_lookup_imap. split.
  - intros (i & s & -> & Hi). exact Hi.
  - intros Hx. exists x.1, x.2. split; [destruct x; reflexivity | exact Hx].
Qed.

Lemma indexed_NoDup (row : list Q) : NoDup (imap (fun i s => (i, s)) row).
Proof.
  apply (NoDup_fmap_1 fst).
  pose proof (imap_indices row id) as Hidx. rewrite list_fmap_id in Hidx.
  change ((imap (fun i s => (i, s)) row).*1 = seq 0 (length row)) in Hidx.
  rewrite Hidx. apply NoDup_seq.
Qed.

(** On a row without equal scores, the first [k] indices of [ranking]
    are the classes with fewer than [k] classes scored strictly higher. *)
Lemma top_k_correct_among (k : nat) (row : list Q) (t : nat) :
  tie_free row -> top_k_correct k row t = among_k_highest k row t.
Proof.
  intros Htie. unfold top_k_correct, among_k_highest, ranking, scored_higher.
  set (l0 := imap (fun i s => (i, s)) row).
  set (L := sort_desc l0).
  assert (Hperm : L ≡ₚ l0) by apply sort_desc_perm.
  assert (Hdesc : descending L) by apply sort_desc_descending.
  assert (Hnd : NoDup L) by (rewrite Hperm; apply indexed_NoDup).
  assert (HtieL : forall x y, x ∈ L -> y ∈ L -> (x.2 == y.2)%Q -> x = y).
  { intros [i si] [j sj] Hx Hy Heq. rewrite Hperm in Hx, Hy.
    apply indexed_lookup in Hx, Hy. simpl in *.
    assert (i = j) as -> by (eapply Htie; eassumption).
    congruence. }
  assert (Hcount : forall s,
             length (List.filter (fun y : nat * Q => negb (Qle_bool y.2 s)) L)
             = length (List.filter (fun s' => negb (Qle_bool s' s)) row)).
  { intros s. rewrite (filter_length_perm _ L l0 Hperm).
    apply (filter_length_imap (fun s' => negb (Qle_bool s' s)) row id). }
  destruct (row !! t) as [s|] eqn:Ht.
  - assert (Hin : (t, s) ∈ L) by (rewrite Hperm; apply indexed_lookup; exact Ht).
    apply list_elem_of_lookup in Hin as [p Hp].
    pose proof (descending_position L Hdesc Hnd HtieL p (t, s) Hp) as Hpos.
    simpl in Hpos. rewrite Hcount in Hpos. rewrite Hpos.
    apply bool_decide_ext. rewrite elem_of_take. split.
    + intros (q & Hq & Hlt). rewrite list_lookup_fmap in Hq.
      destruct (L !! q) as [[t' s']|] eqn:Eq; simpl in Hq; [|discriminate].
      injection Hq as ->.
      assert (Hin' : (t, s') ∈ L) by (eapply list_elem_of_lookup_2; exact Eq).
      rewrite Hperm in Hin'. apply indexed_lookup in Hin'. simpl in Hin'.
      assert (s' = s) as -> by congruence.
      assert (q = p) as ->; [|exact Hlt].
      eapply NoDup_lookup; eassumption.
    + intros Hlt. exists p. split; [|exact Hlt].
      rewrite list_lookup_fmap, Hp. reflexivity.
  - apply bool_decide_eq_false_2. intros Hin. apply elem_of_take in Hin as (q & Hq & _).
    rewrite list_lookup_fmap in Hq.
    destruct (L !! q) as [[t' s']|] eqn:Eq; simpl in Hq; [|discriminate].
    injection Hq as ->.
    assert (Hin' : (t, s') ∈ L) by (eapply list_elem_of_lookup_2; exact Eq).
    rewrite Hperm in Hin'. apply indexed_lookup in Hin'. simpl in Hin'. congruence.
Qed.

Lemma n_correct_among (k : nat) (output : list (list Q)) :
  Forall tie_free output ->
  forall target, n_correct k output target = n_among_k_highest k output target.
Proof.
  induction 1 as [|row rows Hrow _ IH]; intros [|t target]; simpl; try reflexivity.
  rewrite IH, (top_k_correct_among k row t Hrow). reflexivity.
Qed.

(** In [accuracy], on score rows without equal scores, the count
    [correct_k] of line 418 is, for every [k] up to [maxk], the number of
    samples whose target class is among the [k] highest-scored: has
    fewer than [k] classes scored strictly higher. *)
Theorem correct_k_counts_k_highest (k maxk : nat) (output : list (list Q))
    (target : list nat) (preds : list (list nat)) :
  topk_rows maxk output = ok preds ->
  (k <= maxk)%nat ->
  Forall tie_free output ->
  correct_k k preds target = n_among_k_highest k output target.
Proof.
  intros Hrows Hk Htie. apply topk_rows_spec in Hrows. subst preds.
  rewrite (correct_k_count k maxk output Hk target).
  apply n_correct_among. exact Htie.
Qed.

(** The value the metric reports for [c] correct samples of [n] is not
    negative and grows with [c]. *)
Lemma percent_le (c1 c2 n : nat) :
  (c1 <= c2)%nat ->
  (inject_Z (Z.of_nat c1) * (100 / inject_Z (Z.of_nat n))
   <= inject_Z (Z.of_nat c2) * (100 / inject_Z (Z.of_nat n)))%Q.
Proof.
  intros Hc. apply Qmult_le_compat_r.
  - rewrite <- Zle_Qle. lia.
  - apply Qmult_le_0_compat; [discriminate|].
    apply Qinv_le_0_compat. change 0%Q with (inject_Z 0). rewrite <- Zle_Qle. lia.
Qed.

Lemma percent_nonneg (c n : nat) :
  (0 <= inject_Z (Z.of_nat c) * (100 / inject_Z (Z.of_nat n)))%Q.
Proof.
  apply Qmult_le_0_compat.
  - change 0%Q with (inject_Z 0). rewrite <- Zle_Qle. lia.
  - apply Qmult_le_0_compat; [discriminate|].
    apply Qinv_le_0_compat. change 0%Q with (inject_Z 0). rewrite <- Zle_Qle. lia.
Qed.

(** On a batch with one score row per target, no value [accuracy]
    returns is negative, and a larger [k] never gives a smaller value:
    the hits among the first [k] predictions are among the first [k']
    for every [k' >= k]. *)
Theorem accuracy_monotone_in_k (output : list (list Q)) (target topk : list nat)
    (res : list Q) :
  length output = length target ->
  accuracy output target topk = ok res ->
  Forall (fun r => (0 <= r)%Q) res
  /\ forall (i j k1 k2 : nat) (r1 r2 : Q),
       topk !! i = Some k1 -> topk !! j = Some k2 ->
       res !! i = Some r1 -> res !! j = Some r2 ->
       (k1 <= k2)%nat -> (r1 <= r2)%Q.
Proof.
  intros Hlen Hres. apply accuracy_value in Hres; [|exact Hlen]. subst res. split.
  - apply Forall_fmap, Forall_forall. intros k _. simpl. apply percent_nonneg.
  - intros i j k1 k2 r1 r2 Hi Hj Hr1 Hr2 Hk.
    rewrite list_lookup_fmap, Hi in Hr1. rewrite list_lookup_fmap, Hj in Hr2.
    simpl in Hr1, Hr2. injection Hr1 as <-. injection Hr2 as <-.
    apply percent_le, n_correct_mono. exact Hk.
Qed.

Lemma topk_rows_short (k : nat) (output : list (list Q)) :
  Exists (fun row => (length row < k)%nat) output ->
  topk_rows k output = raise (RuntimeError "selected index k out of range").
Proof.
  induction output as [|row rows IH]; intros Hex.
  - inversion Hex.
  - simpl. unfold topk_row. case_bool_decide as Hrow; simpl; [|reflexivity].
    apply Exists_cons in Hex as [Hshort|Hex]; [lia|].
    rewrite (IH Hex). reflexivity.
Qed.

(** How [accuracy] fails: with a [ValueError] on an empty [topk], at
    [max(topk)]; with a [RuntimeError] when some score row has fewer
    than [max(topk)] classes, at [output.topk]; with a [RuntimeError]
    on a batch of at least one row, each with classes enough, when the
    targets are neither one per score row nor a single one, at
    [expand_as]. *)
Theorem accuracy_errors (output : list (list Q)) (target topk : list nat) :
  (exists msg, accuracy output target [] = raise (ValueError msg))
  /\ (forall maxk,
        py_max topk = ok maxk ->
        Exists (fun row => (length row < maxk)%nat) output ->
        exists what, accuracy output target topk = raise (RuntimeError what))
  /\ (forall maxk,
        py_max topk = ok maxk ->
        output <> [] ->
        Forall (fun row => (maxk <= length row)%nat) output ->
        length target <> length output -> length target <> 1%nat ->
        exists what, accuracy output target topk = raise (RuntimeError what)).
Proof.
  split_and!.
  - eexists. reflexivity.
  - intros maxk Emax Hshort. unfold accuracy. rewrite Emax. simpl.
    rewrite (topk_rows_short maxk output Hshort). eexists. reflexivity.
  - intros maxk Emax _ Hrows Hlen H1. unfold accuracy. rewrite Emax. simpl.
    destruct (topk_rows_ok maxk output Hrows) as [preds Hp]. rewrite Hp. simpl.
    apply topk_rows_spec in Hp. subst preds.
    unfold expand_target. rewrite length_fmap.
    rewrite bool_decide_eq_false_2 by exact Hlen.
    rewrite bool_decide_eq_false_2 by exact H1. eexists. reflexivity.
Qed.

(** *** More on the validation pass *)

Lemma total_correct_mono (k1 k2 : nat) (net : Net) (data : list batch) :
  (k1 <= k2)%nat -> (total_correct k1 net data <= total_correct k2 net data)%nat.
Proof.
  intros Hk. induction data as [|[input target] rest IH]; simpl; [lia|].
  pose proof (n_correct_mono k1 k2 (forward net input) Hk target). lia.
Qed.

(** Over no batch at all [validate] returns: both averages are still the
    0 of [reset], so both errors are 1. *)
Theorem validate_empty (a1 a5 : AverageMeter.t) (net : Net) (use_cuda : bool) :
  exists v,
    validate a1 a5 net [] use_cuda = ok v
    /\ (v_err_top1 v == 1)%Q /\ (v_err_top5 v == 1)%Q
    /\ AverageMeter.count (v_acc_top1 v) = 0
    /\ AverageMeter.count (v_acc_top5 v) = 0.
Proof.
  eexists. split; [reflexivity|]. simpl. split_and!; reflexivity.
Qed.

(** The two values [validate] returns on a non-empty, well-shaped
    validation set are in order: the top-5 value is at most the top-1
    value, which is at most 1. *)
Theorem validate_error_order (a1 a5 : AverageMeter.t) (net : Net)
    (val_data : list batch) (use_cuda : bool) :
  val_data <> [] ->
  Forall (val_batch_good (net_eval net)) val_data ->
  exists v,
    validate a1 a5 net val_data use_cuda = ok v
    /\ (v_err_top5 v <= v_err_top1 v)%Q
    /\ (v_err_top1 v <= 1)%Q.
Proof.
  intros Hne Hgood. unfold validate.
  assert (Hok : Forall (val_batch_ok_at (net_eval net)) val_data)
    by (eapply Forall_impl; [exact Hgood | apply val_batch_good_ok]).
  assert (Hshape : Forall (well_shaped (net_eval net)) val_data)
    by (eapply Forall_impl; [exact Hgood | intros b Hb; apply Hb]).
  destruct (validate_batches_ok (net_eval net) val_data Hok
              (AverageMeter.reset a1) (AverageMeter.reset a5)) as ([m1 m5] & Hrun);
    simpl; [lia | lia |].
  rewrite Hrun. simpl. eexists. split; [reflexivity|]. simpl.
  apply (validate_batches_totals _ _ Hshape) in Hrun; simpl; [|lia|lia].
  destruct Hrun as (Hc1 & Hc5 & Hs1 & Hs5 & Havg).
  destruct (Havg Hne) as [Ha1 Ha5]. simpl in *.
  rewrite Ha1, Ha5, Hs1, Hs5, Hc1, Hc5, !Z.add_0_l, !Qplus_0_l.
  set (n := total_samples val_data).
  set (c1 := total_correct 1 (net_eval net) val_data).
  set (c5 := total_correct 5 (net_eval net) val_data).
  assert (H15 : (c1 <= c5)%nat) by (apply total_correct_mono; lia).
  assert (Hpos : (0 < n)%nat).
  { subst n. destruct val_data as [|[input target] rest]; [congruence|].
    apply Forall_cons in Hshape as [(Hin & _) _]. simpl in *.
    destruct input; [done | simpl; lia]. }
  assert (Hn : ~ (inject_Z (Z.of_nat n) == 0)%Q) by (apply inject_pos_nonzero; lia).
  assert (E : forall c : nat,
             (100 * inject_Z (Z.of_nat c) / inject_Z (Z.of_nat n)
              == inject_Z (Z.of_nat c) * (100 / inject_Z (Z.of_nat n)))%Q).
  { intros c. field. exact Hn. }
  rewrite !E.
  pose proof (percent_le c1 c5 n H15) as L15.
  pose proof (percent_nonneg c1 n) as L1.
  set (p1 := (inject_Z (Z.of_nat c1) * (100 / inject_Z (Z.of_nat n)))%Q) in *.
  set (p5 := (inject_Z (Z.of_nat c5) * (100 / inject_Z (Z.of_nat n)))%Q) in *.
  split.
  - apply Qplus_le_compat; [apply Qle_refl | apply Qopp_le_compat; exact L15].
  - apply Qle_minus_iff.
    assert (E1 : (1 + - (1 - p1) == p1)%Q) by ring.
    rewrite E1. exact L1.
Qed.

Lemma validate_batches_short (net : Net) (val_data : list batch) :
  Exists (fun b => Exists (fun row => (length row < 5)%nat) (forward net b.1)) val_data ->
  forall a1 a5 : AverageMeter.t,
    exists e, validate_batches a1 a5 net val_data = raise e.
Proof.
  induction 1 as [[input target] rest Hshort|[input target] rest _ IH];
    intros a1 a5; simpl.
  - simpl in Hshort. unfold accuracy. simpl.
    rewrite (topk_rows_short 5 _ Hshort). simpl. eauto.
  - destruct (accuracy (forward net input) target [1; 5]%nat) as [e|prec]; simpl;
      [eauto|].
    destruct prec as [|p1 [|p5 [|? ?]]]; eauto.
    destruct (AverageMeter.update a1 p1 _) as [e|m1]; simpl; [eauto|].
    destruct (AverageMeter.update a5 p5 _) as [e|m5]; simpl; [eauto|].
    apply IH.
Qed.

(** [validate] asks the metric for [topk=(1, 5)]: it raises whenever
    some batch has a score row of fewer than five classes. *)
Theorem validate_needs_five_classes (a1 a5 : AverageMeter.t) (net : Net)
    (val_data : list batch) (use_cuda : bool) :
  Exists (fun b => Exists (fun row => (length row < 5)%nat)
                     (forward (net_eval net) b.1)) val_data ->
  exists e, validate a1 a5 net val_data use_cuda = raise e.
Proof.
  intros Hshort. unfold validate.
  destruct (validate_batches_short (net_eval net) val_data Hshort
              (AverageMeter.reset a1) (AverageMeter.reset a5)) as [e ->].
  simpl. eauto.
Qed.

(** *** The batch progress line *)

Lemma appends_get {B} (P : event -> Prop) (acc : AverageMeter.t) (k : Q * Q -> M B) :
  appends P (m_bind (lift (AverageMeter_get acc)) k).
Proof. intros w. apply extends_refl. Qed.

Lemma appends_save_params (P : event -> Prop) (file_path : string) (net : Net) :
  P (SaveParams file_path) -> appends P (save_params file_path net).
Proof.
  intros HP w. unfold save_params.
  destruct (net_save_parameters net file_path (w_fs w)) as [e|fs']; simpl.
  - apply extends_refl.
  - exists [SaveParams file_path]. split; [reflexivity | repeat constructor; exact HP].
Qed.

Ltac batch_line_step :=
  first
    [ apply appends_get
    | apply appends_save_params; reflexivity
    | appends_step ].

Lemma train_batches_no_batch_line (epoch log_interval : Z) (train_data : list batch) :
  forall (i : nat) (st : loop_state Net Opt),
    appends (fun e => is_batch_line e = false)
      (train_batches epoch log_interval i train_data st).
Proof.
  induction train_data as [|b rest IH]; intros i st; simpl.
  - apply appends_ret.
  - apply appends_bind; [|intros; apply IH].
    unfold train_batch. repeat batch_line_step.
Qed.

Lemma train_epoch_no_batch_line (epoch : Z) (acc_top1 : AverageMeter.t) (net : Net)
    (train_data : list batch) (use_cuda : bool) (optimizer : Opt)
    (batch_size log_interval : Z) :
  appends (fun e => is_batch_line e = false)
    (train_epoch epoch acc_top1 net train_data use_cuda optimizer
       batch_size log_interval).
Proof.
  unfold train_epoch.
  apply appends_bind; [apply train_batches_no_batch_line | intros].
  repeat batch_line_step.
Qed.

Lemma save_all_no_batch_line (paths : list string) (net : Net) :
  appends (fun e => is_batch_line e = false) (save_all paths net).
Proof.
  induction paths as [|p rest IH]; simpl.
  - apply appends_ret.
  - apply appends_bind; [apply appends_save_params; reflexivity | intros; exact IH].
Qed.

Lemma train_epochs_no_batch_line (batch_size : Z) (train_data val_data : list batch)
    (log_interval : Z) (use_cuda : bool) (epochs : list Z) :
  forall o : objects Net Opt Saver,
    appends (fun e => is_batch_line e = false)
      (train_epochs batch_size train_data val_data log_interval use_cuda epochs o).
Proof.
  induction epochs as [|epoch rest IH]; intros o; simpl.
  - apply appends_ret.
  - apply appends_bind; [|intros; apply IH].
    unfold train_one.
    apply appends_bind; [apply train_epoch_no_batch_line | intros].
    unfold epoch_test_end_callback.
    repeat first [ apply save_all_no_batch_line | batch_line_step ].
Qed.

(** The progress line "Epoch[..] Batch [..] Speed: ..." of line 501 is
    never written, by [train_epoch] or by [train_net], whatever the
    arguments: the call before it (line 498) raises. *)
Theorem batch_line_never_logged (batch_size num_epochs epoch : Z)
    (start_epoch1 : pyobj) (acc_top1 : AverageMeter.t)
    (train_data val_data : list batch) (net : Net) (optimizer : Opt)
    (lp_saver : option Saver) (log_interval : Z) (use_cuda : bool) (w : World) :
  extends (fun e => is_batch_line e = false) w
    (train_epoch epoch acc_top1 net train_data use_cuda optimizer
       batch_size log_interval w).1
  /\ extends (fun e => is_batch_line e = false) w
       (train_net batch_size num_epochs start_epoch1 train_data val_data net
          optimizer lp_saver log_interval use_cuda w).1.
Proof.
  split.
  - apply train_epoch_no_batch_line.
  - revert w. change (appends (fun e => is_batch_line e = false)
                        (train_net batch_size num_epochs start_epoch1 train_data
                           val_data net optimizer lp_saver log_interval use_cuda)).
    unfold train_net, py_assert.
    repeat first [ apply train_epochs_no_batch_line | batch_line_step ].
Qed.

(** *** A start past the last epoch *)

Lemma py_range_empty (a b : Z) : b <= a -> py_range a b = [].
Proof. intros Hab. unfold py_range, seqZ. rewrite Z2Nat.nonpos by lia. reflexivity. Qed.

(** With [start_epoch1 > num_epochs] the loop body never runs:
    [train_net] trains nothing, whatever the training data and
    [log_interval]; it validates once when [start_epoch1 > 1], writes
    the closing lines and returns, touching no file. *)
Theorem train_net_start_past_end (batch_size num_epochs start : Z)
    (train_data val_data : list batch) (net : Net) (optimizer : Opt)
    (lp_saver : option Saver) (log_interval : Z) (use_cuda : bool) (w : World) :
  1 <= start -> num_epochs < start ->
  Forall val_batch_ok val_data ->
  exists w' o,
    train_net batch_size num_epochs (PInt start) train_data val_data net
      optimizer lp_saver log_interval use_cuda w = (w', ok o)
    /\ w_fs w' = w_fs w
    /\ phases (w_log w')
       = phases (w_log w) ++ (if bool_decide (start > 1)
                              then [Validated (start - 1)] else [])
    /\ o_optimizer o = optimizer
    /\ o_lp_saver o = lp_saver.
Proof.
  intros H1 Hpast Hval. unfold train_net.
  unfold m_bind at 1. simpl. unfold m_bind at 1. unfold py_assert.
  rewrite bool_decide_eq_true_2 by lia. simpl.
  rewrite py_range_empty by lia. simpl train_epochs.
  case_bool_decide.
  - destruct (validate_ok AverageMeter.init AverageMeter.init net val_data
                use_cuda Hval) as (v & Hv).
    unfold m_bind, lift, log, m_ret. rewrite Hv. simpl.
    destruct lp_saver as [s|]; simpl;
      eexists _, _; (split; [reflexivity|]); simpl;
      rewrite !phases_app; simpl; rewrite ?app_nil_r; auto.
  - unfold m_bind, lift, log, m_ret. simpl.
    destruct lp_saver as [s|]; simpl;
      eexists _, _; (split; [reflexivity|]); simpl;
      rewrite !phases_app; simpl; rewrite ?app_nil_r; auto.
Qed.

(** *** An empty training loader *)

(** Over an empty training loader [train_net] cannot train: for
    [1 <= start_epoch1 <= num_epochs] its first [train_epoch] raises at
    [train_loss /= (i + 1)], where the loop variable [i] was never
    bound; by then at most the validation of the resumed epoch has been
    logged, and no file has been touched. *)
Theorem train_net_empty_training_set (batch_size num_epochs start : Z)
    (val_data : list batch) (net : Net) (optimizer : Opt)
    (lp_saver : option Saver) (log_interval : Z) (use_cuda : bool) (w : World) :
  1 <= start <= num_epochs ->
  Forall val_batch_ok val_data ->
  exists w',
    train_net batch_size num_epochs (PInt start) [] val_data net optimizer
      lp_saver log_interval use_cuda w = (w', raise (UnboundLocalError "i"))
    /\ w_fs w' = w_fs w
    /\ phases (w_log w')
       = phases (w_log w) ++ (if bool_decide (start > 1)
                              then [Validated (start - 1)] else []).
Proof.
  intros Hstart Hval. unfold train_net.
  unfold m_bind at 1. simpl. unfold m_bind at 1. unfold py_assert.
  rewrite bool_decide_eq_true_2 by lia. simpl.
  rewrite py_range_cons by lia. simpl train_epochs. unfold train_one.
  case_bool_decide.
  - destruct (validate_ok AverageMeter.init AverageMeter.init net val_data
                use_cuda Hval) as (v & Hv).
    unfold m_bind, lift, log, m_ret. rewrite Hv. simpl.
    eexists. split; [reflexivity|]. split; [reflexivity|].
    simpl. rewrite !phases_app. simpl. rewrite app_nil_r. reflexivity.
  - unfold m_bind, lift, log, m_ret. simpl.
    eexists. split; [reflexivity|]. split; [reflexivity|].
    rewrite app_nil_r. reflexivity.
Qed.

(** *** Losses that cannot be taken apart *)

Lemma train_batch_not_iterable (epoch log_interval : Z) (i : nat) (b : batch)
    (st : loop_state Net Opt) (w : World) :
  loss_not_iterable ->
  exists w' e, train_batch epoch log_interval i b st w = (w', inl e).
Proof.
  intros Hloss. unfold train_batch. destruct b as [input target].
  destruct (optimizer_step _ _ _) as [optimizer net].
  specialize (Hloss (criterion (forward (l_net st) input) target)).
  destruct (loss_items _) as [e|items]; [|discriminate Hloss].
  unfold m_bind, lift, log, m_ret.
  repeat (case_match; simpl; eauto).
Qed.

Lemma train_epoch_not_iterable (epoch : Z) (acc_top1 : AverageMeter.t)
    (net : Net) (train_data : list batch) (use_cuda : bool) (optimizer : Opt)
    (batch_size log_interval : Z) (w : World) :
  loss_not_iterable ->
  exists w' e,
    train_epoch epoch acc_top1 net train_data use_cuda optimizer
      batch_size log_interval w = (w', inl e)
    /\ extends (fun e => epoch_done e = false) w w'.
Proof.
  intros Hloss. unfold train_epoch. unfold m_bind at 1.
  pose proof (train_batches_quiet epoch log_interval train_data 0
                (mkLoop None 0%Q (AverageMeter.reset acc_top1) (net_train net) optimizer)
                w) as Hq.
  destruct train_data as [|b rest].
  - simpl. unfold m_ret. simpl. eexists _, _. split; [reflexivity | apply extends_refl].
  - simpl in Hq |- *. unfold m_bind at 1 in Hq. unfold m_bind at 1.
    destruct (train_batch_not_iterable epoch log_interval 0 b
                (mkLoop None 0%Q (AverageMeter.reset acc_top1) (net_train net) optimizer)
                w Hloss) as (w' & e & Heq).
    rewrite Heq in Hq |- *. eauto.
Qed.

(** X14: where the loss of a batch cannot be taken apart at line 493, no
    epoch completes, whatever [log_interval] is. [train_epoch] raises on
    every input: over an empty loader at line 507, otherwise in its
    first batch. [train_net] with [1 <= start_epoch1 <= num_epochs]
    raises in its first epoch at the latest. Neither writes a
    "training" line, calls the saver for an epoch or saves a
    checkpoint. *)
Theorem no_epoch_completes :
  loss_not_iterable ->
  (forall epoch acc_top1 net train_data use_cuda optimizer batch_size log_interval w,
      exists w' e,
        train_epoch epoch acc_top1 net train_data use_cuda optimizer
          batch_size log_interval w = (w', raise e)
        /\ extends (fun ev => epoch_done ev = false) w w')
  /\ (forall batch_size num_epochs start train_data val_data net optimizer lp_saver
        log_interval use_cuda w,
        1 <= start <= num_epochs ->
        exists w' e,
          train_net batch_size num_epochs (PInt start) train_data val_data net
            optimizer lp_saver log_interval use_cuda w = (w', raise e)
          /\ extends (fun ev => epoch_done ev = false) w w').
Proof.
  intros Hloss. split.
  - intros. apply train_epoch_not_iterable. exact Hloss.
  - intros batch_size num_epochs start train_data val_data net optimizer lp_saver
      log_interval use_cuda w Hstart.
    unfold train_net.
    unfold m_bind at 1. simpl. unfold m_bind at 1. unfold py_assert.
    rewrite bool_decide_eq_true_2 by lia. simpl.
    rewrite py_range_cons by lia. simpl train_epochs.
    apply bind_stops.
    + repeat appends_step.
    + intros o w1. unfold m_bind at 2. unfold train_one.
      unfold m_bind at 1. unfold m_bind at 1.
      destruct (train_epoch_not_iterable (start - 1) (o_acc_top1 o) (o_net o)
                  train_data use_cuda (o_optimizer o) batch_size log_interval w1 Hloss)
        as (w' & e & -> & Hq).
      eauto.
Qed.

(** *** Files *)

Lemma keeps_ret {A} (a : A) : keeps_files (m_ret a).
Proof. intros w. reflexivity. Qed.
Lemma keeps_raise {A} (e : exn) : keeps_files (@m_raise A e).
Proof. intros w. reflexivity. Qed.
Lemma keeps_lift {A} (r : result A) : keeps_files (lift r).
Proof. intros w. reflexivity. Qed.
Lemma keeps_log (e : event) : keeps_files (log e).
Proof. intros w. reflexivity. Qed.
Lemma keeps_bind {A B} (m : M A) (k : A -> M B) :
  keeps_files m -> (forall a, keeps_files (k a)) -> keeps_files (m_bind m k).
Proof.
  intros Hm Hk w. unfold m_bind. specialize (Hm w).
  destruct (m w) as [w1 [e|a]]; simpl in *; [assumption|].
  rewrite Hk. exact Hm.
Qed.

Ltac keeps_step :=
  first
    [ apply keeps_ret | apply keeps_raise | apply keeps_lift | apply keeps_log
    | apply keeps_bind; [|intros]
    | progress case_match ].

Lemma train_batches_keep_files (epoch log_interval : Z) (train_data : list batch) :
  forall (i : nat) (st : loop_state Net Opt),
    keeps_files (train_batches epoch log_interval i train_data st).
Proof.
  induction train_data as [|b rest IH]; intros i st; simpl.
  - apply keeps_ret.
  - apply keeps_bind; [|intros; apply IH].
    unfold train_batch. repeat keeps_step.
Qed.

Lemma train_epoch_keeps_files (epoch : Z) (acc_top1 : AverageMeter.t) (net : Net)
    (train_data : list batch) (use_cuda : bool) (optimizer : Opt)
    (batch_size log_interval : Z) :
  keeps_files (train_epoch epoch acc_top1 net train_data use_cuda optimizer
                 batch_size log_interval).
Proof.
  unfold train_epoch.
  apply keeps_bind; [apply train_batches_keep_files | intros].
  repeat keeps_step.
Qed.

Lemma train_one_without_saver (batch_size : Z) (train_data val_data : list batch)
    (log_interval : Z) (use_cuda : bool) (epoch : Z)
    (o : objects Net Opt Saver) (w : World) :
  o_lp_saver o = None ->
  exists w' r,
    train_one batch_size train_data val_data log_interval use_cuda epoch o w = (w', r)
    /\ w_fs w' = w_fs w
    /\ forall o', r = ok o' -> o_lp_saver o' = None.
Proof.
  intros Hnone. unfold train_one. rewrite Hnone. unfold m_bind at 1.
  pose proof (train_epoch_keeps_files epoch (o_acc_top1 o) (o_net o) train_data
                use_cuda (o_optimizer o) batch_size log_interval w) as Hk.
  destruct (train_epoch _ _ _ _ _ _ _ _ w) as [w1 [e|t]]; simpl in Hk.
  - eexists _, _. split; [reflexivity|]. split; [exact Hk | discriminate].
  - unfold m_bind, lift, log, m_ret.
    destruct (validate _ _ _ _ _) as [e|v]; simpl.
    + eexists _, _. split; [reflexivity|]. split; [exact Hk | discriminate].
    + eexists _, _. split; [reflexivity|]. split; [exact Hk|].
      intros o' [= <-]. reflexivity.
Qed.

Lemma train_epochs_without_saver (batch_size : Z) (train_data val_data : list batch)
    (log_interval : Z) (use_cuda : bool) (epochs : list Z) :
  forall (o : objects Net Opt Saver) (w : World),
    o_lp_saver o = None ->
    w_fs (train_epochs batch_size train_data val_data log_interval use_cuda
            epochs o w).1 = w_fs w.
Proof.
  induction epochs as [|epoch rest IH]; intros o w Hnone; simpl.
  - reflexivity.
  - unfold m_bind.
    destruct (train_one_without_saver batch_size train_data val_data log_interval
                use_cuda epoch o w Hnone) as (w1 & r & -> & Hfs & Hres).
    destruct r as [e|o1]; simpl.
    + exact Hfs.
    + rewrite IH; [exact Hfs | apply Hres; reflexivity].
Qed.

Lemma train_net_None_keeps_files (batch_size num_epochs : Z)
    (start_epoch1 : pyobj) (train_data val_data : list batch) (net : Net)
    (optimizer : Opt) (log_interval : Z) (use_cuda : bool) (w : World) :
  w_fs (train_net batch_size num_epochs start_epoch1 train_data val_data net
          optimizer None log_interval use_cuda w).1 = w_fs w.
Proof.
  unfold train_net.
  unfold m_bind at 1.
  destruct start_epoch1 as [| | z | | | |]; try reflexivity.
  unfold m_ret at 1. cbv beta iota.
  unfold m_bind at 1, py_assert.
  case_bool_decide; [|reflexivity].
  unfold m_ret at 1. cbv beta iota.
  unfold m_bind at 1.
  match goal with
  | |- context [match ?pre w with _ => _ end] =>
      assert (Hpre : w_fs (pre w).1 = w_fs w
                     /\ forall o, (pre w).2 = ok o -> o_lp_saver o = None);
      [|destruct (pre w) as [w1 [e|o]]; simpl in Hpre |- *]
  end.
  { case_bool_decide.
    - unfold m_bind, lift, log, m_ret.
      destruct (validate _ _ _ _ _) as [e|v]; simpl.
      + split; [reflexivity | discriminate].
      + split; [reflexivity|]. intros o [= <-]. reflexivity.
    - unfold m_ret. simpl. split; [reflexivity|]. intros o [= <-]. reflexivity. }
  - apply Hpre.
  - destruct Hpre as [Hfs Hnone]. specialize (Hnone o eq_refl).
    unfold m_bind at 1.
    pose proof (train_epochs_without_saver batch_size train_data val_data
                  log_interval use_cuda (py_range (z - 1) num_epochs) o w1 Hnone) as Hk.
    destruct (train_epochs _ _ _ _ _ _ _ _) as [w2 [e|o2]]; simpl in Hk |- *.
    + congruence.
    + unfold m_bind, log, m_ret. destruct (o_lp_saver o2); simpl; congruence.
Qed.

(** Without a saver [train_net] writes no file, however it ends. *)
Theorem train_net_without_saver_keeps_files (batch_size num_epochs : Z)
    (start_epoch1 : pyobj) (train_data val_data : list batch) (net : Net)
    (optimizer : Opt) (log_interval : Z) (use_cuda : bool) (w : World) :
  w_fs (train_net batch_size num_epochs start_epoch1 train_data val_data net
          optimizer None log_interval use_cuda w).1 = w_fs w.
Proof.
  apply train_net_None_keeps_files.
Qed.

(** *** More on model lookup *)

(** [_get_model] never raises a [ValueError]: the one a torchvision
    constructor raises is caught, and what follows the handler stops at
    [name not in models], a membership test on a module. *)
Theorem get_model_never_raises_ValueError (name : string) (pretrained : bool)
    (classes : Z) :
  (forall msg, _get_model name pretrained classes <> raise (ValueError msg))
  /\ (forall (f : bool -> Z -> result Net) (msg : string),
        torchvision_models !! name = Some f ->
        f pretrained classes = raise (ValueError msg) ->
        _get_model name pretrained classes
        = raise (TypeError "argument of type 'module' is not iterable")).
Proof.
  unfold _get_model, dict_get. split.
  - intros msg.
    destruct (torchvision_models !! name) as [f|]; simpl; [|discriminate].
    destruct (f pretrained classes) as [e|net]; [|discriminate].
    destruct e; discriminate.
  - intros f msg -> Hf. simpl. rewrite Hf. reflexivity.
Qed.

(** *** More on the trainer and the model to resume *)

(** [prepare_trainer] returns only on the resume path: whenever it
    returns, the path is non-empty and names a dictionary from which
    the optimizer state, the epoch and the best metric were read; the
    scheduler is [None], and neither file nor log has changed. *)
Theorem prepare_trainer_returns_only_on_resume (net : Net) (optimizer_name : string)
    (wd momentum lr : Q) (path : string) (w w' : World)
    (opt : Opt) (lr_scheduler start_epoch best_prec1 : pyobj) :
  prepare_trainer net optimizer_name wd momentum lr path w
  = (w', ok (opt, lr_scheduler, start_epoch, best_prec1)) ->
  w' = w /\ lr_scheduler = PNone /\ path <> ""
  /\ (optimizer_name = "sgd" \/ optimizer_name = "nag")
  /\ exists d state,
       w_fs w !! path = Some (PDict d)
       /\ assoc "optimizer" d = Some state
       /\ opt_load_state_dict
            (torch_optim_SGD net lr momentum wd (String.eqb optimizer_name "nag")) state
          = ok opt
       /\ assoc "epoch" d = Some start_epoch
       /\ assoc "best_prec1" d = Some best_prec1.
Proof.
  unfold prepare_trainer.
  assert (Hname : optimizer_name = "sgd" \/ optimizer_name = "nag"
                  \/ ((optimizer_name =? "sgd")%string = false
                      /\ (optimizer_name =? "nag")%string = false)).
  { destruct (String.eqb_spec optimizer_name "sgd"); [auto|].
    destruct (String.eqb_spec optimizer_name "nag"); auto. }
  destruct Hname as [-> | [-> | [E1 E2]]].
  3: { rewrite E1, E2. unfold m_bind, m_raise. discriminate. }
  all: simpl; unfold m_bind, m_ret, torch_load, lift, read_local; simpl.
  all: destruct (String.eqb_spec path "") as [->|Hpath]; simpl; [discriminate|].
  all: destruct (w_fs w !! path) as [obj|] eqn:Hfile; simpl; [|discriminate].
  all: destruct obj as [| | | | | |d]; simpl; try discriminate.
  all: destruct (assoc "optimizer" d) as [state|] eqn:Hstate; simpl; [|discriminate].
  all: destruct (opt_load_state_dict _ state) as [e|opt'] eqn:Hload; simpl;
         [discriminate|].
  all: destruct (assoc "epoch" d) as [ep|] eqn:Hep; simpl; [|discriminate].
  all: destruct (assoc "best_prec1" d) as [bp|] eqn:Hbp; simpl; [|discriminate].
  all: intros [= <- <- <- <- <-].
  all: split_and!; auto.
  all: exists d, state; split_and!; auto.
Qed.

(** Whenever [prepare_model] returns for a non-empty resume path, that
    path names a dictionary with a ['state_dict'] entry that the wrapped
    network accepted; the "Loading model" line is the one thing written. *)
Theorem prepare_model_returns_after_loading (model_name : string) (classes : Z)
    (use_pretrained : bool) (path : string) (use_cuda : bool)
    (w w' : World) (net' : Net) :
  path <> "" ->
  prepare_model model_name classes use_pretrained path use_cuda w = (w', ok net') ->
  exists net d state_dict,
    _get_model model_name use_pretrained classes = ok net
    /\ w_fs w !! path = Some (PDict d)
    /\ assoc "state_dict" d = Some state_dict
    /\ net_load_state_dict
         (if String.prefix "alexnet" model_name || String.prefix "vgg" model_name
          then data_parallel_features net else data_parallel net) state_dict
       = ok net'
    /\ w' = mkWorld (w_fs w) (w_log w ++ [LogLoadingModel path]).
Proof.
  intros Hpath. unfold prepare_model.
  unfold m_bind at 1, lift at 1.
  destruct (_get_model model_name use_pretrained classes) as [e|net]; [discriminate|].
  apply String.eqb_neq in Hpath. rewrite Hpath. simpl.
  unfold m_bind, isfile, py_assert, log, torch_load, lift, m_ret, m_raise. simpl.
  destruct (w_fs w !! path) as [obj|] eqn:Hfile.
  2: { rewrite bool_decide_eq_false_2 by (intros [? ?]; discriminate). discriminate. }
  rewrite bool_decide_eq_true_2 by eauto. simpl. rewrite Hfile. simpl.
  destruct obj as [| | | | | |d]; simpl; try discriminate.
  destruct (assoc "state_dict" d) as [sd|] eqn:Hsd; simpl; [|discriminate].
  destruct (net_load_state_dict _ sd) as [e|net1] eqn:Hload; [discriminate|].
  intros [= <- <-]. exists net, d, sd. split_and!; auto.
Qed.

(** *** More on the parsed namespace *)

Lemma index_dest_ne (i j : nat) (si sj : arg_spec) :
  arguments !! i = Some si -> arguments !! j = Some sj -> i <> j ->
  a_dest si <> a_dest sj.
Proof.
  intros Hi Hj Hne Hd. apply Hne.
  eapply NoDup_lookup; [apply dests_NoDup | |]; rewrite list_lookup_fmap.
  - rewrite Hi. reflexivity.
  - rewrite Hj. simpl. congruence.
Qed.

Lemma apply_action_other (ns ns' : gmap string pyobj) (occ : nat * option string)
    (i : nat) (spec : arg_spec) :
  apply_action ns occ = ok ns' -> occ.1 <> i -> arguments !! i = Some spec ->
  ns' !! a_dest spec = ns !! a_dest spec.
Proof.
  unfold apply_action. intros Happ Hne Hi.
  destruct (arguments !! occ.1) as [spec'|] eqn:Hspec; [|discriminate].
  pose proof (index_dest_ne _ _ _ _ Hspec Hi Hne) as Hd.
  destruct (a_action spec') as [ty|], (occ.2) as [s|]; try discriminate.
  - destruct (convert ty s) as [e|v]; simpl in Happ; [discriminate|].
    injection Happ as <-. apply lookup_insert_ne. exact Hd.
  - injection Happ as <-. apply lookup_insert_ne. exact Hd.
Qed.

Lemma apply_actions_other (i : nat) (spec : arg_spec) (occs : list (nat * option string)) :
  forall ns ns' : gmap string pyobj,
    apply_actions ns occs = ok ns' -> i ∉ occs.*1 -> arguments !! i = Some spec ->
    ns' !! a_dest spec = ns !! a_dest spec.
Proof.
  induction occs as [|occ occs IH]; intros ns ns'; simpl.
  - intros [= <-] _ _. reflexivity.
  - destruct (apply_action ns occ) as [e|ns1] eqn:Happ; simpl; [discriminate|].
    intros Hrest Hnot Hi. apply not_elem_of_cons in Hnot as [Hne Hnot].
    rewrite (IH ns1 ns' Hrest Hnot Hi).
    apply (apply_action_other ns ns1 occ i spec Happ); [|exact Hi].
    intros E. apply Hne. symmetry. exact E.
Qed.

Lemma apply_actions_app (pre post : list (nat * option string)) :
  forall ns ns' : gmap string pyobj,
    apply_actions ns (pre ++ post) = ok ns' ->
    exists ns1, apply_actions ns pre = ok ns1 /\ apply_actions ns1 post = ok ns'.
Proof.
  induction pre as [|occ pre IH]; intros ns ns'; simpl.
  - intros Hrun. eauto.
  - destruct (apply_action ns occ) as [e|ns1]; simpl; [discriminate|]. apply IH.
Qed.

Lemma last_occurrence_split (i : nat) (occs : list (nat * option string)) :
  i ∈ occs.*1 ->
  exists pre raw post, occs = pre ++ (i, raw) :: post /\ i ∉ post.*1.
Proof.
  induction occs as [|[j raw] occs IH]; simpl.
  - intros H. inversion H.
  - intros Hin. destruct (decide (i ∈ occs.*1)) as [Hlater|Hnot].
    + destruct (IH Hlater) as (pre & raw' & post & -> & Hpost).
      exists ((j, raw) :: pre), raw', post. split; [reflexivity | exact Hpost].
    + apply elem_of_cons in Hin as [->|Hin]; [|contradiction].
      exists [], raw, occs. split; [reflexivity | exact Hnot].
Qed.

Lemma required_seen_model (occs : list (nat * option string)) :
  required_seen occs = true -> 1%nat ∈ occs.*1.
Proof.
  unfold required_seen. intros Hall.
  rewrite forallb_forall in Hall.
  specialize (Hall (1%nat, mkArg ["--model"] "model" (Store TStr) PNone true)).
  simpl in Hall.
  assert (H : bool_decide (1%nat ∈ occs.*1) = true)
    by (apply Hall; right; left; reflexivity).
  apply bool_decide_eq_true in H. exact H.
Qed.

Lemma apply_action_stores (ns ns' : gmap string pyobj) (i : nat)
    (raw : option string) (spec : arg_spec) :
  apply_action ns (i, raw) = ok ns' -> arguments !! i = Some spec ->
  match a_action spec with
  | Store ty => exists s v, raw = Some s /\ convert ty s = ok v
                            /\ ns' !! a_dest spec = Some v
  | StoreTrue => raw = None /\ ns' !! a_dest spec = Some (PBool true)
  end.
Proof.
  unfold apply_action. simpl. intros Happ Hi. rewrite Hi in Happ.
  destruct (a_action spec) as [ty|], raw as [s|]; try discriminate.
  - destruct (convert ty s) as [e|v] eqn:Hconv; simpl in Happ; [discriminate|].
    injection Happ as <-. exists s, v. rewrite lookup_insert_eq. auto.
  - injection Happ as <-. rewrite lookup_insert_eq. auto.
Qed.

(** An option that does not occur on the command line keeps its
    default. *)
Theorem parse_args_defaults (argv : list string) (occs : list (nat * option string))
    (args : gmap string pyobj) (i : nat) (spec : arg_spec) :
  argparse_scan scanner_specs argv = ok occs ->
  parse_args argv = ok args ->
  arguments !! i = Some spec ->
  i ∉ occs.*1 ->
  args !! a_dest spec = Some (a_default spec).
Proof.
  unfold parse_args, scanner_specs. intros -> Hparse Hi Hnot. simpl in Hparse.
  destruct (apply_actions default_namespace occs) as [e|ns] eqn:Happ; simpl in Hparse;
    [discriminate|].
  destruct (required_seen occs); [|discriminate]. injection Hparse as <-.
  rewrite (apply_actions_other i spec occs _ _ Happ Hnot Hi).
  apply default_namespace_lookup. apply list_elem_of_lookup. eauto.
Qed.

(** An option that occurs holds what its last occurrence stores: the
    converted value for a [store] action, [True] for [store_true]. *)
Theorem parse_args_last_occurrence (argv : list string)
    (pre post : list (nat * option string)) (raw : option string)
    (args : gmap string pyobj) (i : nat) (spec : arg_spec) :
  argparse_scan scanner_specs argv = ok (pre ++ (i, raw) :: post) ->
  i ∉ post.*1 ->
  parse_args argv = ok args ->
  arguments !! i = Some spec ->
  match a_action spec with
  | Store ty => exists s v, raw = Some s /\ convert ty s = ok v
                            /\ args !! a_dest spec = Some v
  | StoreTrue => raw = None /\ args !! a_dest spec = Some (PBool true)
  end.
Proof.
  unfold parse_args, scanner_specs. intros -> Hnot Hparse Hi. simpl in Hparse.
  destruct (apply_actions default_namespace _) as [e|ns] eqn:Happ; simpl in Hparse;
    [discriminate|].
  destruct (required_seen _); [|discriminate]. injection Hparse as <-.
  apply apply_actions_app in Happ as (ns1 & _ & Happ). simpl in Happ.
  destruct (apply_action ns1 (i, raw)) as [e|ns2] eqn:Hact; simpl in Happ;
    [discriminate|].
  pose proof (apply_action_stores _ _ _ _ _ Hact Hi) as Hstored.
  rewrite (apply_actions_other i spec post _ _ Happ Hnot Hi).
  exact Hstored.
Qed.

(** Every attribute of a parsed namespace has the type of its action
    ([--model], whose default is [None], being required), and there is
    no other attribute. *)
Theorem parse_args_typed (argv : list string) (args : gmap string pyobj) :
  parse_args argv = ok args ->
  Forall (fun spec => exists v, args !! a_dest spec = Some v
                                /\ has_type (a_action spec) v) arguments
  /\ forall name, name ∉ a_dest <$> arguments -> args !! name = None.
Proof.
  intros Hparse. pose proof (parse_args_ok _ _ Hparse) as Hns.
  split; [|apply Hns].
  assert (Hmodel : exists s, args !! "model" = Some (PStr s)).
  { revert Hparse. unfold parse_args.
    destruct (argparse_scan _ argv) as [e|occs]; simpl; [discriminate|].
    destruct (apply_actions default_namespace occs) as [e|ns] eqn:Happ; simpl;
      [discriminate|].
    destruct (required_seen occs) eqn:Hreq; [|discriminate]. intros [= <-].
    apply required_seen_model in Hreq.
    apply last_occurrence_split in Hreq as (pre & raw & post & -> & Hnot).
    apply apply_actions_app in Happ as (ns1 & _ & Happ). simpl in Happ.
    destruct (apply_action ns1 (1%nat, raw)) as [e|ns2] eqn:Hact; simpl in Happ;
      [discriminate|].
    pose proof (apply_action_stores _ _ _ _ _ Hact eq_refl) as (s & v & _ & Hconv & Hv).
    simpl in Hconv, Hv. injection Hconv as <-.
    exists s. rewrite <- Hv.
    exact (apply_actions_other 1 _ post _ _ Happ Hnot eq_refl). }
  apply Forall_lookup. intros i spec Hi.
  destruct (decide (i = 1%nat)) as [->|Hne].
  - injection Hi as <-. destruct Hmodel as [s Hs]. exists (PStr s). simpl. eauto.
  - apply (namespace_attr args i spec Hns Hi).
    do 27 (destruct i as [|i]; [try congruence; injection Hi as <-; simpl; eauto|]).
    discriminate Hi.
Qed.

Lemma apply_action_error (ns : gmap string pyobj) (occ : nat * option string) (e : exn) :
  apply_action ns occ = raise e -> e = SystemExit 2.
Proof.
  unfold apply_action.
  destruct (arguments !! occ.1) as [spec|]; [|congruence].
  destruct (a_action spec) as [[| |]|], (occ.2) as [s|]; simpl; try congruence.
  - destruct (py_int s); simpl; congruence.
  - destruct (py_float s); simpl; congruence.
Qed.

Lemma apply_actions_error (occs : list (nat * option string)) :
  forall (ns : gmap string pyobj) (e : exn),
    apply_actions ns occs = raise e -> e = SystemExit 2.
Proof.
  induction occs as [|occ occs IH]; intros ns e; simpl; [discriminate|].
  destruct (apply_action ns occ) as [e'|ns1] eqn:Happ; simpl.
  - intros [= <-]. eapply apply_action_error. exact Happ.
  - apply IH.
Qed.

Lemma apply_actions_bad (occs : list (nat * option string)) :
  Exists bad_value occs ->
  forall ns : gmap string pyobj, apply_actions ns occs = raise (SystemExit 2).
Proof.
  induction 1 as [occ occs Hbad|occ occs _ IH]; intros ns; simpl.
  - destruct Hbad as (spec & s & Hspec & Hraw & Hconv).
    unfold apply_action. rewrite Hspec, Hraw.
    destruct Hconv as [[-> Hint]|[-> Hfloat]]; simpl.
    + rewrite Hint. reflexivity.
    + rewrite Hfloat. reflexivity.
  - destruct (apply_action ns occ) as [e|ns1] eqn:Happ; simpl; [|apply IH].
    apply apply_action_error in Happ. subst e. reflexivity.
Qed.

(** A command line the scanner accepts is still rejected, with exit
    status 2, when [--model] is missing or when an [int] or [float]
    option is given a value that does not convert. *)
Theorem parse_args_rejects (argv : list string) (occs : list (nat * option string)) :
  argparse_scan scanner_specs argv = ok occs ->
  1%nat ∉ occs.*1 \/ Exists bad_value occs ->
  parse_args argv = raise (SystemExit 2).
Proof.
  unfold parse_args, scanner_specs. intros -> Hbad. simpl.
  destruct Hbad as [Hmissing|Hbad].
  - destruct (apply_actions default_namespace occs) as [e|ns] eqn:Happ; simpl.
    + apply apply_actions_error in Happ. subst e. reflexivity.
    + destruct (required_seen occs) eqn:Hreq; [|reflexivity].
      apply required_seen_model in Hreq. contradiction.
  - rewrite (apply_actions_bad occs Hbad). reflexivity.
Qed.

(** *** What [main] writes before it stops *)

(** For every command line [parse_args] accepts: with a seed above
    [2**32 - 1], [main] stops before it has written anything; with any
    other seed, once the logger is set up and the environment report is
    made, the log [main] leaves is what the set-up of the logger wrote,
    then the command line, the arguments, with [seed] already replaced
    by the seed in use (the random one for a seed that is not positive),
    and the environment report. *)
Theorem main_log_before_stopping (argv : list string) (args : gmap string pyobj)
    (w : World) :
  parse_args argv = ok args ->
  exists (seed : Z) (save_dir logging_file_name log_packages log_pip_packages : string),
    args !! "seed" = Some (PInt seed)
    /\ args !! "save_dir" = Some (PStr save_dir)
    /\ args !! "logging_file_name" = Some (PStr logging_file_name)
    /\ args !! "log_packages" = Some (PStr log_packages)
    /\ args !! "log_pip_packages" = Some (PStr log_pip_packages)
    /\ (4294967295 < seed -> (main argv w).1 = w)
    /\ (forall w1 stats,
          seed <= 4294967295 ->
          prepare_logger save_dir logging_file_name w = (w1, ok tt) ->
          get_env_stats log_packages log_pip_packages = ok stats ->
          w_log (main argv w).1
          = w_log w1
            ++ [LogCommandLine argv;
                LogArguments
                  (<["seed" := PInt (if bool_decide (seed <= 0)
                                     then np_random_randint else seed)]> args);
                LogEnvStats stats]).
Proof.
  intros Hparse.
  destruct (main_run argv args w Hparse)
    as (seed & save_dir & file_name & packages & pip_packages
        & Hseed & Hdir & Hfile & Hpkg & Hpip & Hrun).
  exists seed, save_dir, file_name, packages, pip_packages.
  split_and!; try assumption.
  - intros Hbig. rewrite Hrun, (init_rand_too_large seed Hbig). reflexivity.
  - intros w1 stats Hsmall Hlogger Hstats.
    rewrite Hrun, (init_rand_in_range seed Hsmall), Hlogger, Hstats. reflexivity.
Qed.

(** *** What follows line 600 *)

(** Had [main] got past line 600: for a namespace with [evaluate]
    unset and a blank [resume], once the model and the loaders are
    built, training cannot start: [prepare_trainer] is on its fresh path
    and raises, at the latest at its [return]; nothing has been written
    since the model was built. *)
Theorem fresh_training_cannot_start (args : gmap string pyobj) (use_cuda : bool)
    (batch_size : Z) (w w1 : World) (model resume data_dir optimizer_name : string)
    (use_pretrained : bool) (num_workers num_epochs : Z) (wd momentum lr : Q)
    (net : Net) (train_data val_data : list batch) :
  args !! "model" = Some (PStr model) ->
  args !! "use_pretrained" = Some (PBool use_pretrained) ->
  args !! "resume" = Some (PStr resume) ->
  strip resume = "" ->
  args !! "data_dir" = Some (PStr data_dir) ->
  args !! "num_workers" = Some (PInt num_workers) ->
  args !! "evaluate" = Some (PBool false) ->
  args !! "optimizer_name" = Some (PStr optimizer_name) ->
  args !! "wd" = Some (PFloat wd) ->
  args !! "momentum" = Some (PFloat momentum) ->
  args !! "lr" = Some (PFloat lr) ->
  args !! "num_epochs" = Some (PInt num_epochs) ->
  prepare_model model 1000 use_pretrained "" use_cuda w = (w1, ok net) ->
  image_folder_loaders data_dir batch_size num_workers = ok (train_data, val_data) ->
  exists e, main_from_model args use_cuda batch_size w = (w1, raise e).
Proof.
  intros Hmodel Hpre Hres Hblank Hdir Hwork Heval Hopt Hwd Hmom Hlr Hep
         Hprep Hload.
  unfold main_from_model, attr_str, attr_bool, attr_int, attr_float, getattr,
    get_data_loader.
  unfold m_bind, lift.
  rewrite Hmodel, Hpre, Hres. simpl. rewrite Hblank, Hprep.
  rewrite Hdir. simpl. rewrite Hwork. simpl. rewrite Hload.
  rewrite Heval. simpl. rewrite Hopt. simpl. rewrite Hwd. simpl.
  rewrite Hmom. simpl. rewrite Hlr. simpl. rewrite Hep. simpl.
  unfold prepare_trainer, m_bind, m_ret, m_raise, read_local.
  destruct (optimizer_name =? "sgd")%string; simpl; [eauto|].
  destruct (optimizer_name =? "nag")%string; simpl; eauto.
Qed.

(** The value of [--start-epoch] never reaches the epoch loop: line 639
    overwrites it with the checkpoint's before line 666 reads it. *)
Theorem start_epoch_option_ignored (args : gmap string pyobj) (v : pyobj)
    (use_cuda : bool) (batch_size : Z) (w : World) :
  main_from_model (<["start_epoch" := v]> args) use_cuda batch_size w
  = main_from_model args use_cuda batch_size w.
Proof.
  unfold main_from_model, attr_str, attr_bool, attr_int, attr_float, getattr.
  rewrite !lookup_insert_ne by discriminate.
  unfold m_bind, lift.
  repeat
    (first
       [ rewrite insert_insert_eq
       | match goal with
         | |- context [match ?x with _ => _ end] =>
             lazymatch x with
             | context [<[ _ := _ ]> _] => fail
             | _ => destruct x eqn:?; simpl; try reflexivity
             end
         end ];
     rewrite ?lookup_insert_eq; rewrite ?lookup_insert_ne by discriminate).
Qed.

(** *** Where checkpoints can come from *)

Lemma keeps_isfile (path : string) : keeps_files (isfile path).
Proof. intros w. reflexivity. Qed.

Lemma keeps_torch_load (path : string) : keeps_files (torch_load path).
Proof. intros w. unfold torch_load. destruct (w_fs w !! path); reflexivity. Qed.

Lemma prepare_model_keeps_files (model_name : string) (classes : Z)
    (use_pretrained : bool) (path : string) (use_cuda : bool) :
  keeps_files (prepare_model model_name classes use_pretrained path use_cuda).
Proof.
  unfold prepare_model, py_assert.
  repeat first [ apply keeps_isfile | apply keeps_torch_load | keeps_step ].
Qed.

Lemma prepare_trainer_keeps_files (net : Net) (optimizer_name : string)
    (wd momentum lr : Q) (path : string) :
  keeps_files (prepare_trainer net optimizer_name wd momentum lr path).
Proof.
  unfold prepare_trainer, read_local.
  repeat first [ apply keeps_torch_load | keeps_step ].
Qed.

Lemma test_keeps_files (net : Net) (val_data : list batch) (use_cuda : bool) :
  keeps_files (test net val_data use_cuda).
Proof. unfold test. repeat keeps_step. Qed.

Lemma keeps_train_net_None (batch_size num_epochs : Z) (start_epoch1 : pyobj)
    (train_data val_data : list batch) (net : Net) (optimizer : Opt)
    (log_interval : Z) (use_cuda : bool) :
  keeps_files (train_net batch_size num_epochs start_epoch1 train_data val_data net
                 optimizer None log_interval use_cuda).
Proof. intros w. apply train_net_None_keeps_files. Qed.

(** In the part of [main] after line 600, a file can change only in
    training mode with a save directory and a non-zero save interval:
    with [evaluate] set, or an empty [save_dir], or [save_interval = 0],
    every file is left as it was, however the run ends. *)
Theorem checkpoints_need_training_and_save_dir (args : gmap string pyobj)
    (use_cuda : bool) (batch_size : Z) (w : World) :
  args !! "evaluate" = Some (PBool true)
  \/ args !! "save_dir" = Some (PStr "")
  \/ args !! "save_interval" = Some (PInt 0) ->
  w_fs (main_from_model args use_cuda batch_size w).1 = w_fs w.
Proof.
  intros Hargs. revert w.
  change (keeps_files (main_from_model args use_cuda batch_size)).
  unfold main_from_model, get_data_loader, py_assert.
  apply keeps_bind; [apply keeps_lift | intros model].
  apply keeps_bind; [apply keeps_lift | intros use_pretrained].
  apply keeps_bind; [apply keeps_lift | intros resume].
  apply keeps_bind; [apply prepare_model_keeps_files | intros net].
  apply keeps_bind; [apply keeps_lift | intros data_dir].
  apply keeps_bind; [apply keeps_lift | intros num_workers].
  apply keeps_bind; [apply keeps_lift | intros [train_data val_data]].
  assert (Htest : keeps_files
                    (py_assert 617 (use_pretrained || negb (strip resume =? "")%string);;
                     test net val_data use_cuda;; m_ret tt)).
  { unfold py_assert. repeat first [ apply test_keeps_files | keeps_step ]. }
  unfold py_assert in Htest.
  destruct Hargs as [Heval | Hsaver].
  { unfold attr_bool at 1, getattr at 1. rewrite Heval. simpl.
    intros w. unfold m_bind at 1, lift at 1. cbv beta iota. apply Htest. }
  apply keeps_bind; [apply keeps_lift | intros evaluate].
  destruct evaluate; [exact Htest|].
  apply keeps_bind; [apply keeps_lift | intros optimizer_name].
  apply keeps_bind; [apply keeps_lift | intros wd].
  apply keeps_bind; [apply keeps_lift | intros momentum].
  apply keeps_bind; [apply keeps_lift | intros lr].
  apply keeps_bind; [apply keeps_lift | intros num_epochs].
  apply keeps_bind; [apply prepare_trainer_keeps_files|].
  intros [[[optimizer lr_scheduler] start_epoch] best_prec1].
  unfold attr_str, attr_int, getattr.
  rewrite !lookup_insert_ne by discriminate.
  intros w. unfold m_bind at 1, lift at 1.
  destruct Hsaver as [Hdir | Hint].
  - rewrite Hdir. simpl. unfold m_bind at 1, lift at 1.
    destruct (args !! "save_interval") as [v'|] eqn:Eint; simpl; [|reflexivity].
    destruct (as_int v') as [e|save_interval]; simpl; [reflexivity|].
    revert w.
    repeat first [ apply keeps_train_net_None | keeps_step ].
  - destruct (args !! "save_dir") as [v|] eqn:Edir; simpl; [|reflexivity].
    destruct (as_str v) as [e|save_dir]; simpl; [reflexivity|].
    unfold m_bind at 1, lift at 1. rewrite Hint. simpl.
    rewrite andb_false_r. revert w.
    repeat first [ apply keeps_train_net_None | keeps_step ].
Qed.

(** *** Checkpoints *)







End Driver.

(** ** Concrete runs

    The statements above at explicit inputs, on the framework [Toy.toy]. *)

(** C1: on a validation batch of two samples, one with its true class
    scored highest and both with it among the five highest, one minus the
    fraction of correct samples is [1/2] for top-1 and [0] for top-5;
    [validate], which averages the per-cent values of [accuracy] and
    subtracts them from one, returns [-49] and [-99]. *)
Theorem validate_returns_one_minus_percent :
  total_samples (F:=Toy.toy) Toy.val_data = 2%nat
  /\ total_correct (F:=Toy.toy) 1 tt Toy.val_data = 1%nat
  /\ total_correct (F:=Toy.toy) 5 tt Toy.val_data = 2%nat
  /\ exists v,
       validate (F:=Toy.toy) AverageMeter.init AverageMeter.init tt Toy.val_data false
       = ok v
       /\ (v_err_top1 v == -49)%Q /\ (v_err_top5 v == -99)%Q
       /\ ~ (v_err_top1 v == 1 - 1 / 2)%Q /\ ~ (v_err_top5 v == 1 - 2 / 2)%Q.
Proof.
  split_and!; try (vm_compute; reflexivity).
  eexists. split; [vm_compute; reflexivity|].
  split_and!; try (vm_compute; reflexivity);
    intros H; vm_compute in H; discriminate H.
Qed.

Lemma AverageMeter_invariant_witness :
  let calls := [((1 # 2)%Q, 2); (1%Q, 3)] in
  Forall (fun c : Q * Z => 0 < c.2) calls
  /\ exists m,
       AverageMeter.updates (AverageMeter.reset AverageMeter.init) calls = ok m
       /\ AverageMeter.count m = AverageMeter.total_n calls
       /\ (AverageMeter.sum m == AverageMeter.total_vn calls)%Q
       /\ AverageMeter.val m = AverageMeter.last_val calls
       /\ (AverageMeter.avg m == AverageMeter.sum m / inject_Z (AverageMeter.count m))%Q.
Proof.
  intros calls.
  assert (Hpos : Forall (fun c : Q * Z => 0 < c.2) calls)
    by (repeat constructor; simpl; lia).
  split; [exact Hpos|].
  exact (proj2 (AverageMeter_invariant AverageMeter.init calls Hpos)).
Defined.

Lemma main_stops_witness :
  let argv := ["--model"; "resnet18"; "--num-epochs"; "5"] in
  exists args,
    parse_args (F:=Toy.toy) argv = ok args
    /\ args !! "convert_to_mxnet" = None
    /\ (exists w' e, main (F:=Toy.toy) argv Toy.w0 = (w', raise e)
                     /\ extends logging_stage Toy.w0 w')
    /\ exists (seed : Z) (save_dir logging_file_name log_packages log_pip_packages : string),
         args !! "seed" = Some (PInt seed)
         /\ args !! "save_dir" = Some (PStr save_dir)
         /\ args !! "logging_file_name" = Some (PStr logging_file_name)
         /\ args !! "log_packages" = Some (PStr log_packages)
         /\ args !! "log_pip_packages" = Some (PStr log_pip_packages)
         /\ (4294967295 < seed ->
             exists msg, main (F:=Toy.toy) argv Toy.w0 = (Toy.w0, raise (ValueError msg)))
         /\ (forall w1 e,
               seed <= 4294967295 ->
               prepare_logger (F:=Toy.toy) save_dir logging_file_name Toy.w0
               = (w1, raise e) ->
               main (F:=Toy.toy) argv Toy.w0 = (w1, raise e))
         /\ (forall w1 e,
               seed <= 4294967295 ->
               prepare_logger (F:=Toy.toy) save_dir logging_file_name Toy.w0
               = (w1, ok tt) ->
               get_env_stats (framework:=Toy.toy) log_packages log_pip_packages
               = raise e ->
               exists w', main (F:=Toy.toy) argv Toy.w0 = (w', raise e))
         /\ (forall w1 stats,
               seed <= 4294967295 ->
               prepare_logger (F:=Toy.toy) save_dir logging_file_name Toy.w0
               = (w1, ok tt) ->
               get_env_stats (framework:=Toy.toy) log_packages log_pip_packages
               = ok stats ->
               exists w',
                 main (F:=Toy.toy) argv Toy.w0
                 = (w', raise (AttributeError "convert_to_mxnet"))).
Proof.
  intros argv.
  assert (H : is_ok (parse_args (F:=Toy.toy) argv) = true)
    by (vm_compute; reflexivity).
  destruct (parse_args (F:=Toy.toy) argv) as [e|args] eqn:E; [discriminate H|].
  exists args. split; [reflexivity|].
  exact (main_stops_by_line_600 (F:=Toy.toy) argv args Toy.w0 E).
Defined.

(** The run of that command line, to the exception and the log it ends
    with. *)
Example main_raises_AttributeError :
  let argv := ["--model"; "resnet18"; "--num-epochs"; "5"] in
  exists args,
    parse_args (F:=Toy.toy) argv = ok args
    /\ main (F:=Toy.toy) argv Toy.w0
       = (mkWorld ∅ [LogCommandLine argv;
                     LogArguments (<["seed" := PInt 1234]> args);
                     LogEnvStats "torch, torchvision"],
          raise (AttributeError "convert_to_mxnet")).
Proof.
  intros argv. eexists. split; [reflexivity|]. vm_compute. reflexivity.
Qed.

(** C2, as stated, fails on command lines that [parse_args] accepts and
    on which [main] raises before line 600, and not an
    [AttributeError]: a seed of [2**32], which [np.random.seed]
    rejects, and an empty log file name, with which the log file path
    names the log directory. *)
Lemma main_stops_counterexample :
  let big_seed := ["--model"; "resnet18"; "--seed"; "4294967296"] in
  let no_file_name :=
    ["--model"; "resnet18"; "--save-dir"; "out"; "--logging-file-name"; ""] in
  is_ok (parse_args (F:=Toy.toy) big_seed) = true
  /\ main (F:=Toy.toy) big_seed Toy.w0
     = (Toy.w0, raise (ValueError "Seed must be between 0 and 2**32 - 1"))
  /\ is_ok (parse_args (F:=Toy.toy) no_file_name) = true
  /\ main (F:=Toy.toy) no_file_name Toy.w0
     = (mkWorld ∅ [MakeDirs "out"], raise (IsADirectoryError "out/")).
Proof.
  intros big_seed no_file_name. split_and!; vm_compute; reflexivity.
Qed.

Lemma get_model_witness :
  torchvision_models (framework:=Toy.toy) !! "mobilenet1_0" = None
  /\ "mobilenet1_0" ∈ slk_model_names
  /\ _get_model (F:=Toy.toy) "mobilenet1_0" false 1000
     = raise (KeyError "mobilenet1_0").
Proof.
  assert (H : torchvision_models (framework:=Toy.toy) !! "mobilenet1_0" = None)
    by reflexivity.
  split; [exact H|]. split.
  - unfold slk_model_names. set_solver.
  - exact (get_model_unknown_upstream_raises_KeyError (F:=Toy.toy)
             "mobilenet1_0" false 1000 H).
Defined.

Lemma train_epoch_witness :
  (1 <> 0 /\ Z.abs 1 <= Z.of_nat (length Toy.train_data))
  /\ (forall stale : AverageMeter.t,
         train_epoch (F:=Toy.toy) 0 stale tt Toy.train_data false tt 32 1 Toy.w0
         = train_epoch (F:=Toy.toy) 0 AverageMeter.init tt Toy.train_data false tt 32 1 Toy.w0)
  /\ exists w' e,
       train_epoch (F:=Toy.toy) 0 AverageMeter.init tt Toy.train_data false tt 32 1 Toy.w0
       = (w', inl e).
Proof.
  assert (H1 : 1 <> 0) by lia.
  assert (H2 : Z.abs 1 <= Z.of_nat (length Toy.train_data)) by (simpl; lia).
  split; [split; assumption|].
  exact (train_epoch_raises_when_logging (F:=Toy.toy) 0 AverageMeter.init tt
           Toy.train_data false tt 32 1 Toy.w0 H1 H2).
Defined.

Lemma train_net_witness :
  (1 <= 1 <= 2 /\ 1 <> 0 /\ Z.abs 1 <= Z.of_nat (length Toy.train_data))
  /\ exists w' e,
       train_net (F:=Toy.toy) 32 2 (PInt 1) Toy.train_data Toy.val_data tt tt
         (Some tt) 1 false Toy.w0 = (w', inl e)
       /\ extends (fun ev => epoch_done ev = false) Toy.w0 w'.
Proof.
  assert (H0 : 1 <= 1 <= 2) by lia.
  assert (H1 : 1 <> 0) by lia.
  assert (H2 : Z.abs 1 <= Z.of_nat (length Toy.train_data)) by (simpl; lia).
  split; [split; [exact H0 | split; [exact H1 | exact H2]] |].
  exact (train_net_stops_in_first_epoch (F:=Toy.toy) 32 2 1 Toy.train_data
           Toy.val_data tt tt (Some tt) 1 false Toy.w0 H0 H1 H2).
Defined.

(** The same two runs, to the exception and the log they end with. *)
Example train_epoch_raises_AttributeError :
  train_epoch (F:=Toy.toy) 0 AverageMeter.init tt Toy.train_data false tt 32 1 Toy.w0
  = (mkWorld ∅ [LogModelParams 9], raise (AttributeError "get")).
Proof. vm_compute. reflexivity. Qed.

Example train_net_raises_AttributeError :
  train_net (F:=Toy.toy) 32 2 (PInt 1) Toy.train_data Toy.val_data tt tt
    (Some tt) 1 false Toy.w0
  = (mkWorld ∅ [LogModelParams 9], raise (AttributeError "get")).
Proof. vm_compute. reflexivity. Qed.


Lemma custom_error_control_witness :
  let args := <["evaluate" := PBool true]>
                (<["model" := PStr "resnet18"]> default_namespace) in
  parse_args (F:=Toy.toy) ["--model"; "resnet18"; "-e"] = ok args
  /\ ((exists w', main_from_model (F:=Toy.toy) args false 32 Toy.w0
                  = (w', raise (AssertionError 617)))
      <-> (false = false /\ strip "" = ""))
  /\ prepare_model (F:=Toy.toy) "resnet18" 1000 false "missing.pth" false Toy.w0
     = (Toy.w0, raise (AssertionError 321))
  /\ prepare_trainer (F:=Toy.toy) tt "adam" (1 # 10000) (9 # 10) (1 # 10) "" Toy.w0
     = (Toy.w0, raise Exception_)
  /\ train_net (F:=Toy.toy) 32 3 (PInt 0) Toy.train_data Toy.val_data tt tt None
       50 false Toy.w0
     = (Toy.w0, raise (AssertionError 535)).
Proof.
  intros args.
  destruct (custom_error_control (F:=Toy.toy)) as (Heval & Hmodel & Htrainer & Hnet).
  split; [reflexivity|]. split_and!.
  - apply (Heval args false 32 Toy.w0 Toy.w0 "resnet18" "" "../imgclsmob_data/imagenet"
             false 4 tt Toy.train_data Toy.val_data); reflexivity.
  - apply (Hmodel "resnet18" 1000 false "missing.pth" false Toy.w0 tt);
      [reflexivity | discriminate | reflexivity].
  - apply Htrainer; discriminate.
  - apply (proj2 (Hnet 32 3 (PInt 0) Toy.train_data Toy.val_data tt tt None 50
                    false Toy.w0) 0); [reflexivity | lia].
Defined.

(** [strip] takes off white space beyond ASCII too: the no-break space
    U+00A0 and the control U+0085. *)
Example strip_no_break_space :
  strip (String (ascii_of_nat 160) (String (ascii_of_nat 133) " out/last.pth "))
  = "out/last.pth"
  /\ strip (String (ascii_of_nat 160) "") = "".
Proof. split; vm_compute; reflexivity. Qed.

(** C5, as stated, fails in three ways.  Run in evaluate mode with
    neither flag, the program raises no assertion failure but the
    [AttributeError] of line 600.  In the evaluate branch itself a resume
    path that is not empty but blank (a space, a no-break space) fails
    the assertion.  And the script has other controls of its own: a bare
    [Exception] for an unknown optimizer, and the assertions of
    [train_net] on the start epoch. *)
Lemma custom_error_control_counterexample :
  let evaluate := <["evaluate" := PBool true]>
                    (<["model" := PStr "resnet18"]> default_namespace) in
  let blank_resume := <["resume" := PStr " "]> evaluate in
  let no_break_space := <["resume" := PStr (String (ascii_of_nat 160) "")]> evaluate in
  (main (F:=Toy.toy) ["--model"; "resnet18"; "-e"] Toy.w0).2
  = raise (AttributeError "convert_to_mxnet")
  /\ parse_args (F:=Toy.toy) ["--model"; "resnet18"; "-e"; "--resume"; " "]
     = ok blank_resume
  /\ (main_from_model (F:=Toy.toy) blank_resume false 32 Toy.w0).2
     = raise (AssertionError 617)
  /\ (main_from_model (F:=Toy.toy) no_break_space false 32 Toy.w0).2
     = raise (AssertionError 617)
  /\ (prepare_trainer (F:=Toy.toy) tt "adam" (1 # 10000) (9 # 10) (1 # 10) "" Toy.w0).2
     = raise Exception_
  /\ (train_net (F:=Toy.toy) 32 3 (PInt 0) Toy.train_data Toy.val_data tt tt None
        50 false Toy.w0).2
     = raise (AssertionError 535).
Proof.
  intros evaluate blank_resume no_break_space.
  split_and!; [| reflexivity | ..]; vm_compute; reflexivity.
Qed.

Lemma prepare_trainer_resume_witness :
  let saved := [("state_dict", PDict []); ("optimizer", PDict []);
                ("epoch", PInt 3); ("best_prec1", PFloat (1 # 4))] in
  let w := mkWorld {[ "last.pth" := PDict saved ]} [] in
  prepare_trainer (F:=Toy.toy) tt "nag" (1 # 10000) (9 # 10) (1 # 10) "last.pth" w
  = (w, ok (tt, PNone, PInt 3, PFloat (1 # 4))).
Proof.
  intros saved w.
  apply (prepare_trainer_resume (F:=Toy.toy) tt "nag" (1 # 10000) (9 # 10) (1 # 10)
           "last.pth" w saved (PDict []) (PInt 3) (PFloat (1 # 4)) tt);
    [discriminate | right; reflexivity | reflexivity..].
Defined.

Lemma get_model_returns_upstream_witness :
  _get_model (F:=Toy.toy) "resnet18" true 1000 = ok tt
  /\ exists f,
       torchvision_models (framework:=Toy.toy) !! "resnet18" = Some f
       /\ f true 1000 = ok tt.
Proof.
  assert (H : _get_model (F:=Toy.toy) "resnet18" true 1000 = ok tt) by reflexivity.
  split; [exact H|].
  exact (get_model_returns_upstream_only (F:=Toy.toy) "resnet18" true 1000 tt H).
Defined.

(** The further properties at explicit inputs. *)

Lemma correct_k_counts_k_highest_witness :
  let output := [[9; 1; 2; 3; 4; 0]; [1; 9; 2; 3; 4; 0]]%Q in
  let target := [0; 2]%nat in
  exists preds,
    topk_rows 5 output = ok preds
    /\ correct_k 1 preds target = 1%nat
    /\ n_among_k_highest 1 output target = 1%nat
    /\ correct_k 1 preds target = n_among_k_highest 1 output target.
Proof.
  intros output target. eexists. split; [reflexivity|].
  split; [vm_compute; reflexivity|]. split; [vm_compute; reflexivity|].
  apply (correct_k_counts_k_highest 1 5 output target).
  - reflexivity.
  - lia.
  - repeat constructor; intros i j si sj Hi Hj Heq;
      repeat (destruct i as [|i]; [|try discriminate Hi]);
      repeat (destruct j as [|j]; [|try discriminate Hj]);
      simpl in Hi, Hj; try reflexivity;
      injection Hi as <-; injection Hj as <-; vm_compute in Heq; discriminate Heq.
Defined.

Lemma accuracy_monotone_in_k_witness :
  let output := [[9; 1; 2; 3; 4; 0]; [1; 9; 2; 3; 4; 0]]%Q in
  let target := [0; 2]%nat in
  exists res,
    accuracy output target [1; 5]%nat = ok res
    /\ Forall (fun r => (0 <= r)%Q) res
    /\ forall (i j k1 k2 : nat) (r1 r2 : Q),
         [1; 5]%nat !! i = Some k1 -> [1; 5]%nat !! j = Some k2 ->
         res !! i = Some r1 -> res !! j = Some r2 ->
         (k1 <= k2)%nat -> (r1 <= r2)%Q.
Proof.
  intros output target.
  destruct (accuracy output target [1; 5]%nat) as [e|res] eqn:E;
    [vm_compute in E; discriminate E|].
  exists res. split; [reflexivity|].
  exact (accuracy_monotone_in_k output target [1; 5]%nat res eq_refl E).
Defined.

Lemma accuracy_errors_witness :
  (exists what, accuracy [[3; 1; 2]%Q] [0%nat] [1; 5]%nat = raise (RuntimeError what))
  /\ (exists what, accuracy [[3; 1; 2]%Q] [0; 1; 2]%nat [1%nat]
                   = raise (RuntimeError what)).
Proof.
  split.
  - apply (proj1 (proj2 (accuracy_errors [[3; 1; 2]%Q] [0%nat] [1; 5]%nat)) 5%nat).
    + reflexivity.
    + repeat constructor.
  - apply (proj2 (proj2 (accuracy_errors [[3; 1; 2]%Q] [0; 1; 2]%nat [1%nat]))
             1%nat).
    + reflexivity.
    + discriminate.
    + repeat constructor.
    + discriminate.
    + discriminate.
Defined.

Lemma validate_error_order_witness :
  exists v,
    validate (F:=Toy.toy) AverageMeter.init AverageMeter.init tt Toy.val_data false
    = ok v
    /\ (v_err_top5 v <= v_err_top1 v)%Q
    /\ (v_err_top1 v <= 1)%Q.
Proof.
  assert (Hne : Toy.val_data <> []) by discriminate.
  assert (Hgood : Forall (val_batch_good (F:=Toy.toy) (net_eval (framework:=Toy.toy) tt))
                    Toy.val_data).
  { repeat constructor; simpl; try lia; discriminate. }
  exact (validate_error_order (F:=Toy.toy) AverageMeter.init AverageMeter.init tt
           Toy.val_data false Hne Hgood).
Defined.

Lemma validate_needs_five_classes_witness :
  exists e,
    validate (F:=Toy.toy) AverageMeter.init AverageMeter.init tt
      [([[3; 1; 2]%Q], [0%nat])] false = raise e.
Proof.
  apply (validate_needs_five_classes (F:=Toy.toy)).
  repeat constructor.
Defined.

Lemma train_net_start_past_end_witness :
  exists w' o,
    train_net (F:=Toy.toy) 32 2 (PInt 3) Toy.train_data Toy.val_data tt tt
      (Some tt) 50 false Toy.w0 = (w', ok o)
    /\ w_fs w' = w_fs Toy.w0
    /\ phases (w_log w')
       = phases (w_log Toy.w0) ++ (if bool_decide (3 > 1)
                                   then [Validated (3 - 1)] else [])
    /\ o_optimizer o = tt
    /\ o_lp_saver o = Some tt.
Proof.
  apply (train_net_start_past_end (F:=Toy.toy)).
  - lia.
  - lia.
  - repeat constructor; simpl; discriminate.
Defined.

Lemma prepare_trainer_returns_only_on_resume_witness :
  let saved := [("state_dict", PDict []); ("optimizer", PDict []);
                ("epoch", PInt 3); ("best_prec1", PFloat (1 # 4))] in
  let w := mkWorld {[ "last.pth" := PDict saved ]} [] in
  prepare_trainer (F:=Toy.toy) tt "nag" (1 # 10000) (9 # 10) (1 # 10) "last.pth" w
  = (w, ok (tt, PNone, PInt 3, PFloat (1 # 4)))
  /\ exists d state,
       w_fs w !! "last.pth" = Some (PDict d)
       /\ assoc "optimizer" d = Some state
       /\ opt_load_state_dict (framework:=Toy.toy)
            (torch_optim_SGD (framework:=Toy.toy) tt (1 # 10) (9 # 10) (1 # 10000)
               (String.eqb "nag" "nag")) state
          = ok tt
       /\ assoc "epoch" d = Some (PInt 3)
       /\ assoc "best_prec1" d = Some (PFloat (1 # 4)).
Proof.
  intros saved w.
  assert (H : prepare_trainer (F:=Toy.toy) tt "nag" (1 # 10000) (9 # 10) (1 # 10)
                "last.pth" w
              = (w, ok (tt, PNone, PInt 3, PFloat (1 # 4)))) by reflexivity.
  split; [exact H|].
  exact (proj2 (proj2 (proj2 (proj2
           (prepare_trainer_returns_only_on_resume (F:=Toy.toy) tt "nag" (1 # 10000)
              (9 # 10) (1 # 10) "last.pth" w w tt PNone (PInt 3) (PFloat (1 # 4)) H))))).
Defined.

Lemma prepare_model_returns_after_loading_witness :
  let saved := [("state_dict", PDict []); ("optimizer", PDict []);
                ("epoch", PInt 3); ("best_prec1", PFloat (1 # 4))] in
  let w := mkWorld {[ "last.pth" := PDict saved ]} [] in
  let w' := mkWorld (w_fs w) (w_log w ++ [LogLoadingModel "last.pth"]) in
  prepare_model (F:=Toy.toy) "resnet18" 1000 false "last.pth" false w = (w', ok tt)
  /\ exists net d state_dict,
       _get_model (F:=Toy.toy) "resnet18" false 1000 = ok net
       /\ w_fs w !! "last.pth" = Some (PDict d)
       /\ assoc "state_dict" d = Some state_dict
       /\ net_load_state_dict (framework:=Toy.toy)
            (if String.prefix "alexnet" "resnet18" || String.prefix "vgg" "resnet18"
             then data_parallel_features (framework:=Toy.toy) net
             else data_parallel (framework:=Toy.toy) net) state_dict
          = ok tt
       /\ w' = mkWorld (w_fs w) (w_log w ++ [LogLoadingModel "last.pth"]).
Proof.
  intros saved w w'.
  assert (H : prepare_model (F:=Toy.toy) "resnet18" 1000 false "last.pth" false w
              = (w', ok tt)) by reflexivity.
  split; [exact H|].
  apply (prepare_model_returns_after_loading (F:=Toy.toy) "resnet18" 1000 false
           "last.pth" false w w' tt); [discriminate | exact H].
Defined.

Lemma parse_args_defaults_witness :
  let argv := ["--model"; "resnet18"; "--num-epochs"; "5"] in
  let occs := [(1%nat, Some "resnet18"); (8%nat, Some "5")] in
  let args := <["num_epochs" := PInt 5]>
                (<["model" := PStr "resnet18"]> default_namespace) in
  argparse_scan (framework:=Toy.toy) scanner_specs argv = ok occs
  /\ parse_args (F:=Toy.toy) argv = ok args
  /\ args !! "batch_size" = Some (PInt 32).
Proof.
  intros argv occs args.
  assert (Hscan : argparse_scan (framework:=Toy.toy) scanner_specs argv = ok occs)
    by reflexivity.
  assert (Hparse : parse_args (F:=Toy.toy) argv = ok args) by reflexivity.
  split; [exact Hscan|]. split; [exact Hparse|].
  apply (parse_args_defaults (F:=Toy.toy) argv occs args 7
           (mkArg ["--batch-size"] "batch_size" (Store TInt) (PInt 32) false)
           Hscan Hparse); [reflexivity|].
  intros Hin. repeat (apply elem_of_cons in Hin as [Hin|Hin]; [discriminate Hin|]).
  inversion Hin.
Defined.

Lemma parse_args_last_occurrence_witness :
  let argv := ["--num-epochs"; "7"; "--model"; "resnet18"; "--num-epochs"; "5"] in
  let args := <["num_epochs" := PInt 5]>
                (<["model" := PStr "resnet18"]>
                   (<["num_epochs" := PInt 7]> default_namespace)) in
  parse_args (F:=Toy.toy) argv = ok args
  /\ exists s v, Some "5" = Some s
                 /\ convert (F:=Toy.toy) TInt s = ok v
                 /\ args !! "num_epochs" = Some v.
Proof.
  intros argv args.
  assert (Hparse : parse_args (F:=Toy.toy) argv = ok args) by reflexivity.
  split; [exact Hparse|].
  apply (parse_args_last_occurrence (F:=Toy.toy) argv
           [(8%nat, Some "7"); (1%nat, Some "resnet18")] [] (Some "5") args 8
           (mkArg ["--num-epochs"] "num_epochs" (Store TInt) (PInt 3) false)).
  - reflexivity.
  - intros Hin. inversion Hin.
  - exact Hparse.
  - reflexivity.
Defined.

Lemma parse_args_typed_witness :
  let argv := ["--model"; "resnet18"; "--num-epochs"; "5"] in
  let args := <["num_epochs" := PInt 5]>
                (<["model" := PStr "resnet18"]> default_namespace) in
  parse_args (F:=Toy.toy) argv = ok args
  /\ Forall (fun spec => exists v, args !! a_dest spec = Some v
                                   /\ has_type (a_action spec) v) arguments
  /\ forall name, name ∉ a_dest <$> arguments -> args !! name = None.
Proof.
  intros argv args.
  assert (Hparse : parse_args (F:=Toy.toy) argv = ok args) by reflexivity.
  split; [exact Hparse|].
  exact (parse_args_typed (F:=Toy.toy) argv args Hparse).
Defined.

Lemma parse_args_rejects_witness :
  parse_args (F:=Toy.toy) ["--num-epochs"; "5"] = raise (SystemExit 2)
  /\ parse_args (F:=Toy.toy) ["--model"; "resnet18"; "--num-epochs"; "five"]
     = raise (SystemExit 2).
Proof.
  split.
  - apply (parse_args_rejects (F:=Toy.toy) _ [(8%nat, Some "5")]); [reflexivity|].
    left. intros Hin. apply elem_of_cons in Hin as [Hin|Hin]; [discriminate Hin|].
    inversion Hin.
  - apply (parse_args_rejects (F:=Toy.toy) _
             [(1%nat, Some "resnet18"); (8%nat, Some "five")]); [reflexivity|].
    right. apply Exists_cons_tl, Exists_cons_hd.
    exists (mkArg ["--num-epochs"] "num_epochs" (Store TInt) (PInt 3) false), "five".
    split; [reflexivity|]. split; [reflexivity|]. left. split; reflexivity.
Defined.

Lemma fresh_training_cannot_start_witness :
  let args := <["model" := PStr "resnet18"]> default_namespace in
  parse_args (F:=Toy.toy) ["--model"; "resnet18"] = ok args
  /\ exists e, main_from_model (F:=Toy.toy) args false 32 Toy.w0 = (Toy.w0, raise e).
Proof.
  intros args. split; [reflexivity|].
  apply (fresh_training_cannot_start (F:=Toy.toy) args false 32 Toy.w0 Toy.w0
           "resnet18" "" "../imgclsmob_data/imagenet" "nag" false 4 3
           (1 # 10000) (9 # 10) (1 # 10) tt Toy.train_data Toy.val_data);
    reflexivity.
Defined.

Lemma main_log_before_stopping_witness :
  let argv := ["--model"; "resnet18"; "--save-dir"; "out"] in
  let args := <["save_dir" := PStr "out"]>
                (<["model" := PStr "resnet18"]> default_namespace) in
  parse_args (F:=Toy.toy) argv = ok args
  /\ w_log (main (F:=Toy.toy) argv Toy.w0).1
     = [MakeDirs "out";
        AddFileHandler "out/train.log";
        LogCommandLine argv;
        LogArguments (<["seed" := PInt 1234]> args);
        LogEnvStats "torch, torchvision"].
Proof.
  intros argv args.
  assert (Hparse : parse_args (F:=Toy.toy) argv = ok args) by reflexivity.
  split; [exact Hparse|].
  destruct (main_log_before_stopping (F:=Toy.toy) argv args Toy.w0 Hparse)
    as (seed & save_dir & file_name & packages & pip & Hseed & Hdir & Hfile
        & Hpkg & Hpip & _ & Hlog).
  assert (Eseed : Some (PInt seed) = Some (PInt (-1)))
    by (rewrite <- Hseed; reflexivity).
  assert (Edir : Some (PStr save_dir) = Some (PStr "out"))
    by (rewrite <- Hdir; reflexivity).
  assert (Efile : Some (PStr file_name) = Some (PStr "train.log"))
    by (rewrite <- Hfile; reflexivity).
  assert (Epkg : Some (PStr packages) = Some (PStr "torch, torchvision"))
    by (rewrite <- Hpkg; reflexivity).
  assert (Epip : Some (PStr pip) = Some (PStr ""))
    by (rewrite <- Hpip; reflexivity).
  injection Eseed as ->. injection Edir as ->. injection Efile as ->.
  injection Epkg as ->. injection Epip as ->.
  rewrite (Hlog (mkWorld ∅ [MakeDirs "out"; AddFileHandler "out/train.log"])
             "torch, torchvision"); [reflexivity | lia | reflexivity | reflexivity].
Defined.

Lemma get_model_never_raises_ValueError_witness :
  (forall msg, _get_model (F:=Toy.rejecting) "inception_v3" false 1000
               <> raise (ValueError msg))
  /\ _get_model (F:=Toy.rejecting) "inception_v3" false 1000
     = raise (TypeError "argument of type 'module' is not iterable").
Proof.
  destruct (get_model_never_raises_ValueError (F:=Toy.rejecting)
              "inception_v3" false 1000) as [Hnever Hcaught].
  split; [exact Hnever|].
  apply (Hcaught (fun _ _ => raise (ValueError "unexpected arguments"))
           "unexpected arguments"); reflexivity.
Defined.

Lemma train_net_empty_training_set_witness :
  exists w',
    train_net (F:=Toy.toy) 32 3 (PInt 2) [] Toy.val_data tt tt (Some tt) 50 false Toy.w0
    = (w', raise (UnboundLocalError "i"))
    /\ w_fs w' = w_fs Toy.w0
    /\ phases (w_log w')
       = phases (w_log Toy.w0) ++ (if bool_decide (2 > 1)
                                   then [Validated (2 - 1)] else []).
Proof.
  apply (train_net_empty_training_set (F:=Toy.toy)).
  - lia.
  - repeat constructor; simpl; discriminate.
Defined.

Lemma no_epoch_completes_witness :
  loss_not_iterable (F:=Toy.torch_like)
  /\ (exists w' e,
        train_epoch (F:=Toy.torch_like) 1 AverageMeter.init tt Toy.train_data false
          tt 32 0 Toy.w0 = (w', raise e)
        /\ extends (fun ev => epoch_done ev = false) Toy.w0 w')
  /\ (exists w' e,
        train_net (F:=Toy.torch_like) 32 2 (PInt 1) Toy.train_data Toy.val_data tt tt
          (Some tt) 0 false Toy.w0 = (w', raise e)
        /\ extends (fun ev => epoch_done ev = false) Toy.w0 w').
Proof.
  assert (Hloss : loss_not_iterable (F:=Toy.torch_like)) by (intros loss; reflexivity).
  split; [exact Hloss|]. split.
  - apply (no_epoch_completes (F:=Toy.torch_like) Hloss).
  - apply (no_epoch_completes (F:=Toy.torch_like) Hloss). lia.
Defined.

(** With [log_interval = 0] as well: the first epoch stops at its first
    batch, at the parameter count of line 491; a later one at the loss
    of line 493. *)
Example train_net_raises_in_first_batch :
  train_net (F:=Toy.torch_like) 32 2 (PInt 1) Toy.train_data Toy.val_data tt tt
    (Some tt) 0 false Toy.w0
  = (Toy.w0, raise (AttributeError "collect_params"))
  /\ train_epoch (F:=Toy.torch_like) 1 AverageMeter.init tt Toy.train_data false
       tt 32 0 Toy.w0
     = (Toy.w0, raise (TypeError "iteration over a 0-d tensor")).
Proof. split; reflexivity. Qed.

Lemma checkpoints_need_training_and_save_dir_witness :
  let saved := [("state_dict", PDict []); ("optimizer", PDict []);
                ("epoch", PInt 3); ("best_prec1", PFloat (1 # 4))] in
  let w := mkWorld {[ "last.pth" := PDict saved ]} [] in
  let args := <["resume" := PStr "last.pth"]>
                (<["model" := PStr "resnet18"]> default_namespace) in
  parse_args (F:=Toy.toy) ["--model"; "resnet18"; "--resume"; "last.pth"] = ok args
  /\ w_fs (main_from_model (F:=Toy.toy) args false 32 w).1 = w_fs w.
Proof.
  intros saved w args.
  split; [reflexivity|].
  apply (checkpoints_need_training_and_save_dir (F:=Toy.toy) args false 32 w).
  right. left. reflexivity.
Defined.
